(** * School-management backend: enrollment, cascades and grade aggregation

    A shallow embedding of the service layer of the Express/Mongoose
    backend (services/studentService.js, services/classroomService.js,
    services/attendanceService.js, services/gradeService.js,
    services/teacherService.js and the Mongoose models they use).

    Conventions of the embedding:
    - a MongoDB collection is a finite map from [_id] to document;
    - an ObjectId is a natural number (only equality is ever used:
      [includes], [$in], [$pull], [toString() === toString()]);
    - an array field is a list, [push] appends, [$pull] and
      [filter(x => x !== v)] remove every occurrence;
    - an [async] method is a function from the store to an outcome and the
      store it leaves behind;
    - a thrown error is the [Err] outcome, tagged by the message of the
      [throw] in the source;
    - a JavaScript Number used as a count or a time stamp is an integer
      ([Z]); the Numbers of the weighted averages are IEEE-754 doubles
      ([Float64], every operation rounded to nearest); the classroom
      statistics, whose claims are about extremes and counts, are computed
      over the exact rationals the grades hold ([Q]). *)

From stdpp Require Import gmap list strings pretty.
From Stdlib Require Import ZArith QArith Qround Qabs Qminmax Lia SpecFloat.

Local Open Scope Z_scope.
Local Open Scope nat_scope.

(** ** Errors *)

(** One constructor per [throw] of the services, named after its message. *)
Inductive Error : Type :=
| NoStudentFound        (* `No student found with id ...`, 404; 'Student not found' *)
| NoClassroomFound      (* `No classroom found with id ...`, 404; 'Classroom not found' *)
| NoTeacherFound        (* `No teacher found with id ...`, 404 *)
| AlreadyEnrolled       (* `Student is already enrolled in this classroom`, 400 *)
| AtMaximumCapacity     (* `Classroom is at maximum capacity`, 400 *)
| NotEnrolled           (* `Student is not enrolled in this classroom`, 400 *)
| StudentStillEnrolled  (* `Cannot delete student enrolled in N classrooms. ...`, 400 *)
| TeacherHasClassrooms  (* `Cannot delete teacher with N active classrooms. ...`, 400 *)
| AttendanceExists      (* 'Attendance record already exists for this date' *)
| DuplicateKey          (* E11000, raised by a unique index on insert *)
| WriteFailed.          (* a store write or a commit that throws *)

(** The error taxonomy of the specification. *)
Inductive ErrorKind : Type := NotFound | Conflict | CapacityExceeded | Transient.

Definition kind (e : Error) : ErrorKind :=
  match e with
  | NoStudentFound | NoClassroomFound | NoTeacherFound => NotFound
  | AtMaximumCapacity => CapacityExceeded
  | WriteFailed => Transient
  | AlreadyEnrolled | NotEnrolled | StudentStillEnrolled
  | TeacherHasClassrooms | AttendanceExists | DuplicateKey => Conflict
  end.

Inductive result (A : Type) : Type :=
| Ok (a : A)
| Err (e : Error).
Arguments Ok {A} a.
Arguments Err {A} e.

Definition is_ok {A} (r : result A) : bool :=
  match r with Ok _ => true | Err _ => false end.

(** ** Array helpers *)

(** [arr.includes(x)] on an array of ObjectIds. *)
Definition includes (x : nat) (arr : list nat) : bool := bool_decide (x ∈ arr).

(** [arr.push(x)]. *)
Definition push (x : nat) (arr : list nat) : list nat := arr ++ [x].

(** [{ $pull: { field: x } }] and [arr.filter(id => id.toString() !== x.toString())]. *)
Definition pull (x : nat) (arr : list nat) : list nat := filter (λ y, y ≠ x) arr.

(** ** Documents *)

Module User.
(** Modelled from the spec: the User schema, whose model file is not among
    the sources (section 3: username, email, hashed password, role, active
    flag). The three roles are those [userService.updateUserRole] accepts. *)
Inductive Role : Type := student | teacher | admin.

Record t : Type := mk {
  username : nat;
  email : nat;
  password : nat;
  role : Role;
  isActive : bool
}.

(** [user.role = r]. *)
Definition set_role (r : Role) (u : t) : t :=
  {| username := username u; email := email u; password := password u;
     role := r; isActive := isActive u |}.
End User.

Module Student.
Record t : Type := mk {
  userId : nat;
  classrooms : list nat
}.

Definition set_classrooms (cs : list nat) (s : t) : t :=
  {| userId := userId s; classrooms := cs |}.
End Student.

Module Teacher.
Record t : Type := mk {
  userId : nat;
  classrooms : list nat
}.

Definition set_classrooms (cs : list nat) (s : t) : t :=
  {| userId := userId s; classrooms := cs |}.
End Teacher.

Module Classroom.
Record t : Type := mk {
  teacherId : nat;
  students : list nat;
  maxCapacity : option Z   (* [Number], not required, no validator *)
}.

Definition set_students (ss : list nat) (c : t) : t :=
  {| teacherId := teacherId c; students := ss; maxCapacity := maxCapacity c |}.

(** [ClassroomSchema.methods.isAtCapacity]:
    [if (!this.maxCapacity) return false;
     return this.students.length >= this.maxCapacity;]
    [!this.maxCapacity] holds for an absent field and for 0. *)
Definition isAtCapacity (c : t) : bool :=
  match maxCapacity c with
  | None => false
  | Some m =>
      if (m =? 0)%Z then false
      else (m <=? Z.of_nat (length (students c)))%Z
  end.
End Classroom.

Module Grade.
Inductive AssignmentType : Type :=
| quiz | exam | homework | project | participation | midterm | final | other.

(** [score], [maxScore] and [weightage] hold the numbers as the request
    wrote them; the Number that JavaScript computes with is the double
    closest to them, [Float64.ofQ]. *)
Record t : Type := mk {
  studentId : nat;
  classroomId : nat;
  assignmentType : AssignmentType;
  score : Q;
  maxScore : Q;
  weightage : Q
}.
End Grade.

Module Attendance.
Inductive Status : Type := present | absent | late | excused.

Record AttendanceRecord : Type := mkRecord {
  studentId : nat;
  status : Status;
  minutesLate : Z
}.

Record t : Type := mk {
  classroomId : nat;
  date : Z;                 (* milliseconds since the epoch *)
  records : list AttendanceRecord
}.

Definition set_records (rs : list AttendanceRecord) (a : t) : t :=
  {| classroomId := classroomId a; date := date a; records := rs |}.
End Attendance.

(** ** The store *)

Record Store : Type := mkStore {
  db_users : gmap nat User.t;
  db_students : gmap nat Student.t;
  db_teachers : gmap nat Teacher.t;
  db_classrooms : gmap nat Classroom.t;
  db_grades : gmap nat Grade.t;
  db_attendances : gmap nat Attendance.t
}.

Definition with_users (f : gmap nat User.t → gmap nat User.t) (db : Store) : Store :=
  {| db_users := f (db_users db); db_students := db_students db;
     db_teachers := db_teachers db; db_classrooms := db_classrooms db;
     db_grades := db_grades db; db_attendances := db_attendances db |}.

Definition with_students (f : gmap nat Student.t → gmap nat Student.t) (db : Store) : Store :=
  {| db_users := db_users db; db_students := f (db_students db);
     db_teachers := db_teachers db; db_classrooms := db_classrooms db;
     db_grades := db_grades db; db_attendances := db_attendances db |}.

Definition with_teachers (f : gmap nat Teacher.t → gmap nat Teacher.t) (db : Store) : Store :=
  {| db_users := db_users db; db_students := db_students db;
     db_teachers := f (db_teachers db); db_classrooms := db_classrooms db;
     db_grades := db_grades db; db_attendances := db_attendances db |}.

Definition with_classrooms (f : gmap nat Classroom.t → gmap nat Classroom.t) (db : Store) : Store :=
  {| db_users := db_users db; db_students := db_students db;
     db_teachers := db_teachers db; db_classrooms := f (db_classrooms db);
     db_grades := db_grades db; db_attendances := db_attendances db |}.

Definition with_grades (f : gmap nat Grade.t → gmap nat Grade.t) (db : Store) : Store :=
  {| db_users := db_users db; db_students := db_students db;
     db_teachers := db_teachers db; db_classrooms := db_classrooms db;
     db_grades := f (db_grades db); db_attendances := db_attendances db |}.

Definition with_attendances (f : gmap nat Attendance.t → gmap nat Attendance.t) (db : Store) : Store :=
  {| db_users := db_users db; db_students := db_students db;
     db_teachers := db_teachers db; db_classrooms := db_classrooms db;
     db_grades := db_grades db; db_attendances := f (db_attendances db) |}.

Definition empty_store : Store :=
  {| db_users := ∅; db_students := ∅; db_teachers := ∅;
     db_classrooms := ∅; db_grades := ∅; db_attendances := ∅ |}.

(** ** Failing writes *)

(** A fault plan tells which of the successive writes of one service call
    (its saves or session operations, then its commit) throws. The
    services never choose it: it stands for the store failing under them. *)
Definition Faults : Type := nat → bool.

Definition no_faults : Faults := λ _, false.

(** ** services/studentService.js: enrollment *)

Module StudentService.

(** [await Promise.all([classroom.save(), student.save()])], outside any
    session: the two saves are independent writes. [faults 0] is
    [classroom.save()] rejected, [faults 1] is [student.save()] rejected; a
    save that is not rejected stores its document, whatever becomes of the
    other, and the call throws when either is rejected. *)
Definition saveBoth (faults : Faults) (classroomId : nat) (classroom : Classroom.t)
    (studentId : nat) (student : Student.t) (db : Store) : Store :=
  let db1 := if faults 0 then db else with_classrooms (insert classroomId classroom) db in
  if faults 1 then db1 else with_students (insert studentId student) db1.

(** [enrollInClassroom(studentId, classroomId)]. *)
Definition enrollInClassroom (faults : Faults) (studentId classroomId : nat) (db : Store)
  : result (Student.t * Classroom.t) * Store :=
  match db_students db !! studentId with
  | None => (Err NoStudentFound, db)
  | Some student =>
      match db_classrooms db !! classroomId with
      | None => (Err NoClassroomFound, db)
      | Some classroom =>
          if includes studentId (Classroom.students classroom)
          then (Err AlreadyEnrolled, db)
          else if Classroom.isAtCapacity classroom
          then (Err AtMaximumCapacity, db)
          else
            let classroom' :=
              Classroom.set_students (push studentId (Classroom.students classroom)) classroom in
            let student' :=
              Student.set_classrooms (push classroomId (Student.classrooms student)) student in
            (if faults 0 || faults 1 then Err WriteFailed else Ok (student', classroom'),
             saveBoth faults classroomId classroom' studentId student' db)
      end
  end.

(** [withdrawFromClassroom(studentId, classroomId)]. *)
Definition withdrawFromClassroom (faults : Faults) (studentId classroomId : nat) (db : Store)
  : result (Student.t * Classroom.t) * Store :=
  match db_students db !! studentId with
  | None => (Err NoStudentFound, db)
  | Some student =>
      match db_classrooms db !! classroomId with
      | None => (Err NoClassroomFound, db)
      | Some classroom =>
          if negb (includes studentId (Classroom.students classroom))
          then (Err NotEnrolled, db)
          else
            let classroom' :=
              Classroom.set_students (pull studentId (Classroom.students classroom)) classroom in
            let student' :=
              Student.set_classrooms (pull classroomId (Student.classrooms student)) student in
            (if faults 0 || faults 1 then Err WriteFailed else Ok (student', classroom'),
             saveBoth faults classroomId classroom' studentId student' db)
      end
  end.

(** The documents [Attendance.find({ 'records.studentId': studentId })]
    returns. *)
Definition hasRecordOf (studentId : nat) (a : Attendance.t) : Prop :=
  Exists (λ r, Attendance.studentId r = studentId) (Attendance.records a).

Definition findAttendanceOf (studentId : nat) (m : gmap nat Attendance.t)
  : list (nat * Attendance.t) :=
  map_to_list (filter (λ kv, hasRecordOf studentId kv.2) m).

(** [attendance.records.filter(record =>
       record.studentId.toString() !== studentId.toString())]. *)
Definition stripRecords (studentId : nat) (rs : list Attendance.AttendanceRecord)
  : list Attendance.AttendanceRecord :=
  filter (λ r, Attendance.studentId r ≠ studentId) rs.

(** One turn of [for (const attendance of attendanceRecords)]. *)
Definition cleanAttendance (studentId : nat) (m : gmap nat Attendance.t)
    (doc : nat * Attendance.t) : gmap nat Attendance.t :=
  let records' := stripRecords studentId (Attendance.records doc.2) in
  if (length records' =? 0)%nat
  then delete doc.1 m                                      (* attendance.remove() *)
  else <[doc.1 := Attendance.set_records records' doc.2]> m. (* attendance.save() *)

(** [deleteStudent(studentId)]. *)
Definition deleteStudent (studentId : nat) (db : Store) : result bool * Store :=
  match db_students db !! studentId with
  | None => (Err NoStudentFound, db)
  | Some student =>
      if (0 <? length (Student.classrooms student))%nat
      then (Err StudentStillEnrolled, db)
      else
        (* await Grade.deleteMany({ studentId }) *)
        let db1 := with_grades (filter (λ kv, Grade.studentId kv.2 ≠ studentId)) db in
        let attendanceRecords := findAttendanceOf studentId (db_attendances db1) in
        let db2 :=
          with_attendances (λ m, foldl (cleanAttendance studentId) m attendanceRecords) db1 in
        (* await student.remove() *)
        (Ok true, with_students (delete studentId) db2)
  end.

End StudentService.

(** ** Transactions of services/classroomService.js *)

Module Session.

(** The body of a [try] block that runs between [session.startTransaction()]
    and [session.commitTransaction()]: it sees and extends the session's
    view of the store, or throws. *)
Definition tx (A : Type) : Type := Store → result (A * Store).

Definition ret {A} (a : A) : tx A := λ w, Ok (a, w).

Definition bind {A B} (m : tx A) (k : A → tx B) : tx B :=
  λ w, match m w with
       | Ok (a, w') => k a w'
       | Err e => Err e
       end.

Definition throw {A} (e : Error) : tx A := λ _, Err e.

Definition get : tx Store := λ w, Ok (w, w).

(** The [n]-th write carrying [{ session }]. *)
Definition write (faults : Faults) (n : nat) (f : Store → Store) : tx unit :=
  λ w, if faults n then Err WriteFailed else Ok (tt, f w).

(** [await session.commitTransaction()], the [n]-th session operation. *)
Definition commit (faults : Faults) (n : nat) : tx unit :=
  λ w, if faults n then Err WriteFailed else Ok (tt, w).

(** [try { session.startTransaction(); body; } catch (error)
     { await session.abortTransaction(); throw ... }]:
    the writes of [body] reach the store only if [body] returns. *)
Definition transaction {A} (body : tx A) (db : Store) : result A * Store :=
  match body db with
  | Ok (a, w) => (Ok a, w)
  | Err e => (Err e, db)
  end.

End Session.

#[global] Instance tx_ret : MRet Session.tx := @Session.ret.
#[global] Instance tx_bind : MBind Session.tx := λ A B k m, Session.bind m k.

Module ClassroomService.
Import Session.

(** [const classroom = await Classroom.findById(id);
     if (!classroom) throw new Error('Classroom not found');] *)
Definition findClassroom (id : nat) : tx Classroom.t :=
  w ← get;
  match db_classrooms w !! id with
  | Some classroom => ret classroom
  | None => throw NoClassroomFound
  end.

(** [const student = await Student.findById(studentId);
     if (!student) throw new Error('Student not found');] *)
Definition findStudent (id : nat) : tx Student.t :=
  w ← get;
  match db_students w !! id with
  | Some student => ret student
  | None => throw NoStudentFound
  end.

(** [Teacher.findByIdAndUpdate(tid, { $pull: { classrooms: cid } })]. *)
Definition pullTeacherClassroom (tid cid : nat) : Store → Store :=
  with_teachers
    (alter (λ t, Teacher.set_classrooms (pull cid (Teacher.classrooms t)) t) tid).

(** [Student.updateMany({ _id: { $in: ids } }, { $pull: { classrooms: cid } })]. *)
Definition pullStudentsClassroom (ids : list nat) (cid : nat) : Store → Store :=
  with_students
    (map_imap (λ sid s,
       Some (if includes sid ids
             then Student.set_classrooms (pull cid (Student.classrooms s)) s
             else s))).

(** [deleteClassroom(id)]. *)
Definition deleteClassroom (faults : Faults) (id : nat) (db : Store)
  : result bool * Store :=
  transaction
    (classroom ← findClassroom id;
     write faults 0 (pullTeacherClassroom (Classroom.teacherId classroom) id) ;;
     write faults 1 (pullStudentsClassroom (Classroom.students classroom) id) ;;
     write faults 2 (with_classrooms (delete id)) ;;
     commit faults 3 ;;
     ret true)
    db.

(** [addStudentToClassroom(classroomId, studentId)]; the value returned
    is the classroom read back after the commit. *)
Definition addStudentToClassroom (faults : Faults) (classroomId studentId : nat)
    (db : Store) : result (option Classroom.t) * Store :=
  transaction
    (classroom ← findClassroom classroomId;
     if Classroom.isAtCapacity classroom then throw AtMaximumCapacity
     else
       student ← findStudent studentId;
       if includes studentId (Classroom.students classroom)
       then throw AlreadyEnrolled
       else
         write faults 0
           (with_classrooms
              (alter (λ c, Classroom.set_students (push studentId (Classroom.students c)) c)
                 classroomId)) ;;
         write faults 1
           (with_students
              (alter (λ s, Student.set_classrooms (push classroomId (Student.classrooms s)) s)
                 studentId)) ;;
         commit faults 2 ;;
         w ← get;
         ret (db_classrooms w !! classroomId))
    db.

(** [removeStudentFromClassroom(classroomId, studentId)]. *)
Definition removeStudentFromClassroom (faults : Faults) (classroomId studentId : nat)
    (db : Store) : result (option Classroom.t) * Store :=
  transaction
    (classroom ← findClassroom classroomId;
     student ← findStudent studentId;
     write faults 0
       (with_classrooms
          (alter (λ c, Classroom.set_students (pull studentId (Classroom.students c)) c)
             classroomId)) ;;
     write faults 1
       (with_students
          (alter (λ s, Student.set_classrooms (pull classroomId (Student.classrooms s)) s)
             studentId)) ;;
     commit faults 2 ;;
     w ← get;
     ret (db_classrooms w !! classroomId))
    db.

End ClassroomService.

(** ** services/teacherService.js *)

Module TeacherService.

(** [Classroom.countDocuments({ teacherId })]. *)
Definition countClassrooms (teacherId : nat) (m : gmap nat Classroom.t) : nat :=
  size (filter (λ kv : nat * Classroom.t, Classroom.teacherId kv.2 = teacherId) m).

(** [deleteTeacher(teacherId)]. *)
Definition deleteTeacher (teacherId : nat) (db : Store) : result bool * Store :=
  match db_teachers db !! teacherId with
  | None => (Err NoTeacherFound, db)
  | Some teacher =>
      let classroomCount := countClassrooms teacherId (db_classrooms db) in
      if (0 <? classroomCount)%nat
      then (Err TeacherHasClassrooms, db)
      else
        let db1 :=
          match db_users db !! Teacher.userId teacher with
          | Some user =>
              (* user.role = 'student'; await user.save(); *)
              with_users (insert (Teacher.userId teacher) (User.set_role User.student user)) db
          | None => db
          end in
        (* await teacher.remove() *)
        (Ok true, with_teachers (delete teacherId) db1)
  end.

End TeacherService.

(** ** services/attendanceService.js *)

Module AttendanceService.

Definition msPerDay : Z := 86400000.

(** [new Date(t).setHours(0, 0, 0, 0)]: local midnight of the day of [t],
    for a server whose local time is [tz] milliseconds ahead of UTC. *)
Definition startOfDay (tz t : Z) : Z := (t - (t + tz) `mod` msPerDay)%Z.

(** [Attendance.findOne({ classroomId, date })]. *)
Definition findOne (classroomId : nat) (date : Z) (m : gmap nat Attendance.t)
  : option (nat * Attendance.t) :=
  head (map_to_list
          (filter (λ kv : nat * Attendance.t,
                     Attendance.classroomId kv.2 = classroomId ∧ Attendance.date kv.2 = date)
             m)).

(** [Attendance.create(attendanceData)] under the unique index
    [{ classroomId: 1, date: 1 }] of the schema; [_id] is the ObjectId the
    driver generates. *)
Definition create (_id : nat) (attendanceData : Attendance.t) (db : Store)
  : result Attendance.t * Store :=
  match findOne (Attendance.classroomId attendanceData) (Attendance.date attendanceData)
          (db_attendances db) with
  | Some _ => (Err DuplicateKey, db)
  | None =>
      match db_attendances db !! _id with
      | Some _ => (Err DuplicateKey, db)
      | None => (Ok attendanceData, with_attendances (insert _id attendanceData) db)
      end
  end.

(** [createAttendance(attendanceData)]. *)
Definition createAttendance (tz : Z) (_id : nat) (attendanceData : Attendance.t) (db : Store)
  : result Attendance.t * Store :=
  match db_classrooms db !! Attendance.classroomId attendanceData with
  | None => (Err NoClassroomFound, db)
  | Some classroom =>
      let existingAttendance :=
        findOne (Attendance.classroomId attendanceData)
          (startOfDay tz (Attendance.date attendanceData)) (db_attendances db) in
      match existingAttendance with
      | Some _ => (Err AttendanceExists, db)
      | None => create _id attendanceData db
      end
  end.

End AttendanceService.

(** ** services/gradeService.js *)

(** What a JavaScript expression of the grade service evaluates to: a
    Number, or the String that [toFixed] prints. *)
Inductive JsValue : Type :=
| JsNumber (q : Q)
| JsString (s : string).

(** The magnitude, in hundredths, that [x.toFixed(2)] prints: the integer
    [n] with [n / 100] closest to [|x|], the larger one on a tie. *)
Definition hundredths (x : Q) : Z := Qfloor (Qabs x * 100 + (1 # 2))%Q.

Definition twoDigits (n : N) : string :=
  if (n <? 10)%N then "0" +:+ pretty n else pretty n.

(** [x.toFixed(2)] (for [|x| < 1e21], where the notation is positional). *)
Definition toFixed2 (x : Q) : string :=
  let n := Z.to_N (hundredths x) in
  (if Qlt_le_dec x 0%Q then "-" else "")
  +:+ pretty (n `div` 100)%N +:+ "." +:+ twoDigits (n `mod` 100)%N.

(** ** JavaScript Numbers *)

Module Float64.

(** An IEEE-754 binary64 value, as [SpecFloat] of the Standard Library
    defines it: 53 bits of precision, exponents below 1024, every operation
    rounded to the nearest value, ties to the even one. *)
Definition t : Type := spec_float.

Definition prec : Z := 53.
Definition emax : Z := 1024.

Definition add : t → t → t := SFadd prec emax.
Definition mul : t → t → t := SFmul prec emax.
Definition div : t → t → t := SFdiv prec emax.

(** [x < y]: false when either is NaN. *)
Definition ltb : t → t → bool := SFltb.

Definition zero : t := S754_zero false.

(** The Number of an integer literal. *)
Definition ofZ (z : Z) : t := binary_normalize prec emax z 0 false.

(** The Number closest to a rational: what a decimal literal, or a number
    of a JSON body, denotes. *)
Definition ofQ (q : Q) : t :=
  match Qnum q with
  | Z0 => zero
  | Zpos n => div (S754_finite false n 0) (S754_finite false (Qden q) 0)
  | Zneg n => div (S754_finite true n 0) (S754_finite false (Qden q) 0)
  end.

(** The exact value of a finite Number. *)
Definition toQ (x : t) : option Q :=
  match x with
  | S754_zero _ => Some 0%Q
  | S754_finite s m e => Some (inject_Z (if s then Z.neg m else Z.pos m) * 2 ^ e)%Q
  | S754_infinity _ | S754_nan => None
  end.

(** What [x.toFixed(2)] returns: digits, or, from 10^21 on, the Number in
    exponent notation, which is not spelled out here. *)
Inductive Printed : Type :=
| Digits (s : string)
| Exponential (x : t).

(** [x.toFixed(2)]: "NaN" for NaN; [String(x)] from 10^21 on; otherwise the
    sign and the integer [n] for which [n / 100] is closest to the exact
    value of [|x|], the larger one on a tie. *)
Definition toFixed2 (x : t) : Printed :=
  match x with
  | S754_nan => Digits "NaN"
  | S754_infinity false => Digits "Infinity"
  | S754_infinity true => Digits "-Infinity"
  | S754_zero _ => Digits (toFixed2 0)
  | S754_finite s m e =>
      let q := (inject_Z (if s then Z.neg m else Z.pos m) * 2 ^ e)%Q in
      if Qle_bool (10 ^ 21) (Qabs q) then Exponential x else Digits (toFixed2 q)
  end.

(** [x ? ... : ...]: 0, -0 and NaN are falsy. *)
Definition truthy (x : t) : bool :=
  match x with
  | S754_zero _ | S754_nan => false
  | S754_infinity _ | S754_finite _ _ _ => true
  end.

End Float64.

Module GradeService.

(** [(grade.score / grade.maxScore) * 100], over the rationals (for the
    classroom statistics). *)
Definition percentage (grade : Grade.t) : Q :=
  (Grade.score grade / Grade.maxScore grade * 100)%Q.

(** [(grade.score / grade.maxScore) * 100], as JavaScript computes it. *)
Definition percentage64 (grade : Grade.t) : Float64.t :=
  Float64.mul
    (Float64.div (Float64.ofQ (Grade.score grade)) (Float64.ofQ (Grade.maxScore grade)))
    (Float64.ofZ 100).

(** What [getStudentAverage] returns: the Number 0, or what [toFixed(2)]
    returns. *)
Inductive Average : Type :=
| NumberZero
| Text (p : Float64.Printed).

(** [Grade.find({ studentId, classroomId })]: the matching documents, in
    the order of the map ([find] without a sort promises no order). *)
Definition findByStudentClassroom (studentId classroomId : nat) (m : gmap nat Grade.t)
  : list Grade.t :=
  (map_to_list
     (filter (λ kv : nat * Grade.t,
                Grade.studentId kv.2 = studentId ∧ Grade.classroomId kv.2 = classroomId)
        m)).*2.

(** [Grade.find({ classroomId })]. *)
Definition findByClassroom (classroomId : nat) (m : gmap nat Grade.t) : list Grade.t :=
  (map_to_list
     (filter (λ kv : nat * Grade.t, Grade.classroomId kv.2 = classroomId) m)).*2.

(** The body of [getStudentAverage] once the grades are fetched. *)
Definition average (grades : list Grade.t) : Average :=
  if (length grades =? 0)%nat then NumberZero
  else
    let '(totalWeightedScore, totalWeightage) :=
      foldl (λ '(tws, tw) grade,
               (Float64.add tws
                  (Float64.mul (percentage64 grade) (Float64.ofQ (Grade.weightage grade))),
                Float64.add tw (Float64.ofQ (Grade.weightage grade))))
        (Float64.zero, Float64.zero) grades in
    if Float64.ltb Float64.zero totalWeightage
    then Text (Float64.toFixed2 (Float64.div totalWeightedScore totalWeightage))
    else NumberZero.

(** [getStudentAverage(studentId, classroomId)]. *)
Definition getStudentAverage (studentId classroomId : nat) (db : Store) : Average :=
  average (findByStudentClassroom studentId classroomId (db_grades db)).

Record Statistics : Type := mkStatistics {
  averageScore : JsValue;
  highestScore : JsValue;
  lowestScore : JsValue;
  assignmentCount : nat;
  assignmentTypes : list (Grade.AssignmentType * nat)   (* own keys, in insertion order *)
}.

#[global] Instance AssignmentType_eq_dec : EqDecision Grade.AssignmentType.
Proof. solve_decision. Defined.

(** [if (assignmentTypes[t]) assignmentTypes[t]++; else assignmentTypes[t] = 1;] *)
Fixpoint countType (t : Grade.AssignmentType) (o : list (Grade.AssignmentType * nat))
  : list (Grade.AssignmentType * nat) :=
  match o with
  | [] => [(t, 1)]
  | (k, n) :: o' =>
      if decide (k = t)
      then (if (0 <? n)%nat then (k, S n) else (k, 1)) :: o'
      else (k, n) :: countType t o'
  end.

Record Acc : Type := mkAcc {
  totalPercentage : Q;
  highest : Q;
  lowest : Q;
  types : list (Grade.AssignmentType * nat)
}.

(** One turn of [grades.forEach] in [getClassroomGradeStatistics]. *)
Definition visit (a : Acc) (grade : Grade.t) : Acc :=
  let p := percentage grade in
  {| totalPercentage := (totalPercentage a + p)%Q;
     highest := if Qlt_le_dec (highest a) p then p else highest a;
     lowest := if Qlt_le_dec p (lowest a) then p else lowest a;
     types := countType (Grade.assignmentType grade) (types a) |}.

(** The body of [getClassroomGradeStatistics] once the grades are fetched. *)
Definition statistics (grades : list Grade.t) : Statistics :=
  if (length grades =? 0)%nat
  then {| averageScore := JsNumber 0%Q; highestScore := JsNumber 0%Q;
          lowestScore := JsNumber 0%Q; assignmentCount := 0; assignmentTypes := [] |}
  else
    let a := foldl visit
               {| totalPercentage := 0%Q; highest := 0%Q; lowest := 100%Q; types := [] |}
               grades in
    {| averageScore := JsString (toFixed2 (totalPercentage a / inject_Z (Z.of_nat (length grades)))%Q);
       highestScore := JsString (toFixed2 (highest a));
       lowestScore := JsString (toFixed2 (lowest a));
       assignmentCount := length grades;
       assignmentTypes := types a |}.

(** [getClassroomGradeStatistics(classroomId)]. *)
Definition getClassroomGradeStatistics (classroomId : nat) (db : Store) : Statistics :=
  statistics (findByClassroom classroomId (db_grades db)).

End GradeService.

(** ** Sequences of enrollment operations *)

Inductive Op : Type :=
| Enroll (faults : Faults) (studentId classroomId : nat)
| Withdraw (faults : Faults) (studentId classroomId : nat)
| AddStudent (faults : Faults) (classroomId studentId : nat)
| RemoveStudent (faults : Faults) (classroomId studentId : nat)
| DeleteClassroom (faults : Faults) (id : nat).

(** The store left by one call, whether it returned or threw. *)
Definition exec (op : Op) (db : Store) : Store :=
  match op with
  | Enroll f s c => (StudentService.enrollInClassroom f s c db).2
  | Withdraw f s c => (StudentService.withdrawFromClassroom f s c db).2
  | AddStudent f c s => (ClassroomService.addStudentToClassroom f c s db).2
  | RemoveStudent f c s => (ClassroomService.removeStudentFromClassroom f c s db).2
  | DeleteClassroom f c => (ClassroomService.deleteClassroom f c db).2
  end.

Definition run (ops : list Op) (db : Store) : Store := foldl (λ d op, exec op d) db ops.

(** * The rest of the service layer *)

(** ** Further throws *)

(** The throws of the functions below that [Error] does not list, again
    named after their messages. *)
Inductive Throw : Type :=
| Known (e : Error)
| NoUserFound            (* `No user found with id ...`, 404; 'User not found' *)
| StudentProfileExists   (* `User already has a student profile`, 400 *)
| TeacherProfileExists   (* `User already has a teacher profile`, 400 *)
| NoAttendanceFound      (* 'Attendance record not found' *)
| NoStudentRecord        (* 'Student record not found in this attendance' *)
| StudentRecordExists    (* 'Student already exists in this attendance record' *)
| SubjectExists          (* `Teacher already has subject ...`, 400 *)
| SubjectMissing         (* `Teacher does not have subject ...`, 400 *)
| InvalidRole.           (* 'Invalid role' *)

Inductive outcome (A : Type) : Type :=
| Returned (a : A)
| Threw (t : Throw).
Arguments Returned {A} a.
Arguments Threw {A} t.

#[global] Instance Role_eq_dec : EqDecision User.Role.
Proof. solve_decision. Defined.

#[global] Instance Status_eq_dec : EqDecision Attendance.Status.
Proof. solve_decision. Defined.

(** [Model.findOne(query)] and [Model.findOneAndDelete(query)] on a
    collection, the query being a decidable property of the document. *)
Definition findFirst {A} (P : A → Prop) `{∀ a, Decision (P a)} (m : gmap nat A)
  : option (nat * A) :=
  head (map_to_list (filter (λ kv : nat * A, P kv.2) m)).

Definition deleteFirst {A} (P : A → Prop) `{∀ a, Decision (P a)} (m : gmap nat A)
  : gmap nat A :=
  match findFirst P m with
  | Some kv => delete kv.1 m
  | None => m
  end.

(** ** models/Classroom.js: the virtual [enrollmentCount] *)

(** [return this.students ? this.students.length : 0;] (an array path is
    never absent on a Mongoose document). *)
Definition enrollmentCount (c : Classroom.t) : nat := length (Classroom.students c).

(** ** services/classroomService.js: creation and queries *)

Module ClassroomServiceExt.
Import Session.

(** [Classroom.create([classroomData], { session })], the first session
    operation; [_id] is the ObjectId given to the new document. *)
Definition createDoc (faults : Faults) (_id : nat) (classroomData : Classroom.t) : tx unit :=
  λ w, if faults 0 then Err WriteFailed
       else match db_classrooms w !! _id with
            | Some _ => Err DuplicateKey
            | None => Ok (tt, with_classrooms (insert _id classroomData) w)
            end.

(** [Teacher.findByIdAndUpdate(tid, { $push: { classrooms: cid } })]. *)
Definition pushTeacherClassroom (tid cid : nat) : Store → Store :=
  with_teachers
    (alter (λ t, Teacher.set_classrooms (push cid (Teacher.classrooms t)) t) tid).

(** [createClassroom(classroomData)]. *)
Definition createClassroom (faults : Faults) (_id : nat) (classroomData : Classroom.t)
    (db : Store) : result Classroom.t * Store :=
  transaction
    (createDoc faults _id classroomData ;;
     write faults 1 (pushTeacherClassroom (Classroom.teacherId classroomData) _id) ;;
     commit faults 2 ;;
     ret classroomData)
    db.

(** The documents [getStudentClassrooms(studentId)] finds:
    [Classroom.find({ _id: { $in: student.classrooms } })]; their order
    (by year and semester) and the populated teacher are not modelled. *)
Definition getStudentClassrooms (studentId : nat) (db : Store)
  : result (gmap nat Classroom.t) :=
  match db_students db !! studentId with
  | None => Err NoStudentFound
  | Some student =>
      Ok (filter (λ kv : nat * Classroom.t, kv.1 ∈ Student.classrooms student)
            (db_classrooms db))
  end.

(** The documents [getTeacherClassrooms(teacherId)] finds:
    [Classroom.find({ teacherId })]. *)
Definition getTeacherClassrooms (teacherId : nat) (db : Store) : gmap nat Classroom.t :=
  filter (λ kv : nat * Classroom.t, Classroom.teacherId kv.2 = teacherId) (db_classrooms db).

End ClassroomServiceExt.

(** ** services/studentService.js: profiles and queries *)

Module StudentServiceExt.

(** [createStudent(studentData)]. Neither write is in a transaction:
    [faults 0] is [user.save()] throwing, [faults 1] is
    [Student.create(studentData)] throwing (validation of fields outside
    the model, a taken external student number). *)
Definition createStudent (faults : Faults) (_id : nat) (studentData : Student.t)
    (db : Store) : outcome Student.t * Store :=
  match db_users db !! Student.userId studentData with
  | None => (Threw NoUserFound, db)
  | Some user =>
      match findFirst (λ s, Student.userId s = Student.userId studentData)
              (db_students db) with
      | Some _ => (Threw StudentProfileExists, db)
      | None =>
          let saved : option Store :=
            if decide (User.role user = User.student) then Some db
            else if faults 0 then None
            else Some (with_users
                         (insert (Student.userId studentData)
                            (User.set_role User.student user)) db) in
          match saved with
          | None => (Threw (Known WriteFailed), db)
          | Some db1 =>
              if faults 1 then (Threw (Known WriteFailed), db1)
              else match db_students db1 !! _id with
                   | Some _ => (Threw (Known DuplicateKey), db1)
                   | None =>
                       (Returned studentData,
                        with_students (insert _id studentData) db1)
                   end
          end
      end
  end.

(** The documents [getStudentClassrooms(studentId)] finds:
    [Classroom.find({ students: studentId })]; order and populated fields
    are not modelled. *)
Definition getStudentClassrooms (studentId : nat) (db : Store)
  : result (gmap nat Classroom.t) :=
  match db_students db !! studentId with
  | None => Err NoStudentFound
  | Some student =>
      Ok (filter (λ kv : nat * Classroom.t, studentId ∈ Classroom.students kv.2)
            (db_classrooms db))
  end.

(** The [gpa] field of what [getStudentGrades(studentId, classroomId)]
    returns for an existing student: [classroomGiven] tells whether the
    optional [classroomId] is there, [grades] is what the query found,
    sorted by submission date. [None] is [null]. *)
Definition gpa (classroomGiven : bool) (grades : list Grade.t) : option Float64.Printed :=
  if classroomGiven && (0 <? length grades)%nat
  then
    let totalWeightedScore :=
      foldl (λ sum grade,
               Float64.add sum
                 (Float64.mul
                    (Float64.div (Float64.ofQ (Grade.score grade))
                       (Float64.ofQ (Grade.maxScore grade)))
                    (Float64.ofQ (Grade.weightage grade))))
        Float64.zero grades in
    let totalWeight :=
      foldl (λ sum grade, Float64.add sum (Float64.ofQ (Grade.weightage grade)))
        Float64.zero grades in
    let gpa := Float64.mul (Float64.div totalWeightedScore totalWeight) (Float64.ofZ 4) in
    (* gpa ? gpa.toFixed(2) : null *)
    if Float64.truthy gpa then Some (Float64.toFixed2 gpa) else None
  else None.

End StudentServiceExt.

(** ** services/teacherService.js: profiles *)

Module TeacherServiceExt.

(** [createTeacher(teacherData)], with the faults of [createStudent]. *)
Definition createTeacher (faults : Faults) (_id : nat) (teacherData : Teacher.t)
    (db : Store) : outcome Teacher.t * Store :=
  match db_users db !! Teacher.userId teacherData with
  | None => (Threw NoUserFound, db)
  | Some user =>
      match findFirst (λ t, Teacher.userId t = Teacher.userId teacherData)
              (db_teachers db) with
      | Some _ => (Threw TeacherProfileExists, db)
      | None =>
          let saved : option Store :=
            if decide (User.role user = User.teacher) then Some db
            else if faults 0 then None
            else Some (with_users
                         (insert (Teacher.userId teacherData)
                            (User.set_role User.teacher user)) db) in
          match saved with
          | None => (Threw (Known WriteFailed), db)
          | Some db1 =>
              if faults 1 then (Threw (Known WriteFailed), db1)
              else match db_teachers db1 !! _id with
                   | Some _ => (Threw (Known DuplicateKey), db1)
                   | None =>
                       (Returned teacherData,
                        with_teachers (insert _id teacherData) db1)
                   end
          end
      end
  end.

(** A teacher document with the [subjects] array that [Teacher.t] leaves
    out. *)
Record Doc : Type := mkDoc {
  profile : Teacher.t;
  subjects : list string
}.

(** [addSubject(teacherId, subject)] on the teacher collection. *)
Definition addSubject (teacherId : nat) (subject : string) (docs : gmap nat Doc)
  : outcome Doc * gmap nat Doc :=
  match docs !! teacherId with
  | None => (Threw (Known NoTeacherFound), docs)
  | Some teacher =>
      if bool_decide (subject ∈ subjects teacher)
      then (Threw SubjectExists, docs)
      else
        let teacher' :=
          {| profile := profile teacher; subjects := subjects teacher ++ [subject] |} in
        (Returned teacher', <[teacherId := teacher']> docs)
  end.

(** [removeSubject(teacherId, subject)]. *)
Definition removeSubject (teacherId : nat) (subject : string) (docs : gmap nat Doc)
  : outcome Doc * gmap nat Doc :=
  match docs !! teacherId with
  | None => (Threw (Known NoTeacherFound), docs)
  | Some teacher =>
      if negb (bool_decide (subject ∈ subjects teacher))
      then (Threw SubjectMissing, docs)
      else
        let teacher' :=
          {| profile := profile teacher;
             subjects := filter (λ s, s ≠ subject) (subjects teacher) |} in
        (Returned teacher', <[teacherId := teacher']> docs)
  end.

End TeacherServiceExt.

(** ** services/userService.js *)

Module UserService.

(** Field assignments of an update: every field may be absent. *)
Record Fields : Type := mkFields {
  new_username : option nat;
  new_email : option nat;
  new_password : option nat;
  new_role : option User.Role;
  new_isActive : option bool
}.

Definition noFields : Fields :=
  {| new_username := None; new_email := None; new_password := None;
     new_role := None; new_isActive := None |}.

(** An update document, as a request body gives it: field assignments at
    the top level and, possibly, under the update operator [$set]. The other
    update operators are not modelled. *)
Record UpdateData : Type := mkUpdateData {
  top : Fields;
  dollar_set : option Fields
}.

(** The assignments Mongoose sends to the store: it writes the top-level
    fields into [$set], where they take the place of fields of the same
    name. *)
Definition assignments (update : UpdateData) : Fields :=
  match dollar_set update with
  | None => top update
  | Some s =>
      {| new_username := from_option Some (new_username s) (new_username (top update));
         new_email := from_option Some (new_email s) (new_email (top update));
         new_password := from_option Some (new_password s) (new_password (top update));
         new_role := from_option Some (new_role s) (new_role (top update));
         new_isActive := from_option Some (new_isActive s) (new_isActive (top update)) |}
  end.

(** What [User.findByIdAndUpdate(userId, update)] makes of the document:
    the fields assigned replace the stored ones. *)
Definition applyUpdate (update : UpdateData) (u : User.t) : User.t :=
  let a := assignments update in
  {| User.username := default (User.username u) (new_username a);
     User.email := default (User.email u) (new_email a);
     User.password := default (User.password u) (new_password a);
     User.role := default (User.role u) (new_role a);
     User.isActive := default (User.isActive u) (new_isActive a) |}.

(** [const { password, role, ...safeUpdateData } = updateData;]: the
    destructuring takes the keys [password] and [role] of the body itself
    and leaves every other key, [$set] included, as it is. *)
Definition safeUpdateData (updateData : UpdateData) : UpdateData :=
  {| top := {| new_username := new_username (top updateData);
               new_email := new_email (top updateData);
               new_password := None;
               new_role := None;
               new_isActive := new_isActive (top updateData) |};
     dollar_set := dollar_set updateData |}.

(** [.select('-password')]: the user as it is returned. *)
Record PublicUser : Type := mkPublicUser {
  pub_username : nat;
  pub_email : nat;
  pub_role : User.Role;
  pub_isActive : bool
}.

Definition withoutPassword (u : User.t) : PublicUser :=
  {| pub_username := User.username u; pub_email := User.email u;
     pub_role := User.role u; pub_isActive := User.isActive u |}.

(** [User.findByIdAndUpdate(userId, update, { new: true, runValidators:
    true }).select('-password')] followed by
    [if (!user) throw new Error('User not found')]; [faults 0] is the
    update throwing (a validator that rejects it). *)
Definition findByIdAndUpdate (faults : Faults) (userId : nat) (update : UpdateData)
    (db : Store) : outcome PublicUser * Store :=
  if faults 0 then (Threw (Known WriteFailed), db)
  else match db_users db !! userId with
       | None => (Threw NoUserFound, db)
       | Some user =>
           let user' := applyUpdate update user in
           (Returned (withoutPassword user'), with_users (insert userId user') db)
       end.

(** [updateUser(userId, updateData)]. *)
Definition updateUser (faults : Faults) (userId : nat) (updateData : UpdateData)
    (db : Store) : outcome PublicUser * Store :=
  findByIdAndUpdate faults userId (safeUpdateData updateData) db.

(** ['student'], ['teacher'], ['admin'] and no other string. *)
Definition roleOfString (s : string) : option User.Role :=
  if decide (s = "student") then Some User.student
  else if decide (s = "teacher") then Some User.teacher
  else if decide (s = "admin") then Some User.admin
  else None.

(** [updateUserRole(userId, newRole)]. *)
Definition updateUserRole (faults : Faults) (userId : nat) (newRole : string)
    (db : Store) : outcome PublicUser * Store :=
  match roleOfString newRole with
  | None => (Threw InvalidRole, db)
  | Some r =>
      findByIdAndUpdate faults userId
        {| top := {| new_username := None; new_email := None; new_password := None;
                     new_role := Some r; new_isActive := None |};
           dollar_set := None |} db
  end.

(** [deleteUser(userId)]. *)
Definition deleteUser (userId : nat) (db : Store) : outcome bool * Store :=
  match db_users db !! userId with
  | None => (Threw NoUserFound, db)
  | Some user =>
      let db1 :=
        match User.role user with
        | User.student =>
            (* await Student.findOneAndDelete({ userId }) *)
            with_students (deleteFirst (λ s, Student.userId s = userId)) db
        | User.teacher =>
            (* await Teacher.findOneAndDelete({ userId }) *)
            with_teachers (deleteFirst (λ t, Teacher.userId t = userId)) db
        | User.admin => db
        end in
      (* await User.findByIdAndDelete(userId) *)
      (Returned true, with_users (delete userId) db1)
  end.

End UserService.

(** ** services/attendanceService.js: the records of one day *)

Module AttendanceServiceExt.

(** What a request says about one student's attendance; [remarks] is left
    out, as in [Attendance.AttendanceRecord]. *)
Record StudentData : Type := mkStudentData {
  given_status : option Attendance.Status;
  given_minutesLate : option Z
}.

(** [records.some(record => record.studentId.toString() === studentId)]. *)
Definition hasStudent (studentId : nat) (rs : list Attendance.AttendanceRecord) : bool :=
  existsb (λ r, bool_decide (Attendance.studentId r = studentId)) rs.

(** [records.findIndex(record => record.studentId.toString() === studentId)],
    [None] standing for -1. *)
Fixpoint findIndex (studentId : nat) (rs : list Attendance.AttendanceRecord) : option nat :=
  match rs with
  | [] => None
  | r :: rs' =>
      if bool_decide (Attendance.studentId r = studentId) then Some 0
      else S <$> findIndex studentId rs'
  end.

(** [addStudentToAttendance(id, studentId, studentData)]. *)
Definition addStudentToAttendance (id studentId : nat) (studentData : StudentData)
    (db : Store) : outcome Attendance.t * Store :=
  match db_attendances db !! id with
  | None => (Threw NoAttendanceFound, db)
  | Some attendance =>
      if hasStudent studentId (Attendance.records attendance)
      then (Threw StudentRecordExists, db)
      else
        let newRecord :=
          {| Attendance.studentId := studentId;
             (* studentData.status || 'present' *)
             Attendance.status := default Attendance.present (given_status studentData);
             (* studentData.minutesLate || 0 *)
             Attendance.minutesLate :=
               match given_minutesLate studentData with
               | Some n => if (n =? 0)%Z then 0%Z else n
               | None => 0%Z
               end |} in
        let updatedAttendance :=
          Attendance.set_records (Attendance.records attendance ++ [newRecord]) attendance in
        (Returned updatedAttendance, with_attendances (insert id updatedAttendance) db)
  end.

(** [removeStudentFromAttendance(id, studentId)]:
    [{ $pull: { records: { studentId } } }]. *)
Definition removeStudentFromAttendance (id studentId : nat) (db : Store)
  : outcome Attendance.t * Store :=
  match db_attendances db !! id with
  | None => (Threw NoAttendanceFound, db)
  | Some attendance =>
      let updatedAttendance :=
        Attendance.set_records
          (filter (λ r, Attendance.studentId r ≠ studentId) (Attendance.records attendance))
          attendance in
      (Returned updatedAttendance, with_attendances (insert id updatedAttendance) db)
  end.

(** The [$set] that [updateStudentAttendance] builds, applied to the record
    it addresses. *)
Definition updateRecord (updateData : StudentData) (r : Attendance.AttendanceRecord)
  : Attendance.AttendanceRecord :=
  {| Attendance.studentId := Attendance.studentId r;
     (* if (updateData.status) ... *)
     Attendance.status := default (Attendance.status r) (given_status updateData);
     (* if (updateData.minutesLate !== undefined) ... *)
     Attendance.minutesLate := default (Attendance.minutesLate r) (given_minutesLate updateData) |}.

(** [updateStudentAttendance(id, studentId, updateData)]. *)
Definition updateStudentAttendance (id studentId : nat) (updateData : StudentData)
    (db : Store) : outcome Attendance.t * Store :=
  match db_attendances db !! id with
  | None => (Threw NoAttendanceFound, db)
  | Some attendance =>
      match findIndex studentId (Attendance.records attendance) with
      | None => (Threw NoStudentRecord, db)
      | Some studentRecordIndex =>
          let updatedAttendance :=
            Attendance.set_records
              (alter (updateRecord updateData) studentRecordIndex (Attendance.records attendance))
              attendance in
          (Returned updatedAttendance, with_attendances (insert id updatedAttendance) db)
      end
  end.

(** [deleteAttendance(id)]. *)
Definition deleteAttendance (id : nat) (db : Store) : outcome bool * Store :=
  match db_attendances db !! id with
  | None => (Threw NoAttendanceFound, db)
  | Some _ => (Returned true, with_attendances (delete id) db)
  end.

(** [{ $unwind: '$records' }] over the documents a [$match] lets through. *)
Definition unwind (docs : list Attendance.t) : list Attendance.AttendanceRecord :=
  docs ≫= Attendance.records.

(** One more record for [{ $group: { _id: '$records.status', count: { $sum: 1 } } }]. *)
Fixpoint countStatus (s : Attendance.Status) (groups : list (Attendance.Status * nat))
  : list (Attendance.Status * nat) :=
  match groups with
  | [] => [(s, 1)]
  | (k, n) :: groups' =>
      if decide (k = s) then (k, S n) :: groups'
      else (k, n) :: countStatus s groups'
  end.

Definition group (rs : list Attendance.AttendanceRecord) : list (Attendance.Status * nat) :=
  foldl (λ groups r, countStatus (Attendance.status r) groups) [] rs.

(** models/Attendance.js, [AttendanceSchema.statics.getClassroomStatistics]. *)
Definition getClassroomStatistics (classroomId : nat) (db : Store)
  : list (Attendance.Status * nat) :=
  group (unwind (map_to_list
                   (filter (λ kv : nat * Attendance.t,
                              Attendance.classroomId kv.2 = classroomId)
                      (db_attendances db))).*2).

(** [if (classroomId) { match.classroomId = ...ObjectId(classroomId); }] *)
Definition ofClassroom (classroomId : option nat) (a : Attendance.t) : bool :=
  match classroomId with
  | Some c => bool_decide (Attendance.classroomId a = c)
  | None => true
  end.

(** models/Attendance.js, [AttendanceSchema.statics.getStudentStatistics];
    [classroomId] is optional. *)
Definition getStudentStatistics (studentId : nat) (classroomId : option nat) (db : Store)
  : list (Attendance.Status * nat) :=
  group
    (filter (λ r, Attendance.studentId r = studentId)
       (unwind (map_to_list
                  (filter (λ kv : nat * Attendance.t,
                             StudentService.hasRecordOf studentId kv.2
                             ∧ ofClassroom classroomId kv.2 = true)
                     (db_attendances db))).*2)).

Record Percentages : Type := mkPercentages {
  presentPercentage : string;
  absentPercentage : string;
  latePercentage : string;
  excusedPercentage : string
}.

Record FormattedStats : Type := mkFormattedStats {
  total : nat;
  present : nat;
  absent : nat;
  late : nat;
  excused : nat;
  percentages : option Percentages   (* the four fields exist only if total > 0 *)
}.

(** [formattedStats[stat._id] = stat.count; formattedStats.total += stat.count;] *)
Definition addStat (f : FormattedStats) (stat : Attendance.Status * nat) : FormattedStats :=
  let '(s, count) := stat in
  {| total := total f + count;
     present := if decide (s = Attendance.present) then count else present f;
     absent := if decide (s = Attendance.absent) then count else absent f;
     late := if decide (s = Attendance.late) then count else late f;
     excused := if decide (s = Attendance.excused) then count else excused f;
     percentages := percentages f |}.

(** [((n / formattedStats.total) * 100).toFixed(2)]. *)
Definition percent (n total : nat) : string :=
  toFixed2 (inject_Z (Z.of_nat n) / inject_Z (Z.of_nat total) * 100)%Q.

(** The formatting shared by [getClassroomAttendanceStatistics] and
    [getStudentAttendanceStatistics]. *)
Definition format (stats : list (Attendance.Status * nat)) : FormattedStats :=
  let f := foldl addStat
             {| total := 0; present := 0; absent := 0; late := 0; excused := 0;
                percentages := None |} stats in
  if (0 <? total f)%nat
  then {| total := total f; present := present f; absent := absent f;
          late := late f; excused := excused f;
          percentages :=
            Some {| presentPercentage := percent (present f) (total f);
                    absentPercentage := percent (absent f) (total f);
                    latePercentage := percent (late f) (total f);
                    excusedPercentage := percent (excused f) (total f) |} |}
  else f.

(** [getClassroomAttendanceStatistics(classroomId)]. *)
Definition getClassroomAttendanceStatistics (classroomId : nat) (db : Store) : FormattedStats :=
  format (getClassroomStatistics classroomId db).

(** [getStudentAttendanceStatistics(studentId, classroomId = null)]. *)
Definition getStudentAttendanceStatistics (studentId : nat) (classroomId : option nat)
    (db : Store) : FormattedStats :=
  format (getStudentStatistics studentId classroomId db).

End AttendanceServiceExt.

(** ** Pagination of [getAllStudents] and [getAllTeachers] *)

Module Paging.

(** [parseInt(query.page, 10) || 1], [parseInt(query.limit, 10) || 10]:
    [None] is what [parseInt] could not read (NaN); NaN and 0 give way to
    the default. *)
Definition orDefault (parsed : option Z) (d : Z) : Z :=
  match parsed with
  | Some n => if (n =? 0)%Z then d else n
  | None => d
  end.

Record Pagination : Type := mkPagination {
  page : Z;
  limit : Z;
  total : nat;
  pages : Z
}.

(** [Math.ceil(total / limit)] for a [limit] that is not 0. *)
Definition ceilDiv (total : nat) (limit : Z) : Z := (- ((- Z.of_nat total) `div` limit))%Z.

(** [.skip(skip).limit(limit)] on the sorted matches, where the store
    takes them as they read: no negative skip, a positive limit. *)
Definition skipLimit {A} (skip limit : Z) (found : list A) : option (list A) :=
  if ((0 <=? skip) && (0 <? limit))%Z
  then Some (take (Z.to_nat limit) (drop (Z.to_nat skip) found))
  else None.

(** The page and the pagination record that [getAllStudents(query)] returns,
    [found] being the documents matching the query's filter in the order of
    the sort. *)
Definition getAll {A} (queryPage queryLimit : option Z) (found : list A)
  : option (list A) * Pagination :=
  let page := orDefault queryPage 1 in
  let limit := orDefault queryLimit 10 in
  let skip := ((page - 1) * limit)%Z in
  (skipLimit skip limit found,
   {| page := page; limit := limit; total := length found;
      pages := ceilDiv (length found) limit |}).

End Paging.

(** ** Invariants of the enrollment relation *)

(** [|students| ≤ maxCapacity] for every classroom whose [maxCapacity] the
    capacity check takes into account (present and not 0). *)
Definition capacity_ok (db : Store) : Prop :=
  ∀ cid c m,
    db_classrooms db !! cid = Some c →
    Classroom.maxCapacity c = Some m → m ≠ 0%Z →
    (Z.of_nat (length (Classroom.students c)) ≤ m)%Z.

(** The same bound for every classroom that has a [maxCapacity] at all. *)
Definition capacity_ok_when_set (db : Store) : Prop :=
  ∀ cid c m,
    db_classrooms db !! cid = Some c →
    Classroom.maxCapacity c = Some m →
    (Z.of_nat (length (Classroom.students c)) ≤ m)%Z.

(** The capacity check as the specification words it: false without a
    capacity, otherwise [enrolledCount >= maxCapacity]. *)
Definition isAtCapacity_spec (c : Classroom.t) : bool :=
  match Classroom.maxCapacity c with
  | None => false
  | Some m => (m <=? Z.of_nat (length (Classroom.students c)))%Z
  end.

(** Both sides of the many-to-many relation agree, for every stored student
    and every stored classroom. *)
Definition consistent (db : Store) : Prop :=
  ∀ sid st cid cl,
    db_students db !! sid = Some st →
    db_classrooms db !! cid = Some cl →
    (cid ∈ Student.classrooms st ↔ sid ∈ Classroom.students cl).

(** *** What a call can do to the two collections *)

Definition enroll_effect (s c : nat) (db : Store) : Store :=
  with_students
    (alter (λ st, Student.set_classrooms (push c (Student.classrooms st)) st) s)
    (with_classrooms
       (alter (λ cl, Classroom.set_students (push s (Classroom.students cl)) cl) c) db).

Definition withdraw_effect (s c : nat) (db : Store) : Store :=
  with_students
    (alter (λ st, Student.set_classrooms (pull c (Student.classrooms st)) st) s)
    (with_classrooms
       (alter (λ cl, Classroom.set_students (pull s (Classroom.students cl)) cl) c) db).

Definition delete_effect (cl : Classroom.t) (c : nat) (db : Store) : Store :=
  with_classrooms (delete c)
    (ClassroomService.pullStudentsClassroom (Classroom.students cl) c
       (ClassroomService.pullTeacherClassroom (Classroom.teacherId cl) c db)).

Inductive effect (db : Store) : Store → Prop :=
| eff_none : effect db db
| eff_enroll s c st cl :
    db_students db !! s = Some st →
    db_classrooms db !! c = Some cl →
    Classroom.isAtCapacity cl = false →
    effect db (enroll_effect s c db)
| eff_withdraw s c : effect db (withdraw_effect s c db)
| eff_delete c cl :
    db_classrooms db !! c = Some cl →
    effect db (delete_effect cl c db).

(** What a call of the student service leaves when exactly one of its two
    saves is rejected. *)
Definition enroll_classroom_only (s c : nat) (db : Store) : Store :=
  with_classrooms
    (alter (λ cl, Classroom.set_students (push s (Classroom.students cl)) cl) c) db.

Definition enroll_student_only (s c : nat) (db : Store) : Store :=
  with_students
    (alter (λ st, Student.set_classrooms (push c (Student.classrooms st)) st) s) db.

Definition withdraw_classroom_only (s c : nat) (db : Store) : Store :=
  with_classrooms
    (alter (λ cl, Classroom.set_students (pull s (Classroom.students cl)) cl) c) db.

Definition withdraw_student_only (s c : nat) (db : Store) : Store :=
  with_students
    (alter (λ st, Student.set_classrooms (pull c (Student.classrooms st)) st) s) db.

Inductive half_effect (db : Store) : Store → Prop :=
| half_enroll_classroom s c st cl :
    db_students db !! s = Some st →
    db_classrooms db !! c = Some cl →
    Classroom.isAtCapacity cl = false →
    half_effect db (enroll_classroom_only s c db)
| half_enroll_student s c : half_effect db (enroll_student_only s c db)
| half_withdraw_classroom s c : half_effect db (withdraw_classroom_only s c db)
| half_withdraw_student s c : half_effect db (withdraw_student_only s c db).

(** The two saves of a student-service call are rejected together or not at
    all; the calls of the classroom service are transactions and always
    are whole. *)
Definition whole (op : Op) : Prop :=
  match op with
  | Enroll f _ _ | Withdraw f _ _ => f 0 = f 1
  | _ => True
  end.

(** Referential consistency of the many-to-many relation: every reference
    held on one side is to a stored document that holds the reference
    back. *)
Definition referentially_consistent (db : Store) : Prop :=
  (∀ sid st cid,
     db_students db !! sid = Some st → cid ∈ Student.classrooms st →
     ∃ cl, db_classrooms db !! cid = Some cl ∧ sid ∈ Classroom.students cl)
  ∧ (∀ cid cl sid,
       db_classrooms db !! cid = Some cl → sid ∈ Classroom.students cl →
       ∃ st, db_students db !! sid = Some st ∧ cid ∈ Student.classrooms st).

(** Classroom [c], if stored, has capacity [m] and at most [m] students. *)
Definition within_capacity (c : nat) (m : Z) (db : Store) : Prop :=
  ∀ cl, db_classrooms db !! c = Some cl →
        Classroom.maxCapacity cl = Some m
        ∧ (Z.of_nat (length (Classroom.students cl)) ≤ m)%Z.

(** A call is refused with an error of the given kind. *)
Definition refused_with {A} (r : result A) (k : ErrorKind) : Prop :=
  ∃ e, r = Err e ∧ kind e = k.

(** What the loop of [deleteStudent] leaves of one attendance document that
    has a record of the student: nothing if no other record remains. *)
Definition cleaned (studentId : nat) (a : Attendance.t) : option Attendance.t :=
  let records' := StudentService.stripRecords studentId (Attendance.records a) in
  if decide (records' = []) then None else Some (Attendance.set_records records' a).

(** ** Grade aggregation, in the words of the specification *)

Definition sumQ (xs : list Q) : Q := foldr Qplus 0%Q xs.

(** percentage_i = score_i / maxScore_i × 100. *)
Definition percentage_spec (g : Grade.t) : Q :=
  (Grade.score g / Grade.maxScore g * 100)%Q.

(** Σ(percentage_i × weightage_i) / Σ(weightage_i). *)
Definition weightedAverage_spec (gs : list Grade.t) : Q :=
  (sumQ (map (λ g, percentage_spec g * Grade.weightage g) gs)
   / sumQ (map Grade.weightage gs))%Q.

(** The same in JavaScript's arithmetic, where Σ is the running sum from 0
    in the order of the list and every operation rounds to a double. *)
Definition sum64 (xs : list Float64.t) : Float64.t := foldl Float64.add Float64.zero xs.

Definition percentage64_spec (g : Grade.t) : Float64.t :=
  Float64.mul
    (Float64.div (Float64.ofQ (Grade.score g)) (Float64.ofQ (Grade.maxScore g)))
    (Float64.ofZ 100).

Definition weightedAverage64_spec (gs : list Grade.t) : Float64.t :=
  Float64.div
    (sum64 (map (λ g, Float64.mul (percentage64_spec g) (Float64.ofQ (Grade.weightage g))) gs))
    (sum64 (map (λ g, Float64.ofQ (Grade.weightage g)) gs)).

(** The simple mean of the percentages. *)
Definition meanPercentage_spec (gs : list Grade.t) : Q :=
  (sumQ (map percentage_spec gs) / inject_Z (Z.of_nat (length gs)))%Q.

(** The least and the greatest of a list of numbers, none for no number. *)
Definition minimum (xs : list Q) : option Q :=
  match xs with
  | [] => None
  | x :: xs' => Some (foldl Qmin x xs')
  end.

Definition maximum (xs : list Q) : option Q :=
  match xs with
  | [] => None
  | x :: xs' => Some (foldl Qmax x xs')
  end.

(** [o[t]] for an object of counters, 0 standing for [undefined]. *)
Fixpoint occurrences (t : Grade.AssignmentType) (o : list (Grade.AssignmentType * nat)) : nat :=
  match o with
  | [] => 0
  | (k, n) :: o' => if decide (k = t) then n else occurrences t o'
  end.

(** ** Invariants and runs for the rest of the service layer *)

(** No array of the enrollment relation lists an id twice. *)
Definition duplicate_free (db : Store) : Prop :=
  (∀ cid cl, db_classrooms db !! cid = Some cl → NoDup (Classroom.students cl))
  ∧ (∀ sid st, db_students db !! sid = Some st → NoDup (Student.classrooms st)).

(** What a call of the enrollment services does to the two collections,
    with what the call has checked before. *)
Inductive change (db : Store) : Store → Prop :=
| chg_none : change db db
| chg_enroll s c st cl :
    db_students db !! s = Some st →
    db_classrooms db !! c = Some cl →
    s ∉ Classroom.students cl →
    change db (enroll_effect s c db)
| chg_withdraw s c : change db (withdraw_effect s c db)
| chg_delete c cl :
    db_classrooms db !! c = Some cl →
    change db (delete_effect cl c db).

(** Teachers and classrooms agree on who owns what: a teacher lists only
    stored classrooms of its own, and a stored teacher lists every
    classroom that names it. *)
Definition owned (db : Store) : Prop :=
  (∀ tid t cid,
     db_teachers db !! tid = Some t → cid ∈ Teacher.classrooms t →
     ∃ cl, db_classrooms db !! cid = Some cl ∧ Classroom.teacherId cl = tid)
  ∧ (∀ cid cl t,
       db_classrooms db !! cid = Some cl →
       db_teachers db !! Classroom.teacherId cl = Some t →
       cid ∈ Teacher.classrooms t).

(** Calls that create and delete classrooms and teachers, besides the
    enrollment calls. *)
Inductive AdminOp : Type :=
| Enrollment (op : Op)
| CreateClassroom (faults : Faults) (_id : nat) (classroomData : Classroom.t)
| DeleteTeacher (teacherId : nat).

Definition admin_exec (op : AdminOp) (db : Store) : Store :=
  match op with
  | Enrollment o => exec o db
  | CreateClassroom f i d => (ClassroomServiceExt.createClassroom f i d db).2
  | DeleteTeacher t => (TeacherService.deleteTeacher t db).2
  end.

Definition admin_run (ops : list AdminOp) (db : Store) : Store :=
  foldl (λ d op, admin_exec op d) db ops.

(** At most one student profile and at most one teacher profile per user. *)
Definition unique_profiles (db : Store) : Prop :=
  (∀ i j s1 s2,
     db_students db !! i = Some s1 → db_students db !! j = Some s2 →
     Student.userId s1 = Student.userId s2 → i = j)
  ∧ (∀ i j t1 t2,
       db_teachers db !! i = Some t1 → db_teachers db !! j = Some t2 →
       Teacher.userId t1 = Teacher.userId t2 → i = j).

(** Calls that create and delete users' profiles. *)
Inductive ProfileOp : Type :=
| CreateStudent (faults : Faults) (_id : nat) (studentData : Student.t)
| CreateTeacher (faults : Faults) (_id : nat) (teacherData : Teacher.t)
| DropStudent (studentId : nat)
| DropTeacher (teacherId : nat)
| DropUser (userId : nat)
| ChangeRole (faults : Faults) (userId : nat) (newRole : string).

Definition profile_exec (op : ProfileOp) (db : Store) : Store :=
  match op with
  | CreateStudent f i d => (StudentServiceExt.createStudent f i d db).2
  | CreateTeacher f i d => (TeacherServiceExt.createTeacher f i d db).2
  | DropStudent s => (StudentService.deleteStudent s db).2
  | DropTeacher t => (TeacherService.deleteTeacher t db).2
  | DropUser u => (UserService.deleteUser u db).2
  | ChangeRole f u r => (UserService.updateUserRole f u r db).2
  end.

Definition profile_run (ops : list ProfileOp) (db : Store) : Store :=
  foldl (λ d op, profile_exec op d) db ops.

(** No attendance document holds two records of one student. *)
Definition one_record_each (db : Store) : Prop :=
  ∀ id a, db_attendances db !! id = Some a →
          NoDup (Attendance.studentId <$> Attendance.records a).

(** Calls that change the records of stored attendance documents. *)
Inductive RecordOp : Type :=
| AddRecord (id studentId : nat) (studentData : AttendanceServiceExt.StudentData)
| UpdateRecord (id studentId : nat) (updateData : AttendanceServiceExt.StudentData)
| RemoveRecord (id studentId : nat)
| RemoveAttendance (id : nat)
| CascadeStudent (studentId : nat).

Definition record_exec (op : RecordOp) (db : Store) : Store :=
  match op with
  | AddRecord i s d => (AttendanceServiceExt.addStudentToAttendance i s d db).2
  | UpdateRecord i s d => (AttendanceServiceExt.updateStudentAttendance i s d db).2
  | RemoveRecord i s => (AttendanceServiceExt.removeStudentFromAttendance i s db).2
  | RemoveAttendance i => (AttendanceServiceExt.deleteAttendance i db).2
  | CascadeStudent s => (StudentService.deleteStudent s db).2
  end.

Definition record_run (ops : list RecordOp) (db : Store) : Store :=
  foldl (λ d op, record_exec op d) db ops.

(** The number a [$group] result gives for a status, 0 if it has none. *)
Fixpoint statusCount (s : Attendance.Status) (groups : list (Attendance.Status * nat)) : nat :=
  match groups with
  | [] => 0
  | (k, n) :: groups' => if decide (k = s) then n else statusCount s groups'
  end.

(** The records with a given status. *)
Definition withStatus (s : Attendance.Status) (rs : list Attendance.AttendanceRecord)
  : list Attendance.AttendanceRecord :=
  filter (λ r, Attendance.status r = s) rs.

(** No teacher document lists a subject twice. *)
Definition subjects_unique (docs : gmap nat TeacherServiceExt.Doc) : Prop :=
  ∀ id d, docs !! id = Some d → NoDup (TeacherServiceExt.subjects d).

(** The store a committed [createClassroom] leaves. *)
Definition created (_id : nat) (classroomData : Classroom.t) (db : Store) : Store :=
  ClassroomServiceExt.pushTeacherClassroom (Classroom.teacherId classroomData) _id
    (with_classrooms (insert _id classroomData) db).

(** The field of the formatted statistics that a status names. *)
Definition statField (s : Attendance.Status) (f : AttendanceServiceExt.FormattedStats) : nat :=
  match s with
  | Attendance.present => AttendanceServiceExt.present f
  | Attendance.absent => AttendanceServiceExt.absent f
  | Attendance.late => AttendanceServiceExt.late f
  | Attendance.excused => AttendanceServiceExt.excused f
  end.

(** The calls that change the [subjects] of a teacher. *)
Inductive SubjectOp : Type :=
| AddSubject (teacherId : nat) (subject : string)
| RemoveSubject (teacherId : nat) (subject : string).

Definition subject_exec (op : SubjectOp) (docs : gmap nat TeacherServiceExt.Doc)
  : gmap nat TeacherServiceExt.Doc :=
  match op with
  | AddSubject t s => (TeacherServiceExt.addSubject t s docs).2
  | RemoveSubject t s => (TeacherServiceExt.removeSubject t s docs).2
  end.

Definition subject_run (ops : list SubjectOp) (docs : gmap nat TeacherServiceExt.Doc)
  : gmap nat TeacherServiceExt.Doc :=
  foldl (λ d op, subject_exec op d) docs ops.

(** Zero, of either sign, or NaN: the Numbers that are falsy. *)
Definition falsy (x : Float64.t) : Prop := Float64.truthy x = false.

(** ** Example stores *)

(** One student, one empty classroom whose [maxCapacity] is 0. *)
Definition db_zero : Store :=
  with_students (λ _, {[ 1 := Student.mk 11 [] ]})
    (with_classrooms (λ _, {[ 1 := Classroom.mk 7 [] (Some 0%Z) ]}) empty_store).

(** Teacher 7 owns classroom 1 ([maxCapacity] 1), in which student 1 is
    enrolled; student 2 is enrolled nowhere. *)
Definition db_full : Store :=
  with_teachers (λ _, {[ 7 := Teacher.mk 17 [1] ]})
    (with_students (λ _, <[ 1 := Student.mk 11 [1] ]> {[ 2 := Student.mk 12 [] ]})
       (with_classrooms (λ _, {[ 1 := Classroom.mk 7 [1] (Some 1%Z) ]}) empty_store)).

(** The same school before anybody enrolled. *)
Definition db_open : Store :=
  with_teachers (λ _, {[ 7 := Teacher.mk 17 [1] ]})
    (with_students (λ _, <[ 1 := Student.mk 11 [] ]> {[ 2 := Student.mk 12 [] ]})
       (with_classrooms (λ _, {[ 1 := Classroom.mk 7 [] (Some 1%Z) ]}) empty_store)).

(** The third write of a transaction throws. *)
Definition third_write_fails : Faults := λ n, bool_decide (n = 2).

(** Of the two saves of the student service, [classroom.save()] is
    rejected; [student.save()] is. *)
Definition classroom_save_fails : Faults := λ n, bool_decide (n = 0).
Definition student_save_fails : Faults := λ n, bool_decide (n = 1).

(** The school of [db_open] with a second classroom of capacity 1 in which
    both students are enrolled. *)
Definition db_crowded : Store :=
  with_teachers (λ _, {[ 7 := Teacher.mk 17 [1; 2] ]})
    (with_students (λ _, <[ 1 := Student.mk 11 [2] ]> {[ 2 := Student.mk 12 [2] ]})
       (with_classrooms
          (λ _, <[ 1 := Classroom.mk 7 [] (Some 1%Z) ]>
                  {[ 2 := Classroom.mk 7 [1; 2] (Some 1%Z) ]})
          empty_store)).

(** An administrator (user 17) who also has a teacher profile (teacher 7)
    and owns no classroom; user 18 is a student. *)
Definition db_admin : Store :=
  with_users (λ _, <[ 17 := User.mk 170 171 172 User.admin true ]>
                     {[ 18 := User.mk 180 181 182 User.student true ]})
    (with_teachers (λ _, {[ 7 := Teacher.mk 17 [] ]}) empty_store).

(** Student 1 is enrolled nowhere and has two grades; student 2 has one.
    Attendance 1 records only student 1, attendance 2 records both,
    attendance 3 records only student 2. *)
Definition db_cascade : Store :=
  with_students (λ _, <[ 1 := Student.mk 11 [] ]> {[ 2 := Student.mk 12 [4] ]})
    (with_grades
       (λ _, <[ 1 := Grade.mk 1 4 Grade.quiz 8 10 2 ]>
               (<[ 2 := Grade.mk 2 4 Grade.quiz 7 10 2 ]>
                  {[ 3 := Grade.mk 1 4 Grade.exam 18 20 1 ]}))
       (with_attendances
          (λ _, <[ 1 := Attendance.mk 4 0 [Attendance.mkRecord 1 Attendance.present 0] ]>
                  (<[ 2 := Attendance.mk 4 86400000
                             [Attendance.mkRecord 1 Attendance.late 5;
                              Attendance.mkRecord 2 Attendance.present 0] ]>
                     {[ 3 := Attendance.mk 4 172800000
                               [Attendance.mkRecord 2 Attendance.absent 0] ]}))
          empty_store)).

(** Classroom 4 exists and no attendance has been taken yet. *)
Definition db_school : Store :=
  with_classrooms (λ _, {[ 4 := Classroom.mk 7 [] None ]}) empty_store.

(** 1 January 1970 at 10:00, at 14:00 and at 00:00, on a server on UTC. *)
Definition ten_o_clock : Z := 36000000.
Definition two_pm : Z := 50400000.
Definition midnight : Z := 0.

(** The two grades of the specification's example, [{score:8, max:10,
    weight:2}] and [{score:18, max:20, weight:1}], of student 1 in
    classroom 4; and a grade of student 2 in the same classroom. *)
Definition db_grades_example : Store :=
  with_grades
    (λ _, <[ 1 := Grade.mk 1 4 Grade.quiz 8 10 2 ]>
            (<[ 2 := Grade.mk 1 4 Grade.exam 18 20 1 ]>
               {[ 3 := Grade.mk 2 4 Grade.quiz 5 10 1 ]}))
    empty_store.

(** Classroom 5 has one grade, 11 points out of 10; classroom 6 has one
    grade, -1 point out of 10. *)
Definition db_bonus : Store :=
  with_grades
    (λ _, <[ 1 := Grade.mk 1 5 Grade.homework 11 10 1 ]>
            {[ 2 := Grade.mk 1 6 Grade.homework (-1) 10 1 ]})
    empty_store.

(** The school of [db_full] with the users behind its profiles: user 11
    is the student enrolled in classroom 1. *)
Definition db_users_full : Store :=
  with_users (λ _, <[ 11 := User.mk 110 111 112 User.student true ]>
                     (<[ 12 := User.mk 120 121 122 User.student true ]>
                        {[ 17 := User.mk 170 171 172 User.teacher true ]}))
    db_full.

(** Teacher 7 teaches algebra and logic. *)
Definition docs_subjects : gmap nat TeacherServiceExt.Doc :=
  {[ 7 := TeacherServiceExt.mkDoc (Teacher.mk 17 [1]) ["algebra"; "logic"] ]}.

(** Student 1 has one grade in classroom 4: 23 points out of 160, of
    weight 1. Its percentage is 14.375. *)
Definition db_tie : Store :=
  with_students (λ _, {[ 1 := Student.mk 11 [4] ]})
    (with_grades (λ _, {[ 1 := Grade.mk 1 4 Grade.quiz 23 160 1 ]}) empty_store).

(** An administrator (user 19) without any profile. *)
Definition db_staff : Store :=
  with_users (λ _, {[ 19 := User.mk 190 191 192 User.admin true ]}) empty_store.

Lemma insert_as_alter {A} (f : A → A) (m : gmap nat A) (k : nat) (v : A) :
  m !! k = Some v → <[k := f v]> m = alter f k m.
Proof.
  intros Hk. apply map_eq. intros j.
  destruct (decide (k = j)) as [->|Hne].
  - by rewrite lookup_insert_eq, lookup_alter_eq, Hk.
  - by rewrite lookup_insert_ne, lookup_alter_ne.
Qed.

Lemma includes_true x l : includes x l = true ↔ x ∈ l.
Proof. unfold includes. apply bool_decide_eq_true. Qed.

Lemma includes_false x l : includes x l = false ↔ x ∉ l.
Proof. unfold includes. apply bool_decide_eq_false. Qed.

Lemma elem_of_push x y l : x ∈ push y l ↔ x ∈ l ∨ x = y.
Proof. unfold push. rewrite elem_of_app, list_elem_of_singleton. tauto. Qed.

Lemma elem_of_pull x y l : x ∈ pull y l ↔ x ∈ l ∧ x ≠ y.
Proof. unfold pull. rewrite list_elem_of_filter. tauto. Qed.

Lemma length_push y l : length (push y l) = S (length l).
Proof. unfold push. rewrite length_app. simpl. lia. Qed.

Lemma length_pull y l : length (pull y l) ≤ length l.
Proof. unfold pull. apply length_filter. Qed.

Lemma enroll_effect_of_insert s c st cl db :
  db_students db !! s = Some st →
  db_classrooms db !! c = Some cl →
  with_students
    (insert s (Student.set_classrooms (push c (Student.classrooms st)) st))
    (with_classrooms
       (insert c (Classroom.set_students (push s (Classroom.students cl)) cl)) db)
  = enroll_effect s c db.
Proof.
  intros Hs Hc. unfold enroll_effect, with_students, with_classrooms. simpl.
  f_equal.
  - exact (insert_as_alter
             (λ st, Student.set_classrooms (push c (Student.classrooms st)) st) _ _ _ Hs).
  - exact (insert_as_alter
             (λ cl, Classroom.set_students (push s (Classroom.students cl)) cl) _ _ _ Hc).
Qed.

Lemma withdraw_effect_of_insert s c st cl db :
  db_students db !! s = Some st →
  db_classrooms db !! c = Some cl →
  with_students
    (insert s (Student.set_classrooms (pull c (Student.classrooms st)) st))
    (with_classrooms
       (insert c (Classroom.set_students (pull s (Classroom.students cl)) cl)) db)
  = withdraw_effect s c db.
Proof.
  intros Hs Hc. unfold withdraw_effect, with_students, with_classrooms. simpl.
  f_equal.
  - exact (insert_as_alter
             (λ st, Student.set_classrooms (pull c (Student.classrooms st)) st) _ _ _ Hs).
  - exact (insert_as_alter
             (λ cl, Classroom.set_students (pull s (Classroom.students cl)) cl) _ _ _ Hc).
Qed.

(** Unfolding of the session monad on a concrete body. *)
Ltac tx_unfold :=
  unfold Session.transaction, ClassroomService.findClassroom,
    ClassroomService.findStudent, mbind, tx_bind, Session.bind, Session.get,
    Session.ret, Session.throw, Session.write, Session.commit; simpl.

Lemma saveBoth_whole s c (student' : Student.t) (classroom' : Classroom.t) db :
  StudentService.saveBoth no_faults c classroom' s student' db
  = with_students (insert s student') (with_classrooms (insert c classroom') db).
Proof. reflexivity. Qed.

Lemma enroll_classroom_only_of_insert s c cl db :
  db_classrooms db !! c = Some cl →
  with_classrooms
    (insert c (Classroom.set_students (push s (Classroom.students cl)) cl)) db
  = enroll_classroom_only s c db.
Proof.
  intros Hc. unfold enroll_classroom_only, with_classrooms. f_equal.
  exact (insert_as_alter
           (λ cl, Classroom.set_students (push s (Classroom.students cl)) cl) _ _ _ Hc).
Qed.

Lemma enroll_student_only_of_insert s c st db :
  db_students db !! s = Some st →
  with_students
    (insert s (Student.set_classrooms (push c (Student.classrooms st)) st)) db
  = enroll_student_only s c db.
Proof.
  intros Hs. unfold enroll_student_only, with_students. f_equal.
  exact (insert_as_alter
           (λ st, Student.set_classrooms (push c (Student.classrooms st)) st) _ _ _ Hs).
Qed.

Lemma withdraw_classroom_only_of_insert s c cl db :
  db_classrooms db !! c = Some cl →
  with_classrooms
    (insert c (Classroom.set_students (pull s (Classroom.students cl)) cl)) db
  = withdraw_classroom_only s c db.
Proof.
  intros Hc. unfold withdraw_classroom_only, with_classrooms. f_equal.
  exact (insert_as_alter
           (λ cl, Classroom.set_students (pull s (Classroom.students cl)) cl) _ _ _ Hc).
Qed.

Lemma withdraw_student_only_of_insert s c st db :
  db_students db !! s = Some st →
  with_students
    (insert s (Student.set_classrooms (pull c (Student.classrooms st)) st)) db
  = withdraw_student_only s c db.
Proof.
  intros Hs. unfold withdraw_student_only, with_students. f_equal.
  exact (insert_as_alter
           (λ st, Student.set_classrooms (pull c (Student.classrooms st)) st) _ _ _ Hs).
Qed.

(** What the two saves of an enrollment leave, by the saves rejected. *)
Lemma saveBoth_enroll f s c st cl db :
  db_students db !! s = Some st →
  db_classrooms db !! c = Some cl →
  StudentService.saveBoth f c
    (Classroom.set_students (push s (Classroom.students cl)) cl) s
    (Student.set_classrooms (push c (Student.classrooms st)) st) db
  = match f 0, f 1 with
    | false, false => enroll_effect s c db
    | false, true => enroll_classroom_only s c db
    | true, false => enroll_student_only s c db
    | true, true => db
    end.
Proof.
  intros Hs Hc. unfold StudentService.saveBoth.
  destruct (f 0), (f 1); [done|..].
  - by apply enroll_student_only_of_insert.
  - by apply enroll_classroom_only_of_insert.
  - by apply enroll_effect_of_insert.
Qed.

Lemma saveBoth_withdraw f s c st cl db :
  db_students db !! s = Some st →
  db_classrooms db !! c = Some cl →
  StudentService.saveBoth f c
    (Classroom.set_students (pull s (Classroom.students cl)) cl) s
    (Student.set_classrooms (pull c (Student.classrooms st)) st) db
  = match f 0, f 1 with
    | false, false => withdraw_effect s c db
    | false, true => withdraw_classroom_only s c db
    | true, false => withdraw_student_only s c db
    | true, true => db
    end.
Proof.
  intros Hs Hc. unfold StudentService.saveBoth.
  destruct (f 0), (f 1); [done|..].
  - by apply withdraw_student_only_of_insert.
  - by apply withdraw_classroom_only_of_insert.
  - by apply withdraw_effect_of_insert.
Qed.

(** Every call leaves a whole effect or, when one save of the student
    service is rejected alone, half of one. *)
Lemma exec_effect_or_half op db :
  (whole op → effect db (exec op db))
  ∧ (effect db (exec op db) ∨ half_effect db (exec op db)).
Proof.
  destruct op as [f s c|f s c|f c s|f c s|f c]; simpl.
  - unfold StudentService.enrollInClassroom.
    destruct (db_students db !! s) as [st|] eqn:Hs; [|split; [|left]; constructor].
    destruct (db_classrooms db !! c) as [cl|] eqn:Hc; [|split; [|left]; constructor].
    destruct (includes s (Classroom.students cl)); [split; [|left]; constructor|].
    destruct (Classroom.isAtCapacity cl) eqn:Hcap; [split; [|left]; constructor|].
    cbn [snd]. rewrite (saveBoth_enroll _ _ _ _ _ _ Hs Hc).
    destruct (f 0), (f 1); split; try discriminate; intros;
      first [ by left; constructor
            | by left; eapply eff_enroll
            | by constructor
            | by eapply eff_enroll
            | by right; eapply half_enroll_classroom
            | by right; constructor ].
  - unfold StudentService.withdrawFromClassroom.
    destruct (db_students db !! s) as [st|] eqn:Hs; [|split; [|left]; constructor].
    destruct (db_classrooms db !! c) as [cl|] eqn:Hc; [|split; [|left]; constructor].
    destruct (includes s (Classroom.students cl)); cbn [negb]; [|split; [|left]; constructor].
    cbn [snd]. rewrite (saveBoth_withdraw _ _ _ _ _ _ Hs Hc).
    destruct (f 0), (f 1); split; try discriminate; intros;
      first [ by left; constructor
            | by constructor
            | by right; constructor ].
  - assert (effect db (ClassroomService.addStudentToClassroom f c s db).2) as H;
      [|by split; [|left]].
    unfold ClassroomService.addStudentToClassroom. tx_unfold.
    destruct (db_classrooms db !! c) as [cl|] eqn:Hc; simpl; [|constructor].
    destruct (Classroom.isAtCapacity cl) eqn:Hcap; simpl; [constructor|].
    destruct (db_students db !! s) as [st|] eqn:Hs; simpl; [|constructor].
    destruct (includes s (Classroom.students cl)); simpl; [constructor|].
    destruct (f 0); simpl; [constructor|].
    destruct (f 1); simpl; [constructor|].
    destruct (f 2); simpl; [constructor|].
    by eapply eff_enroll.
  - assert (effect db (ClassroomService.removeStudentFromClassroom f c s db).2) as H;
      [|by split; [|left]].
    unfold ClassroomService.removeStudentFromClassroom. tx_unfold.
    destruct (db_classrooms db !! c) as [cl|] eqn:Hc; simpl; [|constructor].
    destruct (db_students db !! s) as [st|] eqn:Hs; simpl; [|constructor].
    destruct (f 0); simpl; [constructor|].
    destruct (f 1); simpl; [constructor|].
    destruct (f 2); simpl; [constructor|].
    apply eff_withdraw.
  - assert (effect db (ClassroomService.deleteClassroom f c db).2) as H;
      [|by split; [|left]].
    unfold ClassroomService.deleteClassroom. tx_unfold.
    destruct (db_classrooms db !! c) as [cl|] eqn:Hc; simpl; [|constructor].
    destruct (f 0); simpl; [constructor|].
    destruct (f 1); simpl; [constructor|].
    destruct (f 2); simpl; [constructor|].
    destruct (f 3); simpl; [constructor|].
    by apply eff_delete.
Qed.

Lemma exec_effect op db : whole op → effect db (exec op db).
Proof. apply exec_effect_or_half. Qed.

Lemma isAtCapacity_false_room c m :
  Classroom.maxCapacity c = Some m → m ≠ 0%Z →
  Classroom.isAtCapacity c = false →
  (Z.of_nat (length (Classroom.students c)) < m)%Z.
Proof.
  unfold Classroom.isAtCapacity. intros -> Hm.
  destruct (Z.eqb_spec m 0) as [?|_]; [done|].
  intros H%Z.leb_gt. exact H.
Qed.

Lemma effect_capacity_ok db db' : effect db db' → capacity_ok db → capacity_ok db'.
Proof.
  intros Heff Hok. destruct Heff as [|s c st cl Hs Hc Hcap|s c|c cl Hc]; [done|..];
    intros cid c' m Hlk Hmax Hm; simpl in Hlk.
  - destruct (decide (c = cid)) as [->|Hne].
    + rewrite lookup_alter_eq, Hc in Hlk. simpl in Hlk. injection Hlk as <-.
      simpl in *. rewrite length_push.
      pose proof (isAtCapacity_false_room cl m Hmax Hm Hcap). lia.
    + rewrite lookup_alter_ne in Hlk by done. by eapply Hok.
  - destruct (decide (c = cid)) as [->|Hne].
    + rewrite lookup_alter_eq in Hlk.
      destruct (db_classrooms db !! cid) as [cl|] eqn:Hc; [|done].
      simpl in Hlk. injection Hlk as <-. simpl in *.
      pose proof (Hok cid cl m Hc Hmax Hm).
      pose proof (length_pull s (Classroom.students cl)). lia.
    + rewrite lookup_alter_ne in Hlk by done. by eapply Hok.
  - apply lookup_delete_Some in Hlk as [_ Hlk]. by eapply Hok.
Qed.

Lemma effect_consistent db db' : effect db db' → consistent db → consistent db'.
Proof.
  intros Heff Hok. destruct Heff as [|s c st cl Hs Hc Hcap|s c|c cl Hc]; [done|..];
    intros sid st' cid cl' Hst Hcl; simpl in Hst, Hcl.
  - apply lookup_alter_Some in Hst as [(-> & st0 & Hs0 & ->)|[Hs' Hst]];
      apply lookup_alter_Some in Hcl as [(-> & cl0 & Hc0 & ->)|[Hc' Hcl]];
      simpl; rewrite ?elem_of_push.
    + tauto.
    + pose proof (Hok _ _ _ _ Hs0 Hcl) as Hiff.
      split; [intros [Hin|Heq]; [by apply Hiff|congruence]|].
      intros Hin. left. by apply Hiff.
    + pose proof (Hok _ _ _ _ Hst Hc0) as Hiff.
      split; [intros Hin; left; by apply Hiff|].
      intros [Hin|Heq]; [by apply Hiff|congruence].
    + by apply Hok.
  - apply lookup_alter_Some in Hst as [(-> & st0 & Hs0 & ->)|[Hs' Hst]];
      apply lookup_alter_Some in Hcl as [(-> & cl0 & Hc0 & ->)|[Hc' Hcl]];
      simpl; rewrite ?elem_of_pull.
    + tauto.
    + pose proof (Hok _ _ _ _ Hs0 Hcl) as Hiff.
      split; [intros [Hin _]; by apply Hiff|].
      intros Hin. split; [by apply Hiff|congruence].
    + pose proof (Hok _ _ _ _ Hst Hc0) as Hiff.
      split; [|intros [Hin _]; by apply Hiff].
      intros Hin. split; [by apply Hiff|congruence].
    + by apply Hok.
  - apply lookup_delete_Some in Hcl as [Hne Hcl].
    rewrite map_lookup_imap in Hst.
    destruct (db_students db !! sid) as [st0|] eqn:Hs; [|done].
    simpl in Hst. injection Hst as <-.
    pose proof (Hok _ _ _ _ Hs Hcl) as Hiff.
    destruct (includes sid (Classroom.students cl)); simpl; [|done].
    rewrite elem_of_pull. split; [intros [Hin _]; by apply Hiff|].
    intros Hin. split; [by apply Hiff|congruence].
Qed.

Lemma run_effect_invariant (P : Store → Prop) :
  (∀ db db', effect db db' → P db → P db') →
  ∀ ops db, Forall whole ops → P db → P (run ops db).
Proof.
  intros Hstep ops. induction ops as [|op ops IH]; intros db Hw HP; [done|].
  apply Forall_cons in Hw as [Hop Hw].
  simpl. apply IH; [done|]. by eapply Hstep; [apply exec_effect|].
Qed.

Lemma run_step_invariant (P : Store → Prop) :
  (∀ db db', effect db db' → P db → P db') →
  (∀ db db', half_effect db db' → P db → P db') →
  ∀ ops db, P db → P (run ops db).
Proof.
  intros Hstep Hhalf ops. induction ops as [|op ops IH]; intros db HP; [done|].
  simpl. apply IH.
  destruct (proj2 (exec_effect_or_half op db)) as [H|H]; [by eapply Hstep|by eapply Hhalf].
Qed.

Lemma run_consistent ops db : Forall whole ops → consistent db → consistent (run ops db).
Proof. apply run_effect_invariant. exact effect_consistent. Qed.

(** *** One classroom's bound *)

Lemma within_capacity_push s c c0 m cl db :
  (m ≠ 0)%Z →
  db_classrooms db !! c0 = Some cl →
  Classroom.isAtCapacity cl = false →
  within_capacity c m db →
  within_capacity c m (enroll_classroom_only s c0 db).
Proof.
  intros Hm Hc Hcap Hok cl' Hlk. simpl in Hlk.
  destruct (decide (c0 = c)) as [->|Hne].
  - rewrite lookup_alter_eq, Hc in Hlk. simpl in Hlk. injection Hlk as <-.
    destruct (Hok cl Hc) as [Hmax Hle]. simpl. split; [done|].
    rewrite length_push.
    pose proof (isAtCapacity_false_room cl m Hmax Hm Hcap). lia.
  - rewrite lookup_alter_ne in Hlk by done. by apply Hok.
Qed.

Lemma within_capacity_pull s c c0 m db :
  within_capacity c m db → within_capacity c m (withdraw_classroom_only s c0 db).
Proof.
  intros Hok cl' Hlk. simpl in Hlk.
  destruct (decide (c0 = c)) as [->|Hne].
  - rewrite lookup_alter_eq in Hlk.
    destruct (db_classrooms db !! c) as [cl|] eqn:Hc; [|done].
    simpl in Hlk. injection Hlk as <-. simpl.
    destruct (Hok cl Hc) as [Hmax Hle]. split; [done|].
    pose proof (length_pull s (Classroom.students cl)). lia.
  - rewrite lookup_alter_ne in Hlk by done. by apply Hok.
Qed.

Lemma effect_within_capacity c m db db' :
  (m ≠ 0)%Z → effect db db' → within_capacity c m db → within_capacity c m db'.
Proof.
  intros Hm Heff Hok. destruct Heff as [|s c0 st cl Hs Hc Hcap|s c0|c0 cl Hc]; [done|..].
  - exact (within_capacity_push s c c0 m cl db Hm Hc Hcap Hok).
  - exact (within_capacity_pull s c c0 m db Hok).
  - intros cl' Hlk. simpl in Hlk. apply lookup_delete_Some in Hlk as [_ Hlk]. by apply Hok.
Qed.

Lemma half_within_capacity c m db db' :
  (m ≠ 0)%Z → half_effect db db' → within_capacity c m db → within_capacity c m db'.
Proof.
  intros Hm Heff Hok. destruct Heff as [s c0 st cl Hs Hc Hcap|s c0|s c0|s c0]; [..|done].
  - exact (within_capacity_push s c c0 m cl db Hm Hc Hcap Hok).
  - done.
  - exact (within_capacity_pull s c c0 m db Hok).
Qed.

Lemma run_within_capacity ops c m db :
  (m ≠ 0)%Z → within_capacity c m db → within_capacity c m (run ops db).
Proof.
  intros Hm. apply run_step_invariant.
  - intros ???. by apply effect_within_capacity.
  - intros ???. by apply half_within_capacity.
Qed.

Lemma half_capacity_ok db db' : half_effect db db' → capacity_ok db → capacity_ok db'.
Proof.
  intros Heff Hok. destruct Heff as [s c st cl Hs Hc Hcap|s c|s c|s c]; [..|done];
    intros cid c' m Hlk Hmax Hm; simpl in Hlk.
  - destruct (decide (c = cid)) as [->|Hne].
    + rewrite lookup_alter_eq, Hc in Hlk. simpl in Hlk. injection Hlk as <-.
      simpl in *. rewrite length_push.
      pose proof (isAtCapacity_false_room cl m Hmax Hm Hcap). lia.
    + rewrite lookup_alter_ne in Hlk by done. by eapply Hok.
  - by eapply Hok.
  - destruct (decide (c = cid)) as [->|Hne].
    + rewrite lookup_alter_eq in Hlk.
      destruct (db_classrooms db !! cid) as [cl|] eqn:Hc; [|done].
      simpl in Hlk. injection Hlk as <-. simpl in *.
      pose proof (Hok cid cl m Hc Hmax Hm).
      pose proof (length_pull s (Classroom.students cl)). lia.
    + rewrite lookup_alter_ne in Hlk by done. by eapply Hok.
Qed.

Lemma run_capacity_ok ops db : capacity_ok db → capacity_ok (run ops db).
Proof. apply run_step_invariant; [exact effect_capacity_ok|exact half_capacity_ok]. Qed.

(** *** Referential consistency *)

Lemma referentially_consistent_consistent db :
  referentially_consistent db → consistent db.
Proof.
  intros [H1 H2] sid st cid cl Hs Hc. split.
  - intros Hin. destruct (H1 sid st cid Hs Hin) as (cl' & Hc' & Hin').
    rewrite Hc in Hc'. by injection Hc' as <-.
  - intros Hin. destruct (H2 cid cl sid Hc Hin) as (st' & Hs' & Hin').
    rewrite Hs in Hs'. by injection Hs' as <-.
Qed.

Lemma lookup_alter_is_Some {A} (f : A → A) (m : gmap nat A) (i j : nat) (x : A) :
  m !! j = Some x → ∃ y, alter f i m !! j = Some y ∧ (y = x ∨ (i = j ∧ y = f x)).
Proof.
  intros Hj. destruct (decide (i = j)) as [->|Hne].
  - exists (f x). rewrite lookup_alter_eq, Hj. split; [done|by right].
  - exists x. rewrite lookup_alter_ne by done. split; [done|by left].
Qed.

Lemma effect_referentially_consistent db db' :
  effect db db' → referentially_consistent db → referentially_consistent db'.
Proof.
  intros Heff [H1 H2]. destruct Heff as [|s c st cl Hs Hc Hcap|s c|c cl Hc]; [done|..].
  - split.
    + intros sid st' cid Hst Hin. simpl in Hst |- *.
      apply lookup_alter_Some in Hst as [(-> & st0 & Hs0 & ->)|[Hne Hst]].
      * simpl in Hin. apply elem_of_push in Hin as [Hin| ->].
        -- destruct (H1 _ _ _ Hs0 Hin) as (cl0 & Hc0 & Hin0).
           destruct (lookup_alter_is_Some
                       (λ cl, Classroom.set_students (push sid (Classroom.students cl)) cl)
                       _ c _ _ Hc0) as (y & Hy & [-> | [-> ->]]).
           ++ by exists cl0.
           ++ eexists. split; [exact Hy|]. simpl. apply elem_of_push. by left.
        -- eexists. rewrite lookup_alter_eq, Hc. split; [reflexivity|].
           simpl. apply elem_of_push. by right.
      * destruct (H1 _ _ _ Hst Hin) as (cl0 & Hc0 & Hin0).
        destruct (lookup_alter_is_Some
                    (λ cl, Classroom.set_students (push s (Classroom.students cl)) cl)
                    _ c _ _ Hc0) as (y & Hy & [-> | [-> ->]]).
        -- by exists cl0.
        -- eexists. split; [exact Hy|]. simpl. apply elem_of_push. by left.
    + intros cid cl' sid Hcl Hin. simpl in Hcl |- *.
      apply lookup_alter_Some in Hcl as [(-> & cl0 & Hc0 & ->)|[Hne Hcl]].
      * simpl in Hin. apply elem_of_push in Hin as [Hin| ->].
        -- destruct (H2 _ _ _ Hc0 Hin) as (st0 & Hs0 & Hin0).
           destruct (lookup_alter_is_Some
                       (λ st, Student.set_classrooms (push cid (Student.classrooms st)) st)
                       _ s _ _ Hs0) as (y & Hy & [-> | [-> ->]]).
           ++ by exists st0.
           ++ eexists. split; [exact Hy|]. simpl. apply elem_of_push. by left.
        -- eexists. rewrite lookup_alter_eq, Hs. split; [reflexivity|].
           simpl. apply elem_of_push. by right.
      * destruct (H2 _ _ _ Hcl Hin) as (st0 & Hs0 & Hin0).
        destruct (lookup_alter_is_Some
                    (λ st, Student.set_classrooms (push c (Student.classrooms st)) st)
                    _ s _ _ Hs0) as (y & Hy & [-> | [-> ->]]).
        -- by exists st0.
        -- eexists. split; [exact Hy|]. simpl. apply elem_of_push. by left.
  - split.
    + intros sid st' cid Hst Hin. simpl in Hst |- *.
      apply lookup_alter_Some in Hst as [(-> & st0 & Hs0 & ->)|[Hne Hst]].
      * simpl in Hin. apply elem_of_pull in Hin as [Hin Hcid].
        destruct (H1 _ _ _ Hs0 Hin) as (cl0 & Hc0 & Hin0).
        exists cl0. by rewrite lookup_alter_ne.
      * destruct (H1 _ _ _ Hst Hin) as (cl0 & Hc0 & Hin0).
        destruct (lookup_alter_is_Some
                    (λ cl, Classroom.set_students (pull s (Classroom.students cl)) cl)
                    _ c _ _ Hc0) as (y & Hy & [-> | [-> ->]]).
        -- by exists cl0.
        -- eexists. split; [exact Hy|]. simpl. apply elem_of_pull. split; [done|congruence].
    + intros cid cl' sid Hcl Hin. simpl in Hcl |- *.
      apply lookup_alter_Some in Hcl as [(-> & cl0 & Hc0 & ->)|[Hne Hcl]].
      * simpl in Hin. apply elem_of_pull in Hin as [Hin Hsid].
        destruct (H2 _ _ _ Hc0 Hin) as (st0 & Hs0 & Hin0).
        exists st0. by rewrite lookup_alter_ne.
      * destruct (H2 _ _ _ Hcl Hin) as (st0 & Hs0 & Hin0).
        destruct (lookup_alter_is_Some
                    (λ st, Student.set_classrooms (pull c (Student.classrooms st)) st)
                    _ s _ _ Hs0) as (y & Hy & [-> | [-> ->]]).
        -- by exists st0.
        -- eexists. split; [exact Hy|]. simpl. apply elem_of_pull. split; [done|congruence].
  - split.
    + intros sid st' cid Hst Hin. simpl in Hst |- *.
      rewrite map_lookup_imap in Hst.
      destruct (db_students db !! sid) as [st0|] eqn:Hs; [|done].
      simpl in Hst. injection Hst as <-.
      destruct (includes sid (Classroom.students cl)) eqn:Hinc.
      * simpl in Hin. apply elem_of_pull in Hin as [Hin Hcid].
        destruct (H1 _ _ _ Hs Hin) as (cl0 & Hc0 & Hin0).
        exists cl0. by rewrite lookup_delete_ne.
      * apply includes_false in Hinc.
        destruct (H1 _ _ _ Hs Hin) as (cl0 & Hc0 & Hin0).
        exists cl0. split; [|done]. rewrite lookup_delete_ne; [done|].
        intros <-. rewrite Hc in Hc0. injection Hc0 as <-. done.
    + intros cid cl' sid Hcl Hin. simpl in Hcl |- *.
      apply lookup_delete_Some in Hcl as [Hne Hcl].
      destruct (H2 _ _ _ Hcl Hin) as (st0 & Hs0 & Hin0).
      rewrite map_lookup_imap, Hs0. simpl.
      eexists. split; [reflexivity|].
      destruct (includes sid (Classroom.students cl)); [|done].
      simpl. apply elem_of_pull. split; [done|congruence].
Qed.

Lemma run_referentially_consistent ops db :
  Forall whole ops → referentially_consistent db → referentially_consistent (run ops db).
Proof. apply run_effect_invariant. exact effect_referentially_consistent. Qed.

(** ** Capacity *)

Lemma isAtCapacity_true c :
  Classroom.isAtCapacity c = true ↔
  ∃ m, Classroom.maxCapacity c = Some m ∧ (m ≠ 0)%Z
       ∧ (m ≤ Z.of_nat (length (Classroom.students c)))%Z.
Proof.
  unfold Classroom.isAtCapacity. destruct (Classroom.maxCapacity c) as [m|].
  - destruct (Z.eqb_spec m 0) as [->|Hm].
    + split; [done|]. intros (m & [= <-] & Hm & _). done.
    + rewrite Z.leb_le. split.
      * intros Hle. by exists m.
      * by intros (m' & [= <-] & _ & Hle).
  - split; [done|]. by intros (m & [=] & _).
Qed.

Lemma enroll_capacity_refusal faults s c db :
  refused_with (StudentService.enrollInClassroom faults s c db).1 CapacityExceeded ↔
  ∃ st cl, db_students db !! s = Some st ∧ db_classrooms db !! c = Some cl
           ∧ (s ∉ Classroom.students cl) ∧ Classroom.isAtCapacity cl = true.
Proof.
  unfold StudentService.enrollInClassroom, refused_with.
  destruct (db_students db !! s) as [st|] eqn:Hs.
  2:{ simpl. split; [intros (e & [= <-] & Hk); done|]. by intros (? & ? & [=] & _). }
  destruct (db_classrooms db !! c) as [cl|] eqn:Hc.
  2:{ simpl. split; [intros (e & [= <-] & Hk); done|]. by intros (? & ? & _ & [=] & _). }
  destruct (includes s (Classroom.students cl)) eqn:Hin.
  { simpl. split; [intros (e & [= <-] & Hk); done|].
    intros (? & ? & _ & [= <-] & Hnin & _). by apply includes_true in Hin. }
  apply includes_false in Hin.
  destruct (Classroom.isAtCapacity cl) eqn:Hcap; cbn [fst].
  - split; [|by eexists]. intros _. by exists st, cl.
  - split.
    + intros (e & He & Hk). destruct (faults 0 || faults 1); [|done].
      injection He as <-. done.
    + intros (? & ? & _ & [= <-] & _ & Hcap'). congruence.
Qed.

(** [addStudentToClassroom] looks at the capacity before anything else
    about the student. *)
Lemma addStudent_capacity_refusal faults c s db :
  refused_with (ClassroomService.addStudentToClassroom faults c s db).1 CapacityExceeded ↔
  ∃ cl, db_classrooms db !! c = Some cl ∧ Classroom.isAtCapacity cl = true.
Proof.
  unfold ClassroomService.addStudentToClassroom, refused_with. tx_unfold.
  destruct (db_classrooms db !! c) as [cl|] eqn:Hc; simpl.
  2:{ split; [intros (e & [= <-] & Hk); done|]. by intros (? & [=] & _). }
  destruct (Classroom.isAtCapacity cl) eqn:Hcap; simpl.
  { split; [|by eexists]. intros _. by exists cl. }
  assert (∀ r : result (option Classroom.t),
            (∀ e, r = Err e → kind e ≠ CapacityExceeded) →
            (∃ e, r = Err e ∧ kind e = CapacityExceeded) ↔
            ∃ cl0, Some cl = Some cl0 ∧ Classroom.isAtCapacity cl0 = true) as Hno.
  { intros r Hr. split; [intros (e & He & Hk); by destruct (Hr e He)|].
    intros (? & [= <-] & Hcap'). congruence. }
  destruct (db_students db !! s) as [st|] eqn:Hs; simpl.
  2:{ apply Hno. by intros e [= <-]. }
  destruct (includes s (Classroom.students cl)); simpl.
  { apply Hno. by intros e [= <-]. }
  destruct (faults 0); simpl; [apply Hno; by intros e [= <-]|].
  destruct (faults 1); simpl; [apply Hno; by intros e [= <-]|].
  destruct (faults 2); simpl; [apply Hno; by intros e [= <-]|].
  apply Hno. by intros e [=].
Qed.

(** C1 (as amended). For every classroom whose [maxCapacity] is present
    and not 0: if [|students| ≤ maxCapacity] holds of it, then after any
    sequence of enrollments, withdrawals and classroom deletions, through
    either service, whether the calls return or throw (also with one of the
    two saves of the student service rejected), the classroom, if it is
    still stored, has the same [maxCapacity] and [|students| ≤ maxCapacity];
    nothing is asked of the other classrooms. [isAtCapacity] is true exactly
    when [maxCapacity] is present, is not 0 and is at most
    [students.length]. In every store, [enrollInClassroom] refuses with
    CapacityExceeded exactly when student and classroom exist, the student
    is not yet listed and [isAtCapacity] holds. *)
Theorem capacity_invariant :
  (∀ (ops : list Op) (db : Store) (c : nat) (cl : Classroom.t) (m : Z),
     db_classrooms db !! c = Some cl →
     Classroom.maxCapacity cl = Some m → (m ≠ 0)%Z →
     (Z.of_nat (length (Classroom.students cl)) ≤ m)%Z →
     ∀ cl', db_classrooms (run ops db) !! c = Some cl' →
            Classroom.maxCapacity cl' = Some m
            ∧ (Z.of_nat (length (Classroom.students cl')) ≤ m)%Z)
  ∧ (∀ c, Classroom.isAtCapacity c = true ↔
          ∃ m, Classroom.maxCapacity c = Some m ∧ (m ≠ 0)%Z
               ∧ (m ≤ Z.of_nat (length (Classroom.students c)))%Z)
  ∧ (∀ faults s c db,
       refused_with (StudentService.enrollInClassroom faults s c db).1 CapacityExceeded ↔
       ∃ st cl, db_students db !! s = Some st ∧ db_classrooms db !! c = Some cl
                ∧ (s ∉ Classroom.students cl) ∧ Classroom.isAtCapacity cl = true).
Proof.
  split.
  { intros ops db c cl m Hc Hmax Hm Hle.
    apply (run_within_capacity ops c m db Hm).
    intros cl0 Hc0. rewrite Hc in Hc0. by injection Hc0 as <-. }
  split; [exact isAtCapacity_true|].
  intros faults s c db. apply enroll_capacity_refusal.
Qed.

(** The scenario of the specification, in a school where classroom 2 is
    over-full: classroom 1 has capacity 1, student 1 gets the seat and
    student 2 is refused; student 1 withdraws with the save of the student
    rejected, student 2 gets the seat and student 1 is refused. The bound
    holds of classroom 1 at the end. *)
Lemma capacity_invariant_witness :
  (∃ cl, db_classrooms db_crowded !! 2 = Some cl
         ∧ Classroom.maxCapacity cl = Some 1%Z ∧ length (Classroom.students cl) = 2)
  ∧ run [Enroll no_faults 1 1; Enroll no_faults 2 1; Withdraw student_save_fails 1 1;
         AddStudent no_faults 1 2; Enroll no_faults 1 1] db_crowded
    = with_students (λ _, <[ 1 := Student.mk 11 [2; 1] ]> {[ 2 := Student.mk 12 [2; 1] ]})
        (with_classrooms
           (λ _, <[ 1 := Classroom.mk 7 [2] (Some 1%Z) ]>
                   {[ 2 := Classroom.mk 7 [1; 2] (Some 1%Z) ]})
           db_crowded)
  ∧ (Z.of_nat (length [2]) ≤ 1)%Z.
Proof.
  split; [eexists; repeat split; vm_compute; reflexivity|].
  assert (run [Enroll no_faults 1 1; Enroll no_faults 2 1; Withdraw student_save_fails 1 1;
               AddStudent no_faults 1 2; Enroll no_faults 1 1] db_crowded
          = with_students
              (λ _, <[ 1 := Student.mk 11 [2; 1] ]> {[ 2 := Student.mk 12 [2; 1] ]})
              (with_classrooms
                 (λ _, <[ 1 := Classroom.mk 7 [2] (Some 1%Z) ]>
                         {[ 2 := Classroom.mk 7 [1; 2] (Some 1%Z) ]})
                 db_crowded)) as Hrun by (vm_compute; reflexivity).
  split; [exact Hrun|].
  refine (proj2 (proj1 capacity_invariant
                   [Enroll no_faults 1 1; Enroll no_faults 2 1;
                    Withdraw student_save_fails 1 1;
                    AddStudent no_faults 1 2; Enroll no_faults 1 1]
                   db_crowded 1 (Classroom.mk 7 [] (Some 1%Z)) 1%Z
                   _ _ _ _ (Classroom.mk 7 [2] (Some 1%Z)) _)).
  - vm_compute; reflexivity.
  - reflexivity.
  - discriminate.
  - simpl; lia.
  - rewrite Hrun. vm_compute; reflexivity.
Defined.

(** C1 as stated fails where [maxCapacity] is 0: the classroom is never at
    capacity, although [students.length >= maxCapacity], and one enrollment
    breaks [|students| ≤ maxCapacity]. And an enrollment into a full
    classroom of a student already listed is refused as a Conflict. *)
Lemma capacity_zero_counterexample :
  capacity_ok_when_set db_zero
  ∧ ¬ capacity_ok_when_set (run [Enroll no_faults 1 1] db_zero)
  ∧ (∃ c, db_classrooms db_zero !! 1 = Some c
          ∧ Classroom.isAtCapacity c = false ∧ isAtCapacity_spec c = true)
  ∧ (∃ c, db_classrooms db_full !! 1 = Some c ∧ Classroom.isAtCapacity c = true
          ∧ ¬ refused_with (StudentService.enrollInClassroom no_faults 1 1 db_full).1
                CapacityExceeded).
Proof.
  split.
  { intros cid c m Hlk Hmax. simpl in Hlk.
    apply lookup_singleton_Some in Hlk as [<- <-]. simpl in Hmax.
    injection Hmax as <-. simpl. lia. }
  split.
  { intros Hok.
    specialize (Hok 1 (Classroom.mk 7 [1] (Some 0%Z)) 0%Z).
    simpl in Hok. assert (1 ≤ 0)%Z as Habs; [|lia].
    apply Hok; [vm_compute; reflexivity|reflexivity]. }
  split.
  { eexists. split; [vm_compute; reflexivity|]. split; reflexivity. }
  eexists. split; [vm_compute; reflexivity|]. split; [reflexivity|].
  intros (e & He & Hk). vm_compute in He. injection He as <-. discriminate Hk.
Qed.

(** ** Referential consistency *)

Lemma consistent_empty : consistent empty_store.
Proof. intros sid st cid cl Hs _. simpl in Hs. by rewrite lookup_empty in Hs. Qed.

(** What holds of the code: from a store without dangling or one-sided
    references, every sequence of calls in which no save of the student
    service is rejected alone (the transactions of the classroom service
    may fail anywhere) leads to such a store again. *)
Lemma consistency_of_whole_calls (db : Store) (ops : list Op) :
  Forall whole ops → referentially_consistent db →
  referentially_consistent (run ops db) ∧ consistent (run ops db).
Proof.
  intros Hw H. pose proof (run_referentially_consistent ops db Hw H) as Hrc.
  split; [done|]. by apply referentially_consistent_consistent.
Qed.

Lemma consistent_db_full : consistent db_full.
Proof.
  intros sid st cid cl Hs Hc. simpl in Hs, Hc.
  apply lookup_singleton_Some in Hc as [<- <-]. simpl.
  apply lookup_insert_Some in Hs as [[<- <-]|[Hne Hs]]; simpl.
  - split; intros _; apply list_elem_of_singleton; reflexivity.
  - apply lookup_singleton_Some in Hs as [<- <-]. simpl.
    split; [intros Hin; inversion Hin|].
    intros Hin%list_elem_of_singleton. lia.
Qed.

Lemma referentially_consistent_db_open : referentially_consistent db_open.
Proof.
  split.
  - intros sid st cid Hs Hin. simpl in Hs.
    apply lookup_insert_Some in Hs as [[<- <-]|[Hne Hs]]; [by inversion Hin|].
    apply lookup_singleton_Some in Hs as [<- <-]. by inversion Hin.
  - intros cid cl sid Hc Hin. simpl in Hc.
    apply lookup_singleton_Some in Hc as [<- <-]. by inversion Hin.
Qed.

Lemma referentially_consistent_db_full : referentially_consistent db_full.
Proof.
  split.
  - intros sid st cid Hs Hin. simpl in Hs |- *.
    apply lookup_insert_Some in Hs as [[<- <-]|[Hne Hs]].
    + apply list_elem_of_singleton in Hin as ->.
      eexists. split; [apply lookup_singleton_eq|]. by apply list_elem_of_singleton.
    + apply lookup_singleton_Some in Hs as [<- <-]. by inversion Hin.
  - intros cid cl sid Hc Hin. simpl in Hc |- *.
    apply lookup_singleton_Some in Hc as [<- <-].
    apply list_elem_of_singleton in Hin as ->.
    eexists. split; [apply lookup_insert_eq|]. by apply list_elem_of_singleton.
Qed.

(** C2, at the input where the code departs from it. [enrollInClassroom]
    stores the two documents by two independent saves, outside any session.
    In the school of [db_open], which has no one-sided reference, student 1
    enrolls in classroom 1 and [classroom.save()] is rejected: the call
    throws, but the student is stored with classroom 1 in its list while
    classroom 1 lists nobody; and so it stays after the next completed
    enrollment, of student 2. In the same way a [withdrawFromClassroom]
    whose [student.save()] is rejected leaves student 1 listing a classroom
    that no longer lists it. The sibling [addStudentToClassroom] and
    [removeStudentFromClassroom] make the same two writes in a transaction
    and, like [deleteClassroom], leave no one-sided or dangling reference
    whatever fails. *)
Theorem enroll_save_rejected :
  referentially_consistent db_open
  ∧ StudentService.enrollInClassroom classroom_save_fails 1 1 db_open
    = (Err WriteFailed,
       with_students (λ _, <[ 1 := Student.mk 11 [1] ]> {[ 2 := Student.mk 12 [] ]}) db_open)
  ∧ ¬ consistent (run [Enroll classroom_save_fails 1 1] db_open)
  ∧ run [Enroll classroom_save_fails 1 1; Enroll no_faults 2 1] db_open
    = with_students (λ _, <[ 1 := Student.mk 11 [1] ]> {[ 2 := Student.mk 12 [1] ]})
        (with_classrooms (λ _, {[ 1 := Classroom.mk 7 [2] (Some 1%Z) ]}) db_open)
  ∧ ¬ consistent (run [Enroll classroom_save_fails 1 1; Enroll no_faults 2 1] db_open)
  ∧ referentially_consistent db_full
  ∧ StudentService.withdrawFromClassroom student_save_fails 1 1 db_full
    = (Err WriteFailed,
       with_classrooms (λ _, {[ 1 := Classroom.mk 7 [] (Some 1%Z) ]}) db_full)
  ∧ ¬ consistent (run [Withdraw student_save_fails 1 1] db_full)
  ∧ (∀ faults,
       referentially_consistent (run [AddStudent faults 1 1] db_open)
       ∧ referentially_consistent (run [RemoveStudent faults 1 1] db_full)
       ∧ referentially_consistent (run [DeleteClassroom faults 1] db_full)).
Proof.
  split; [exact referentially_consistent_db_open|].
  split; [vm_compute; reflexivity|].
  split.
  { intros H.
    specialize (H 1 (Student.mk 11 [1]) 1 (Classroom.mk 7 [] (Some 1%Z))
                  ltac:(vm_compute; reflexivity) ltac:(vm_compute; reflexivity)).
    simpl in H. assert (1 ∈ @nil nat) as Hin by (apply H; apply list_elem_of_singleton; done).
    inversion Hin. }
  split; [vm_compute; reflexivity|].
  split.
  { intros H.
    specialize (H 1 (Student.mk 11 [1]) 1 (Classroom.mk 7 [2] (Some 1%Z))
                  ltac:(vm_compute; reflexivity) ltac:(vm_compute; reflexivity)).
    simpl in H. assert (1 ∈ [2]) as Hin by (apply H; apply list_elem_of_singleton; done).
    apply list_elem_of_singleton in Hin. discriminate. }
  split; [exact referentially_consistent_db_full|].
  split; [vm_compute; reflexivity|].
  split.
  { intros H.
    specialize (H 1 (Student.mk 11 [1]) 1 (Classroom.mk 7 [] (Some 1%Z))
                  ltac:(vm_compute; reflexivity) ltac:(vm_compute; reflexivity)).
    simpl in H. assert (1 ∈ @nil nat) as Hin by (apply H; apply list_elem_of_singleton; done).
    inversion Hin. }
  intros faults. split; [|split].
  - apply (consistency_of_whole_calls db_open [AddStudent faults 1 1]);
      [by repeat constructor|exact referentially_consistent_db_open].
  - apply (consistency_of_whole_calls db_full [RemoveStudent faults 1 1]);
      [by repeat constructor|exact referentially_consistent_db_full].
  - apply (consistency_of_whole_calls db_full [DeleteClassroom faults 1]);
      [by repeat constructor|exact referentially_consistent_db_full].
Qed.

(** ** Enrolling a student who is already listed *)

Lemma enroll_listed faults s c st cl db :
  db_students db !! s = Some st →
  db_classrooms db !! c = Some cl →
  s ∈ Classroom.students cl →
  StudentService.enrollInClassroom faults s c db = (Err AlreadyEnrolled, db).
Proof.
  intros Hs Hc Hin%includes_true. unfold StudentService.enrollInClassroom.
  by rewrite Hs, Hc, Hin.
Qed.

(** After a successful [enrollInClassroom], the same call is a Conflict and
    changes nothing. *)
Lemma enroll_twice faults faults' s c db r db' :
  StudentService.enrollInClassroom faults s c db = (Ok r, db') →
  StudentService.enrollInClassroom faults' s c db' = (Err AlreadyEnrolled, db').
Proof.
  unfold StudentService.enrollInClassroom at 1.
  destruct (db_students db !! s) as [st|] eqn:Hs; [|done].
  destruct (db_classrooms db !! c) as [cl|] eqn:Hc; [|done].
  destruct (includes s (Classroom.students cl)); [done|].
  destruct (Classroom.isAtCapacity cl); [done|].
  unfold StudentService.saveBoth.
  destruct (faults 0), (faults 1); [done..|]. cbn [orb].
  intros [= <- <-].
  eapply enroll_listed; simpl.
  - apply lookup_insert_eq.
  - apply lookup_insert_eq.
  - simpl. apply elem_of_push. by right.
Qed.

(** [addStudentToClassroom] looks at the capacity first. *)
Lemma addStudent_listed faults s c st cl db :
  db_students db !! s = Some st →
  db_classrooms db !! c = Some cl →
  s ∈ Classroom.students cl →
  ClassroomService.addStudentToClassroom faults c s db
  = (Err (if Classroom.isAtCapacity cl then AtMaximumCapacity else AlreadyEnrolled), db).
Proof.
  intros Hs Hc Hin%includes_true. unfold ClassroomService.addStudentToClassroom.
  tx_unfold. rewrite Hc. simpl. destruct (Classroom.isAtCapacity cl); [done|].
  simpl. rewrite Hs. simpl. by rewrite Hin.
Qed.

(** C3, at the input where the code departs from it. Student 1 is added to
    classroom 1 (capacity 1) by [addStudentToClassroom]; adding the same
    student again is refused with 'Classroom is at maximum capacity', a
    CapacityExceeded and not a Conflict, while [enrollInClassroom] refuses
    the same request with 'Student is already enrolled in this classroom'.
    Both leave the store as it was. *)
Theorem addStudent_twice_at_capacity :
  ClassroomService.addStudentToClassroom no_faults 1 1 db_open
    = (Ok (Some (Classroom.mk 7 [1] (Some 1%Z))), db_full)
  ∧ ClassroomService.addStudentToClassroom no_faults 1 1 db_full
    = (Err AtMaximumCapacity, db_full)
  ∧ kind AtMaximumCapacity = CapacityExceeded
  ∧ (∀ faults,
       StudentService.enrollInClassroom faults 1 1 db_full = (Err AlreadyEnrolled, db_full))
  ∧ kind AlreadyEnrolled = Conflict.
Proof. repeat split; try (vm_compute; reflexivity). Qed.

(** ** Withdrawal *)

(** [withdrawFromClassroom] does what C7 says. *)
Lemma withdraw_spec s c db :
  match db_students db !! s, db_classrooms db !! c with
  | Some st, Some cl =>
      if includes s (Classroom.students cl)
      then ∃ st' cl' db',
          StudentService.withdrawFromClassroom no_faults s c db = (Ok (st', cl'), db')
          ∧ db_students db' !! s = Some st' ∧ db_classrooms db' !! c = Some cl'
          ∧ (s ∉ Classroom.students cl') ∧ (c ∉ Student.classrooms st')
          ∧ (∀ x, x ≠ s → x ∈ Classroom.students cl' ↔ x ∈ Classroom.students cl)
          ∧ (∀ y, y ≠ c → y ∈ Student.classrooms st' ↔ y ∈ Student.classrooms st)
      else ∀ faults,
          StudentService.withdrawFromClassroom faults s c db = (Err NotEnrolled, db)
  | None, _ =>
      ∀ faults, StudentService.withdrawFromClassroom faults s c db = (Err NoStudentFound, db)
  | Some _, None =>
      ∀ faults, StudentService.withdrawFromClassroom faults s c db = (Err NoClassroomFound, db)
  end.
Proof.
  unfold StudentService.withdrawFromClassroom.
  destruct (db_students db !! s) as [st|] eqn:Hs; [|done].
  destruct (db_classrooms db !! c) as [cl|] eqn:Hc; [|done].
  destruct (includes s (Classroom.students cl)); simpl; [|done].
  eexists _, _, _. split; [reflexivity|]. simpl.
  rewrite !lookup_insert_eq. simpl.
  split; [done|]. split; [done|].
  split; [rewrite elem_of_pull; tauto|].
  split; [rewrite elem_of_pull; tauto|].
  split; intros x Hx; rewrite elem_of_pull; tauto.
Qed.

(** [removeStudentFromClassroom] never looks whether the student is listed:
    without a fault it returns the classroom read back from the store. *)
Lemma removeStudent_ok c s st cl db :
  db_classrooms db !! c = Some cl →
  db_students db !! s = Some st →
  is_ok (ClassroomService.removeStudentFromClassroom no_faults c s db).1 = true.
Proof.
  intros Hc Hs. unfold ClassroomService.removeStudentFromClassroom. tx_unfold.
  rewrite Hc. simpl. by rewrite Hs.
Qed.

(** C7, at the input where the code departs from it. Student 2 and
    classroom 1 exist and student 2 is not listed in classroom 1:
    [removeStudentFromClassroom] returns the classroom instead of failing,
    whereas [withdrawFromClassroom] fails with 'Student is not enrolled in
    this classroom'. Neither changes the store. *)
Theorem removeStudent_not_enrolled :
  (∃ st cl, db_students db_full !! 2 = Some st ∧ db_classrooms db_full !! 1 = Some cl
            ∧ includes 2 (Classroom.students cl) = false)
  ∧ ClassroomService.removeStudentFromClassroom no_faults 1 2 db_full
    = (Ok (Some (Classroom.mk 7 [1] (Some 1%Z))), db_full)
  ∧ (∀ faults,
       StudentService.withdrawFromClassroom faults 2 1 db_full = (Err NotEnrolled, db_full))
  ∧ kind NotEnrolled = Conflict.
Proof.
  split; [eexists _, _; repeat split; vm_compute; reflexivity|].
  repeat split; try (vm_compute; reflexivity).
Qed.

(** ** What the calls establish *)

(** A successful [enrollInClassroom] stores the link on both sides. *)
Lemma enroll_links faults s c db st' cl' db' :
  StudentService.enrollInClassroom faults s c db = (Ok (st', cl'), db') →
  db_students db' !! s = Some st' ∧ db_classrooms db' !! c = Some cl'
  ∧ c ∈ Student.classrooms st' ∧ s ∈ Classroom.students cl'.
Proof.
  unfold StudentService.enrollInClassroom.
  destruct (db_students db !! s) as [st|]; [|done].
  destruct (db_classrooms db !! c) as [cl|]; [|done].
  destruct (includes s (Classroom.students cl)); [done|].
  destruct (Classroom.isAtCapacity cl); [done|].
  unfold StudentService.saveBoth.
  destruct (faults 0), (faults 1); [done..|]. cbn [orb].
  intros [= <- <- <-]. simpl. rewrite !lookup_insert_eq.
  repeat split; apply elem_of_push; by right.
Qed.

(** In a consistent store, a committed [deleteClassroom] leaves no student
    with a reference to the deleted classroom. *)
Lemma deleteClassroom_no_dangling id cl db sid st :
  consistent db →
  db_classrooms db !! id = Some cl →
  db_students (ClassroomService.deleteClassroom no_faults id db).2 !! sid = Some st →
  id ∉ Student.classrooms st.
Proof.
  intros Hok Hc.
  assert (ClassroomService.deleteClassroom no_faults id db
          = (Ok true, delete_effect cl id db)) as ->.
  { unfold ClassroomService.deleteClassroom. tx_unfold. by rewrite Hc. }
  simpl. rewrite map_lookup_imap.
  destruct (db_students db !! sid) as [st0|] eqn:Hs; [|done]. simpl.
  destruct (includes sid (Classroom.students cl)) eqn:Hin; intros [= <-]; simpl.
  - rewrite elem_of_pull. tauto.
  - apply includes_false in Hin. intros Hid. apply Hin. by apply (Hok sid st0 id cl).
Qed.

(** ** Deleting a classroom *)

Lemma deleteClassroom_missing faults id db :
  db_classrooms db !! id = None →
  ClassroomService.deleteClassroom faults id db = (Err NoClassroomFound, db).
Proof.
  intros Hc. unfold ClassroomService.deleteClassroom. tx_unfold. by rewrite Hc.
Qed.

Lemma deleteClassroom_committed faults id cl db :
  db_classrooms db !! id = Some cl →
  (∀ n, n ≤ 3 → faults n = false) →
  ClassroomService.deleteClassroom faults id db = (Ok true, delete_effect cl id db).
Proof.
  intros Hc Hf. unfold ClassroomService.deleteClassroom. tx_unfold.
  rewrite Hc. simpl. by rewrite !Hf by lia.
Qed.

Lemma deleteClassroom_aborted faults id cl db n :
  db_classrooms db !! id = Some cl →
  n ≤ 3 → faults n = true →
  ClassroomService.deleteClassroom faults id db = (Err WriteFailed, db).
Proof.
  intros Hc Hn Hf. unfold ClassroomService.deleteClassroom. tx_unfold.
  rewrite Hc. simpl.
  destruct (faults 0) eqn:H0; simpl; [done|].
  destruct (faults 1) eqn:H1; simpl; [done|].
  destruct (faults 2) eqn:H2; simpl; [done|].
  destruct (faults 3) eqn:H3; simpl; [done|].
  assert (n = 0 ∨ n = 1 ∨ n = 2 ∨ n = 3) as [-> | [-> | [-> | ->]]] by lia; congruence.
Qed.

Lemma delete_effect_teachers cl id db tid :
  db_teachers (delete_effect cl id db) !! tid
  = (λ t, if decide (tid = Classroom.teacherId cl)
          then Teacher.set_classrooms (pull id (Teacher.classrooms t)) t
          else t) <$> db_teachers db !! tid.
Proof.
  simpl. rewrite lookup_alter.
  destruct (decide (Classroom.teacherId cl = tid)) as [<-|Hne].
  - destruct (db_teachers db !! Classroom.teacherId cl); simpl; [|done].
    by rewrite decide_True.
  - destruct (db_teachers db !! tid); simpl; [|done].
    rewrite decide_False; [done|congruence].
Qed.

Lemma delete_effect_students cl id db sid :
  db_students (delete_effect cl id db) !! sid
  = (λ s, if includes sid (Classroom.students cl)
          then Student.set_classrooms (pull id (Student.classrooms s)) s
          else s) <$> db_students db !! sid.
Proof.
  simpl. rewrite map_lookup_imap. by destruct (db_students db !! sid).
Qed.

(** C6. [deleteClassroom(id)] fails with NotFound, changing nothing, when
    the classroom does not exist. For an existing classroom, if one of its
    three writes or its commit fails, the call fails and the store is as it
    was before the call. Otherwise it returns true and leaves a store in
    which the classroom document is gone, its teacher and every student
    listed in it no longer reference it (their other references are kept),
    and every other document is as before. *)
Theorem deleteClassroom_spec (faults : Faults) (id : nat) (db : Store) :
  match db_classrooms db !! id with
  | None =>
      ClassroomService.deleteClassroom faults id db = (Err NoClassroomFound, db)
      ∧ kind NoClassroomFound = NotFound
  | Some cl =>
      if faults 0 || faults 1 || faults 2 || faults 3
      then ∃ e, ClassroomService.deleteClassroom faults id db = (Err e, db)
      else ∃ db',
          ClassroomService.deleteClassroom faults id db = (Ok true, db')
          (* the classroom document is deleted, no other classroom changes *)
          ∧ db_classrooms db' = delete id (db_classrooms db)
          (* the teacher loses the reference and nothing else *)
          ∧ (∀ t, db_teachers db !! Classroom.teacherId cl = Some t →
               ∃ t', db_teachers db' !! Classroom.teacherId cl = Some t'
                     ∧ Teacher.userId t' = Teacher.userId t
                     ∧ ∀ c, c ∈ Teacher.classrooms t' ↔ c ∈ Teacher.classrooms t ∧ c ≠ id)
          ∧ (∀ tid, tid ≠ Classroom.teacherId cl →
               db_teachers db' !! tid = db_teachers db !! tid)
          (* every enrolled student loses the reference and nothing else *)
          ∧ (∀ sid st, db_students db !! sid = Some st → sid ∈ Classroom.students cl →
               ∃ st', db_students db' !! sid = Some st'
                      ∧ Student.userId st' = Student.userId st
                      ∧ ∀ c, c ∈ Student.classrooms st' ↔ c ∈ Student.classrooms st ∧ c ≠ id)
          ∧ (∀ sid, sid ∉ Classroom.students cl →
               db_students db' !! sid = db_students db !! sid)
          ∧ db_users db' = db_users db
          ∧ db_grades db' = db_grades db
          ∧ db_attendances db' = db_attendances db
  end.
Proof.
  destruct (db_classrooms db !! id) as [cl|] eqn:Hc.
  2:{ split; [by apply deleteClassroom_missing|done]. }
  destruct (faults 0 || faults 1 || faults 2 || faults 3) eqn:Hf.
  - exists WriteFailed.
    destruct (faults 0) eqn:H0;
      [apply (deleteClassroom_aborted faults id cl db 0 Hc); [lia|done]|].
    destruct (faults 1) eqn:H1;
      [apply (deleteClassroom_aborted faults id cl db 1 Hc); [lia|done]|].
    destruct (faults 2) eqn:H2;
      [apply (deleteClassroom_aborted faults id cl db 2 Hc); [lia|done]|].
    destruct (faults 3) eqn:H3;
      [apply (deleteClassroom_aborted faults id cl db 3 Hc); [lia|done]|].
    done.
  - exists (delete_effect cl id db).
    apply orb_false_iff in Hf as [Hf H3]. apply orb_false_iff in Hf as [Hf H2].
    apply orb_false_iff in Hf as [H0 H1].
    split.
    { apply deleteClassroom_committed; [done|]. intros n Hn.
      assert (n = 0 ∨ n = 1 ∨ n = 2 ∨ n = 3) as [-> | [-> | [-> | ->]]] by lia; done. }
    split; [done|].
    split.
    { intros t Ht. rewrite delete_effect_teachers, Ht. simpl.
      case_decide; [|done]. eexists. split; [done|]. split; [done|].
      intros c. simpl. apply elem_of_pull. }
    split.
    { intros tid Hne. rewrite delete_effect_teachers.
      destruct (db_teachers db !! tid); simpl; [|done]. by case_decide. }
    split.
    { intros sid st Hs Hin%includes_true. rewrite delete_effect_students, Hs, Hin.
      simpl. eexists. split; [done|]. split; [done|].
      intros c. simpl. apply elem_of_pull. }
    split.
    { intros sid Hnin%includes_false. rewrite delete_effect_students, Hnin.
      by destruct (db_students db !! sid). }
    done.
Qed.

(** The three outcomes of [deleteClassroom] on a small store. *)
Example deleteClassroom_outcomes :
  ClassroomService.deleteClassroom no_faults 5 db_full = (Err NoClassroomFound, db_full)
  ∧ ClassroomService.deleteClassroom third_write_fails 1 db_full = (Err WriteFailed, db_full)
  ∧ ClassroomService.deleteClassroom no_faults 1 db_full
    = (Ok true,
       with_teachers (λ _, {[ 7 := Teacher.mk 17 [] ]})
         (with_students (λ _, <[ 1 := Student.mk 11 [] ]> {[ 2 := Student.mk 12 [] ]})
            empty_store)).
Proof. repeat split; vm_compute; reflexivity. Qed.

(** The theorem at classroom 1 of the example school, all writes
    succeeding: teacher 7 and student 1 lose their reference. *)
Lemma deleteClassroom_spec_witness :
  ∃ db',
    ClassroomService.deleteClassroom no_faults 1 db_full = (Ok true, db')
    ∧ db_classrooms db' !! 1 = None
    ∧ (Teacher.classrooms <$> db_teachers db' !! 7) = Some []
    ∧ (Student.classrooms <$> db_students db' !! 1) = Some [].
Proof.
  pose proof (deleteClassroom_spec no_faults 1 db_full) as H.
  assert (db_classrooms db_full !! 1 = Some (Classroom.mk 7 [1] (Some 1%Z))) as Hl
    by (vm_compute; reflexivity).
  rewrite Hl in H. cbn [no_faults orb] in H.
  destruct H as (db' & Hrun & Hcl & _).
  exists db'. split; [exact Hrun|].
  rewrite Hcl, lookup_delete_eq. split; [reflexivity|].
  assert (db' = (ClassroomService.deleteClassroom no_faults 1 db_full).2) as ->
    by (by rewrite Hrun).
  split; vm_compute; reflexivity.
Defined.

(** ** Deleting a teacher *)

(** C10. When [deleteTeacher] succeeds for a teacher who owns no classroom,
    the teacher document is removed and the backing user, if there is one,
    has role 'student' afterwards, whatever its role was before; its other
    fields, all other users and all other collections are unchanged. *)
Theorem deleteTeacher_resets_role (teacherId : nat) (db : Store) (t : Teacher.t)
    (Ht : db_teachers db !! teacherId = Some t)
    (Hcount : TeacherService.countClassrooms teacherId (db_classrooms db) = 0) :
  ∃ db',
    TeacherService.deleteTeacher teacherId db = (Ok true, db')
    ∧ db_teachers db' = delete teacherId (db_teachers db)
    ∧ (∀ u, db_users db !! Teacher.userId t = Some u →
         ∃ u', db_users db' !! Teacher.userId t = Some u'
               ∧ User.role u' = User.student
               ∧ User.username u' = User.username u
               ∧ User.email u' = User.email u
               ∧ User.password u' = User.password u
               ∧ User.isActive u' = User.isActive u)
    ∧ (∀ uid, uid ≠ Teacher.userId t → db_users db' !! uid = db_users db !! uid)
    ∧ db_students db' = db_students db
    ∧ db_classrooms db' = db_classrooms db
    ∧ db_grades db' = db_grades db
    ∧ db_attendances db' = db_attendances db.
Proof.
  unfold TeacherService.deleteTeacher. rewrite Ht, Hcount. simpl.
  eexists. split; [reflexivity|].
  destruct (db_users db !! Teacher.userId t) as [u|] eqn:Hu; simpl.
  - split; [done|]. split.
    { intros u0 [= <-]. rewrite lookup_insert_eq. eexists. by split. }
    split; [|done]. intros uid Hne. by rewrite lookup_insert_ne.
  - split; [done|]. split; [by intros u|]. done.
Qed.

(** An administrator with a teacher profile is a student after the profile
    is deleted. *)
Lemma deleteTeacher_resets_role_witness :
  (User.role <$> db_users db_admin !! 17) = Some User.admin
  ∧ (User.role <$> db_users (TeacherService.deleteTeacher 7 db_admin).2 !! 17)
    = Some User.student
  ∧ ∃ db',
    TeacherService.deleteTeacher 7 db_admin = (Ok true, db')
    ∧ db_teachers db' = delete 7 (db_teachers db_admin)
    ∧ (∀ u, db_users db_admin !! 17 = Some u →
         ∃ u', db_users db' !! 17 = Some u'
               ∧ User.role u' = User.student
               ∧ User.username u' = User.username u
               ∧ User.email u' = User.email u
               ∧ User.password u' = User.password u
               ∧ User.isActive u' = User.isActive u)
    ∧ (∀ uid, uid ≠ 17 → db_users db' !! uid = db_users db_admin !! uid)
    ∧ db_students db' = db_students db_admin
    ∧ db_classrooms db' = db_classrooms db_admin
    ∧ db_grades db' = db_grades db_admin
    ∧ db_attendances db' = db_attendances db_admin.
Proof.
  split; [vm_compute; reflexivity|].
  split; [vm_compute; reflexivity|].
  apply (deleteTeacher_resets_role 7 db_admin (Teacher.mk 17 [])).
  - vm_compute; reflexivity.
  - vm_compute; reflexivity.
Defined.

(** ** Deleting a student *)

Lemma cleanAttendance_lookup sid m k a id :
  StudentService.cleanAttendance sid m (k, a) !! id
  = if decide (k = id) then cleaned sid a else m !! id.
Proof.
  unfold StudentService.cleanAttendance, cleaned. simpl.
  destruct (StudentService.stripRecords sid (Attendance.records a)) as [|r rs] eqn:Hrs;
    simpl.
  - rewrite lookup_delete. by case_decide.
  - rewrite lookup_insert. by case_decide.
Qed.

Lemma foldl_cleanAttendance sid (l : list (nat * Attendance.t)) :
  NoDup l.*1 →
  ∀ m id,
    foldl (StudentService.cleanAttendance sid) m l !! id
    = match (list_to_map l : gmap nat Attendance.t) !! id with
      | Some a => cleaned sid a
      | None => m !! id
      end.
Proof.
  induction l as [|[k a] l IH]; intros Hnd m id; simpl.
  - by rewrite lookup_empty.
  - apply NoDup_cons in Hnd as [Hk Hnd]. rewrite (IH Hnd).
    rewrite cleanAttendance_lookup, lookup_insert.
    destruct (decide (k = id)) as [<-|Hne]; [|done].
    apply not_elem_of_list_to_map_1 in Hk. simpl in Hk. by rewrite Hk.
Qed.

Lemma cleanAttendances_lookup sid (m : gmap nat Attendance.t) id :
  foldl (StudentService.cleanAttendance sid) m (StudentService.findAttendanceOf sid m) !! id
  = match m !! id with
    | Some a => if decide (StudentService.hasRecordOf sid a) then cleaned sid a else Some a
    | None => None
    end.
Proof.
  unfold StudentService.findAttendanceOf.
  rewrite foldl_cleanAttendance by apply NoDup_fst_map_to_list.
  rewrite list_to_map_to_list, map_lookup_filter.
  destruct (m !! id) as [a|]; simpl; [|done].
  unfold guard. simpl. by case_decide.
Qed.

Lemma stripRecords_no_record sid rs :
  ¬ Exists (λ r, Attendance.studentId r = sid) (StudentService.stripRecords sid rs).
Proof.
  intros (r & Hin & Hr)%Exists_exists.
  apply list_elem_of_filter in Hin as [Hne _]. done.
Qed.

(** C8. [deleteStudent] fails with a Conflict, changing nothing, while the
    student's classroom list is not empty. When it is empty the call
    returns true and leaves a store where: the grades are exactly the former
    grades of other students; an attendance document without a record of
    the student is unchanged; one with such a record keeps its classroom,
    its date and, in their order, exactly its records of other students, and
    is gone if there is none; no attendance document has appeared; so every
    record of another student is still in its document and no record of the
    student is left; the student document is gone and the other collections
    are unchanged. *)
Theorem deleteStudent_spec (studentId : nat) (db : Store) :
  match db_students db !! studentId with
  | None => StudentService.deleteStudent studentId db = (Err NoStudentFound, db)
  | Some st =>
      if decide (Student.classrooms st = [])
      then ∃ db',
          StudentService.deleteStudent studentId db = (Ok true, db')
          ∧ (∀ gid g, db_grades db' !! gid = Some g ↔
                      db_grades db !! gid = Some g ∧ Grade.studentId g ≠ studentId)
          ∧ (∀ aid a,
               db_attendances db !! aid = Some a →
               (∀ r, r ∈ Attendance.records a → Attendance.studentId r ≠ studentId) →
               db_attendances db' !! aid = Some a)
          ∧ (∀ aid a,
               db_attendances db !! aid = Some a →
               (∃ r, r ∈ Attendance.records a ∧ Attendance.studentId r = studentId) →
               db_attendances db' !! aid
               = match filter (λ r, Attendance.studentId r ≠ studentId)
                         (Attendance.records a) with
                 | [] => None
                 | rest => Some (Attendance.mk (Attendance.classroomId a)
                                   (Attendance.date a) rest)
                 end)
          ∧ (∀ aid, db_attendances db !! aid = None → db_attendances db' !! aid = None)
          ∧ (∀ aid a r,
               db_attendances db !! aid = Some a →
               r ∈ Attendance.records a → Attendance.studentId r ≠ studentId →
               ∃ a', db_attendances db' !! aid = Some a'
                     ∧ r ∈ Attendance.records a'
                     ∧ Attendance.classroomId a' = Attendance.classroomId a
                     ∧ Attendance.date a' = Attendance.date a)
          ∧ (∀ aid a' r,
               db_attendances db' !! aid = Some a' →
               r ∈ Attendance.records a' → Attendance.studentId r ≠ studentId)
          ∧ db_students db' = delete studentId (db_students db)
          ∧ db_users db' = db_users db
          ∧ db_teachers db' = db_teachers db
          ∧ db_classrooms db' = db_classrooms db
      else StudentService.deleteStudent studentId db = (Err StudentStillEnrolled, db)
           ∧ kind StudentStillEnrolled = Conflict
  end.
Proof.
  unfold StudentService.deleteStudent.
  destruct (db_students db !! studentId) as [st|] eqn:Hs; [|done].
  destruct (decide (Student.classrooms st = [])) as [Hnil|Hcons].
  2:{ destruct (Student.classrooms st); [done|]. simpl. done. }
  rewrite Hnil. simpl. eexists. split; [reflexivity|]. simpl.
  assert (∀ a, StudentService.hasRecordOf studentId a ↔
               ∃ r, r ∈ Attendance.records a ∧ Attendance.studentId r = studentId) as Hhas.
  { intros a. unfold StudentService.hasRecordOf. by rewrite Exists_exists. }
  assert (∀ a, StudentService.hasRecordOf studentId a →
               cleaned studentId a
               = match filter (λ r, Attendance.studentId r ≠ studentId)
                         (Attendance.records a) with
                 | [] => None
                 | rest => Some (Attendance.mk (Attendance.classroomId a)
                                   (Attendance.date a) rest)
                 end) as Hclean.
  { intros a _. unfold cleaned, StudentService.stripRecords.
    destruct (filter _ (Attendance.records a)) as [|r rs]; [by rewrite decide_True|].
    by rewrite decide_False. }
  assert (∀ aid a,
            db_attendances db !! aid = Some a →
            (∀ r, r ∈ Attendance.records a → Attendance.studentId r ≠ studentId) →
            foldl (StudentService.cleanAttendance studentId) (db_attendances db)
              (StudentService.findAttendanceOf studentId (db_attendances db)) !! aid
            = Some a) as Hkeep.
  { intros aid a Ha Hnone. rewrite cleanAttendances_lookup, Ha.
    rewrite decide_False; [done|].
    intros (r & Hr & Hsid)%Hhas. by apply (Hnone r). }
  assert (∀ aid a,
            db_attendances db !! aid = Some a →
            (∃ r, r ∈ Attendance.records a ∧ Attendance.studentId r = studentId) →
            foldl (StudentService.cleanAttendance studentId) (db_attendances db)
              (StudentService.findAttendanceOf studentId (db_attendances db)) !! aid
            = match filter (λ r, Attendance.studentId r ≠ studentId)
                      (Attendance.records a) with
              | [] => None
              | rest => Some (Attendance.mk (Attendance.classroomId a)
                                (Attendance.date a) rest)
              end) as Hstrip.
  { intros aid a Ha Hsome%Hhas. rewrite cleanAttendances_lookup, Ha.
    rewrite decide_True by done. by apply Hclean. }
  split.
  { intros gid g. rewrite map_lookup_filter_Some. simpl. tauto. }
  split; [exact Hkeep|].
  split; [exact Hstrip|].
  split.
  { intros aid Ha. by rewrite cleanAttendances_lookup, Ha. }
  split.
  { intros aid a r Ha Hr Hne.
    destruct (decide (StudentService.hasRecordOf studentId a)) as [Hrec|Hrec].
    - rewrite (Hstrip aid a Ha (proj1 (Hhas a) Hrec)).
      assert (r ∈ filter (λ r, Attendance.studentId r ≠ studentId) (Attendance.records a))
        as Hin by (by apply list_elem_of_filter).
      destruct (filter _ (Attendance.records a)) as [|r0 rs]; [by inversion Hin|].
      eexists. split; [reflexivity|]. done.
    - exists a. split; [|done]. apply Hkeep; [done|].
      intros r' Hr' Hsid. apply Hrec, Hhas. by exists r'. }
  split; [|done].
  intros aid a' r. rewrite cleanAttendances_lookup.
  destruct (db_attendances db !! aid) as [a0|]; [|done].
  case_decide as Hrec.
  - rewrite (Hclean a0 Hrec).
    destruct (filter _ (Attendance.records a0)) as [|r0 rs] eqn:Hf; [done|].
    intros [= <-]. simpl. rewrite <- Hf. by intros [? _]%list_elem_of_filter.
  - intros [= <-] Hr Hsid. apply Hrec, Hhas. by exists r.
Qed.

(** The cascade on a small store: student 1 loses both grades, attendance 1
    disappears, attendance 2 keeps the record of student 2, attendance 3 is
    untouched; student 2, still enrolled, cannot be deleted. *)
Example deleteStudent_cascade :
  StudentService.deleteStudent 1 db_cascade
  = (Ok true,
     with_students (λ _, {[ 2 := Student.mk 12 [4] ]})
       (with_grades (λ _, {[ 2 := Grade.mk 2 4 Grade.quiz 7 10 2 ]})
          (with_attendances
             (λ _, <[ 2 := Attendance.mk 4 86400000
                             [Attendance.mkRecord 2 Attendance.present 0] ]>
                     {[ 3 := Attendance.mk 4 172800000
                               [Attendance.mkRecord 2 Attendance.absent 0] ]})
             empty_store)))
  ∧ StudentService.deleteStudent 2 db_cascade = (Err StudentStillEnrolled, db_cascade).
Proof. split; vm_compute; reflexivity. Qed.

(** The theorem at student 1 of the example store: attendance 1, which
    records only student 1, goes; attendance 2 keeps its classroom, its day
    and the record of student 2; attendance 3, which has no record of
    student 1, stays as it is. *)
Lemma deleteStudent_spec_witness :
  ∃ db',
    StudentService.deleteStudent 1 db_cascade = (Ok true, db')
    ∧ db_grades db' !! 1 = None
    ∧ db_grades db' !! 3 = None
    ∧ db_grades db' !! 2 = Some (Grade.mk 2 4 Grade.quiz 7 10 2)
    ∧ db_attendances db' !! 1 = None
    ∧ db_attendances db' !! 2
      = Some (Attendance.mk 4 86400000 [Attendance.mkRecord 2 Attendance.present 0])
    ∧ db_attendances db' !! 3
      = Some (Attendance.mk 4 172800000 [Attendance.mkRecord 2 Attendance.absent 0])
    ∧ db_students db' !! 1 = None.
Proof.
  pose proof (deleteStudent_spec 1 db_cascade) as H.
  assert (db_students db_cascade !! 1 = Some (Student.mk 11 [])) as Hl
    by (vm_compute; reflexivity).
  rewrite Hl in H. cbn [Student.classrooms] in H.
  destruct (decide ([] = [])) as [_|Hne] in H; [|done].
  destruct H as (db' & Hrun & Hgrades & Hkeep & Hstrip & _ & _ & _ & Hstudents & _).
  exists db'. split; [exact Hrun|].
  split.
  { destruct (db_grades db' !! 1) as [g|] eqn:Hg; [|done].
    apply Hgrades in Hg as [Hg Hne]. vm_compute in Hg. injection Hg as <-. done. }
  split.
  { destruct (db_grades db' !! 3) as [g|] eqn:Hg; [|done].
    apply Hgrades in Hg as [Hg Hne]. vm_compute in Hg. injection Hg as <-. done. }
  split.
  { apply Hgrades. split; [vm_compute; reflexivity|]. simpl. lia. }
  split.
  { rewrite (Hstrip 1 (Attendance.mk 4 0 [Attendance.mkRecord 1 Attendance.present 0]));
      [reflexivity|vm_compute; reflexivity|].
    eexists. split; [apply list_elem_of_singleton; reflexivity|reflexivity]. }
  split.
  { rewrite (Hstrip 2 (Attendance.mk 4 86400000
                         [Attendance.mkRecord 1 Attendance.late 5;
                          Attendance.mkRecord 2 Attendance.present 0]));
      [reflexivity|vm_compute; reflexivity|].
    eexists. split; [apply list_elem_of_here|reflexivity]. }
  split.
  { apply Hkeep; [vm_compute; reflexivity|].
    intros r Hr%list_elem_of_singleton. subst r. simpl. lia. }
  rewrite Hstudents. apply lookup_delete_eq.
Defined.

(** ** Attendance: one document per classroom and day *)

Lemma findOne_None classroomId date (m : gmap nat Attendance.t) :
  AttendanceService.findOne classroomId date m = None ↔
  ∀ id a, m !! id = Some a →
          ¬ (Attendance.classroomId a = classroomId ∧ Attendance.date a = date).
Proof.
  unfold AttendanceService.findOne.
  rewrite head_None, map_to_list_empty_iff, map_empty.
  split.
  - intros Hnone id a Ha HP. specialize (Hnone id).
    apply map_lookup_filter_None in Hnone as [Hnone|Hnone]; [congruence|].
    by apply (Hnone a).
  - intros Hall id. apply map_lookup_filter_None.
    destruct (m !! id) as [a|] eqn:Ha; [right|by left].
    intros a' [= <-]. by apply (Hall id).
Qed.

(** The stored date is the date of the request, not its day: whenever the
    first request of a day is not made for local midnight, a second request
    for another time of that day succeeds too. *)
Lemma createAttendance_same_day tz id1 id2 a1 a2 cl db :
  db_attendances db = ∅ →
  db_classrooms db !! Attendance.classroomId a1 = Some cl →
  Attendance.classroomId a2 = Attendance.classroomId a1 →
  AttendanceService.startOfDay tz (Attendance.date a2)
    = AttendanceService.startOfDay tz (Attendance.date a1) →
  Attendance.date a1 ≠ AttendanceService.startOfDay tz (Attendance.date a1) →
  Attendance.date a2 ≠ Attendance.date a1 →
  id1 ≠ id2 →
  ∃ db1 db2,
    AttendanceService.createAttendance tz id1 a1 db = (Ok a1, db1)
    ∧ AttendanceService.createAttendance tz id2 a2 db1 = (Ok a2, db2)
    ∧ db_attendances db2 !! id1 = Some a1
    ∧ db_attendances db2 !! id2 = Some a2.
Proof.
  intros Hempty Hcl Hsame Hday Hmid Hdate Hid.
  assert (AttendanceService.createAttendance tz id1 a1 db
          = (Ok a1, with_attendances (insert id1 a1) db)) as H1.
  { unfold AttendanceService.createAttendance, AttendanceService.create.
    rewrite Hcl, Hempty.
    rewrite (proj2 (findOne_None _ _ ∅)) by (intros ? ?; by rewrite lookup_empty).
    rewrite (proj2 (findOne_None _ _ ∅)) by (intros ? ?; by rewrite lookup_empty).
    by rewrite lookup_empty. }
  eexists _, _. split; [exact H1|].
  unfold AttendanceService.createAttendance, AttendanceService.create. simpl.
  rewrite Hsame, Hcl, Hempty, Hday.
  rewrite (proj2 (findOne_None _ _ _)).
  2:{ intros id a [[<- <-]|[_ Ha]]%lookup_insert_Some [_ Hd]; [done|].
      by rewrite lookup_empty in Ha. }
  rewrite (proj2 (findOne_None _ _ _)).
  2:{ intros id a [[<- <-]|[_ Ha]]%lookup_insert_Some [_ Hd]; [done|].
      by rewrite lookup_empty in Ha. }
  rewrite lookup_insert_ne by done. rewrite lookup_empty.
  split; [reflexivity|]. simpl.
  split; [|apply lookup_insert_eq].
  rewrite lookup_insert_ne by done. apply lookup_insert_eq.
Qed.

(** C5, at the input where the code departs from it. In classroom 4, an
    attendance is created for 10:00 and another for 14:00 of the same day:
    both calls succeed and two documents of that classroom and day are
    stored. The second call is refused only when the stored date is local
    midnight ('Attendance record already exists for this date') or is the
    very same instant (the unique index). *)
Theorem createAttendance_twice_same_day :
  let first := Attendance.mk 4 ten_o_clock [] in
  let second := Attendance.mk 4 two_pm [] in
  let db1 := (AttendanceService.createAttendance 0 1 first db_school).2 in
  let db2 := (AttendanceService.createAttendance 0 2 second db1).2 in
  AttendanceService.startOfDay 0 ten_o_clock = AttendanceService.startOfDay 0 two_pm
  ∧ AttendanceService.createAttendance 0 1 first db_school = (Ok first, db1)
  ∧ AttendanceService.createAttendance 0 2 second db1 = (Ok second, db2)
  ∧ db_attendances db2 = <[ 1 := first ]> {[ 2 := second ]}
  ∧ (let at_midnight := Attendance.mk 4 midnight [] in
     let db1' := (AttendanceService.createAttendance 0 1 at_midnight db_school).2 in
     AttendanceService.createAttendance 0 2 second db1' = (Err AttendanceExists, db1'))
  ∧ AttendanceService.createAttendance 0 2 first db1 = (Err DuplicateKey, db1).
Proof. repeat split; vm_compute; reflexivity. Qed.

(** ** Grade aggregation *)

Lemma elem_of_findByStudentClassroom studentId classroomId (m : gmap nat Grade.t) g :
  g ∈ GradeService.findByStudentClassroom studentId classroomId m ↔
  ∃ id, m !! id = Some g
        ∧ Grade.studentId g = studentId ∧ Grade.classroomId g = classroomId.
Proof.
  unfold GradeService.findByStudentClassroom. rewrite list_elem_of_fmap. split.
  - intros ([id g'] & -> & Hin). apply elem_of_map_to_list in Hin.
    apply map_lookup_filter_Some in Hin as [Hin HP]. by exists id.
  - intros (id & Hin & HP). exists (id, g). split; [done|].
    apply elem_of_map_to_list. by apply map_lookup_filter_Some.
Qed.

Lemma toFixed2_proper (x y : Q) : (x == y)%Q → toFixed2 x = toFixed2 y.
Proof.
  intros Hxy. unfold toFixed2, hundredths.
  assert (Qfloor (Qabs x * 100 + (1 # 2)) = Qfloor (Qabs y * 100 + (1 # 2))) as ->.
  { apply Qfloor_comp. by rewrite Hxy. }
  destruct (Qlt_le_dec x 0) as [Hx|Hx], (Qlt_le_dec y 0) as [Hy|Hy]; try done.
  - rewrite Hxy in Hx. exfalso. by apply (Qlt_not_le y 0).
  - rewrite <- Hxy in Hy. exfalso. by apply (Qlt_not_le x 0).
Qed.

(** What [toFixed(2)] prints is the magnitude rounded to the nearest
    hundredth, halves upwards. *)
Lemma hundredths_rounds (x : Q) :
  (inject_Z (hundredths x) - (1 # 2) <= Qabs x * 100)%Q
  ∧ (Qabs x * 100 < inject_Z (hundredths x) + (1 # 2))%Q.
Proof.
  unfold hundredths.
  pose proof (Qfloor_le (Qabs x * 100 + (1 # 2))) as Hle.
  pose proof (Qlt_floor (Qabs x * 100 + (1 # 2))) as Hlt.
  rewrite inject_Z_plus in Hlt. split.
  - apply (Qplus_le_l _ _ (1 # 2)). by ring_simplify.
  - apply (Qplus_lt_l _ _ (1 # 2)).
    eapply Qlt_le_trans; [exact Hlt|]. ring_simplify. apply Qle_refl.
Qed.

(** The two sums of [forEach] are the running sums of the products and of
    the weights. *)
Lemma average_accumulates gs a b :
  foldl (λ '(tws, tw) grade,
           (Float64.add tws
              (Float64.mul (GradeService.percentage64 grade)
                 (Float64.ofQ (Grade.weightage grade))),
            Float64.add tw (Float64.ofQ (Grade.weightage grade))))
    (a, b) gs
  = (foldl Float64.add a
       (map (λ g, Float64.mul (percentage64_spec g) (Float64.ofQ (Grade.weightage g))) gs),
     foldl Float64.add b (map (λ g, Float64.ofQ (Grade.weightage g)) gs)).
Proof.
  revert a b. induction gs as [|g gs IH]; intros a b; [done|].
  simpl. by rewrite IH.
Qed.

Lemma average_weighted gs :
  gs ≠ [] →
  GradeService.average gs
  = if Float64.ltb Float64.zero (sum64 (map (λ g, Float64.ofQ (Grade.weightage g)) gs))
    then GradeService.Text (Float64.toFixed2 (weightedAverage64_spec gs))
    else GradeService.NumberZero.
Proof.
  intros Hne. unfold GradeService.average.
  destruct gs as [|g gs]; [done|].
  change (length (g :: gs) =? 0) with false. cbv iota.
  by rewrite average_accumulates.
Qed.

(** Below 10^21, [toFixed(2)] prints the exact value of the double rounded
    to the nearest hundredth. *)
Lemma toFixed2_64 (x : Float64.t) (q : Q) :
  Float64.toQ x = Some q → (Qabs q < 10 ^ 21)%Q →
  Float64.toFixed2 x = Float64.Digits (toFixed2 q).
Proof.
  destruct x as [s|s| |s m e]; try done; simpl; intros [= <-] Hlt.
  - done.
  - destruct (Qle_bool _ _) eqn:Hle; [|done].
    apply Qle_bool_iff in Hle. exfalso. by apply (Qlt_not_le _ _ Hlt).
Qed.

(** The grades found are the stored grades of the student in the
    classroom, each once. *)
Lemma findByStudentClassroom_found studentId classroomId (m : gmap nat Grade.t) :
  ∃ found : list (nat * Grade.t),
    GradeService.findByStudentClassroom studentId classroomId m = found.*2
    ∧ NoDup found.*1
    ∧ ∀ id g, (id, g) ∈ found ↔
              m !! id = Some g
              ∧ Grade.studentId g = studentId ∧ Grade.classroomId g = classroomId.
Proof.
  eexists. split; [reflexivity|]. split; [apply NoDup_fst_map_to_list|].
  intros id g. rewrite elem_of_map_to_list, map_lookup_filter_Some. simpl. tauto.
Qed.

(** C4 (as amended). The grades [getStudentAverage] averages are the stored
    grades of the student in the classroom, each once. Without any, the
    result is the Number 0. Otherwise it is the Number 0 when the running
    sum of the weights is not more than 0, and else what [toFixed(2)] returns
    of the quotient of the two running sums Σ(percentage_i × weightage_i) and
    Σ(weightage_i), with percentage_i = score_i / maxScore_i × 100, every
    operation being double arithmetic, in the order the grades are found;
    the body of the function computes this for the grades in any order.
    [toFixed(2)] of a double below 10^21 prints its exact value rounded to
    the nearest hundredth. For the two grades of the specification's example
    the result is "83.33". *)
Theorem getStudentAverage_spec (studentId classroomId : nat) (db : Store) :
  let gs := GradeService.findByStudentClassroom studentId classroomId (db_grades db) in
  (∃ found : list (nat * Grade.t),
     gs = found.*2 ∧ NoDup found.*1
     ∧ ∀ id g, (id, g) ∈ found ↔
               db_grades db !! id = Some g
               ∧ Grade.studentId g = studentId ∧ Grade.classroomId g = classroomId)
  ∧ (gs = [] →
     GradeService.getStudentAverage studentId classroomId db = GradeService.NumberZero)
  ∧ (gs ≠ [] →
     GradeService.getStudentAverage studentId classroomId db
     = if Float64.ltb Float64.zero (sum64 (map (λ g, Float64.ofQ (Grade.weightage g)) gs))
       then GradeService.Text (Float64.toFixed2 (weightedAverage64_spec gs))
       else GradeService.NumberZero)
  ∧ (∀ grades,
       grades ≠ [] →
       GradeService.average grades
       = if Float64.ltb Float64.zero
              (sum64 (map (λ g, Float64.ofQ (Grade.weightage g)) grades))
         then GradeService.Text (Float64.toFixed2 (weightedAverage64_spec grades))
         else GradeService.NumberZero)
  ∧ (∀ (x : Float64.t) (q : Q),
       Float64.toQ x = Some q → (Qabs q < 10 ^ 21)%Q →
       Float64.toFixed2 x = Float64.Digits (toFixed2 q)
       ∧ (inject_Z (hundredths q) - (1 # 2) <= Qabs q * 100)%Q
       ∧ (Qabs q * 100 < inject_Z (hundredths q) + (1 # 2))%Q)
  ∧ GradeService.getStudentAverage 1 4 db_grades_example
    = GradeService.Text (Float64.Digits "83.33").
Proof.
  intros gs. split; [apply findByStudentClassroom_found|].
  split.
  { intros Hnil. unfold GradeService.getStudentAverage. fold gs. by rewrite Hnil. }
  split.
  { intros Hne. unfold GradeService.getStudentAverage. fold gs. by apply average_weighted. }
  split; [exact average_weighted|].
  split; [|vm_compute; reflexivity].
  intros x q Hx Hlt. split; [by apply toFixed2_64|apply hundredths_rounds].
Qed.

(** The theorem at the specification's example: the weights sum to 3, the
    quotient of the sums is the double closest to 250/3, and "83.33" is
    printed. *)
Lemma getStudentAverage_spec_witness :
  GradeService.findByStudentClassroom 1 4 (db_grades db_grades_example) ≠ []
  ∧ GradeService.getStudentAverage 1 4 db_grades_example
    = GradeService.Text
        (Float64.toFixed2
           (weightedAverage64_spec
              (GradeService.findByStudentClassroom 1 4 (db_grades db_grades_example))))
  ∧ weightedAverage64_spec
      (GradeService.findByStudentClassroom 1 4 (db_grades db_grades_example))
    = Float64.ofQ (250 # 3)
  ∧ Float64.toFixed2 (Float64.ofQ (250 # 3)) = Float64.Digits "83.33".
Proof.
  assert (GradeService.findByStudentClassroom 1 4 (db_grades db_grades_example) ≠ [])
    as Hne by (vm_compute; discriminate).
  split; [exact Hne|].
  destruct (getStudentAverage_spec 1 4 db_grades_example) as (_ & _ & H & _).
  split; [|split; vm_compute; reflexivity].
  rewrite (H Hne). vm_compute. reflexivity.
Defined.

(** C4 as stated fails where the exact average lies half-way between two
    hundredths. The only grade of student 1 in classroom 4 is 23 out of 160
    with weight 1: the weighted average is 14.375, which rounds to 14.38
    (halves upwards, as [toFixed] rounds, and also halves to even); the
    doubles give 23/160 × 100 = 14.374999999999998..., below 14.375, and
    the result is "14.37". *)
Lemma getStudentAverage_half_way_counterexample :
  GradeService.findByStudentClassroom 1 4 (db_grades db_tie)
  = [Grade.mk 1 4 Grade.quiz 23 160 1]
  ∧ (weightedAverage_spec [Grade.mk 1 4 Grade.quiz 23 160 1] == 115 # 8)%Q
  ∧ toFixed2 (115 # 8) = "14.38"
  ∧ Float64.toQ (weightedAverage64_spec [Grade.mk 1 4 Grade.quiz 23 160 1])
    = Some (8092405580431359 # 562949953421312)
  ∧ (8092405580431359 # 562949953421312 < 115 # 8)%Q
  ∧ GradeService.getStudentAverage 1 4 db_tie = GradeService.Text (Float64.Digits "14.37").
Proof. repeat split; vm_compute; reflexivity. Qed.

(** A [maxScore] of 0 makes the quotient infinite, or NaN for a score of 0,
    and that is what is printed; weights that sum to 0 give the Number 0. *)
Example average_of_maxScore_zero :
  GradeService.average [Grade.mk 1 4 Grade.quiz 5 0 1]
  = GradeService.Text (Float64.Digits "Infinity")
  ∧ GradeService.average [Grade.mk 1 4 Grade.quiz 0 0 1]
    = GradeService.Text (Float64.Digits "NaN")
  ∧ GradeService.average [Grade.mk 1 4 Grade.quiz 5 10 0] = GradeService.NumberZero.
Proof. repeat split; vm_compute; reflexivity. Qed.

(** ** Classroom statistics *)

Lemma statistics_empty :
  GradeService.statistics []
  = {| GradeService.averageScore := JsNumber 0%Q;
       GradeService.highestScore := JsNumber 0%Q;
       GradeService.lowestScore := JsNumber 0%Q;
       GradeService.assignmentCount := 0;
       GradeService.assignmentTypes := [] |}.
Proof. reflexivity. Qed.

Lemma statistics_count gs :
  GradeService.assignmentCount (GradeService.statistics gs) = length gs.
Proof. unfold GradeService.statistics. by destruct gs. Qed.

Lemma visit_total gs a :
  (GradeService.totalPercentage (foldl GradeService.visit a gs)
   == GradeService.totalPercentage a + sumQ (map percentage_spec gs))%Q.
Proof.
  revert a. induction gs as [|g gs IH]; intros a; simpl; [ring|].
  rewrite IH. simpl. unfold percentage_spec, GradeService.percentage. ring.
Qed.

(** The average is the simple mean of the percentages. *)
Lemma statistics_average g gs :
  GradeService.averageScore (GradeService.statistics (g :: gs))
  = JsString (toFixed2 (meanPercentage_spec (g :: gs))).
Proof.
  unfold GradeService.statistics.
  change (length (g :: gs) =? 0) with false. cbv iota. cbn [GradeService.averageScore].
  f_equal. apply toFixed2_proper. unfold meanPercentage_spec.
  rewrite visit_total. cbn [GradeService.totalPercentage]. by rewrite Qplus_0_l.
Qed.

Lemma visit_lowest a g :
  GradeService.lowest (GradeService.visit a g)
  = Qmin (GradeService.lowest a) (GradeService.percentage g).
Proof.
  unfold GradeService.visit. cbn [GradeService.lowest].
  destruct (Qlt_le_dec (GradeService.percentage g) (GradeService.lowest a)) as [Hlt|Hle].
  - unfold Qmin, GenericMinMax.gmin.
    by rewrite (proj1 (Qgt_alt (GradeService.lowest a) (GradeService.percentage g)) Hlt).
  - unfold Qmin, GenericMinMax.gmin.
    destruct (GradeService.lowest a ?= GradeService.percentage g)%Q eqn:Hcmp; done.
Qed.

Lemma visit_highest a g :
  GradeService.highest (GradeService.visit a g)
  = Qmax (GradeService.highest a) (GradeService.percentage g).
Proof.
  unfold GradeService.visit. cbn [GradeService.highest].
  destruct (Qlt_le_dec (GradeService.highest a) (GradeService.percentage g)) as [Hlt|Hle].
  - unfold Qmax, GenericMinMax.gmax.
    by rewrite (proj1 (Qlt_alt (GradeService.highest a) (GradeService.percentage g)) Hlt).
  - unfold Qmax, GenericMinMax.gmax.
    destruct (GradeService.highest a ?= GradeService.percentage g)%Q eqn:Hcmp;
      [done| |done].
    apply Qlt_alt in Hcmp. exfalso. by apply (Qlt_not_le _ _ Hcmp).
Qed.

(** What the code computes as lowest and highest score: the least of 100
    and the percentages, the greatest of 0 and the percentages. *)
Lemma foldl_visit_extremes gs a :
  GradeService.lowest (foldl GradeService.visit a gs)
  = foldl Qmin (GradeService.lowest a) (map GradeService.percentage gs)
  ∧ GradeService.highest (foldl GradeService.visit a gs)
    = foldl Qmax (GradeService.highest a) (map GradeService.percentage gs).
Proof.
  revert a. induction gs as [|g gs IH]; intros a; simpl; [done|].
  destruct (IH (GradeService.visit a g)) as [-> ->].
  by rewrite visit_lowest, visit_highest.
Qed.

Lemma statistics_extremes g gs :
  GradeService.lowestScore (GradeService.statistics (g :: gs))
  = JsString (toFixed2 (foldl Qmin 100%Q (map GradeService.percentage (g :: gs))))
  ∧ GradeService.highestScore (GradeService.statistics (g :: gs))
    = JsString (toFixed2 (foldl Qmax 0%Q (map GradeService.percentage (g :: gs)))).
Proof.
  unfold GradeService.statistics.
  change (length (g :: gs) =? 0) with false. cbv iota.
  cbn [GradeService.lowestScore GradeService.highestScore].
  destruct (foldl_visit_extremes (g :: gs)
              {| GradeService.totalPercentage := 0%Q; GradeService.highest := 0%Q;
                 GradeService.lowest := 100%Q; GradeService.types := [] |}) as [-> ->].
  done.
Qed.

Lemma countType_positive t o :
  Forall (λ kn, 0 < kn.2) o → Forall (λ kn, 0 < kn.2) (GradeService.countType t o).
Proof.
  induction 1 as [|[k n] o Hn Ho IH]; simpl.
  - repeat constructor.
  - case_decide.
    + constructor; [|done]. simpl. destruct (0 <? n); simpl; lia.
    + by constructor.
Qed.

Lemma occurrences_countType t t' o :
  Forall (λ kn, 0 < kn.2) o →
  occurrences t (GradeService.countType t' o)
  = if decide (t' = t) then S (occurrences t o) else occurrences t o.
Proof.
  induction 1 as [|[k n] o Hn Ho IH]; simpl.
  - by destruct (decide (t' = t)).
  - simpl in Hn. destruct (decide (k = t')) as [->|Hk].
    + apply Nat.ltb_lt in Hn. rewrite Hn. simpl.
      by destruct (decide (t' = t)).
    + simpl. destruct (decide (k = t)) as [->|Hkt].
      * by rewrite decide_False by done.
      * exact IH.
Qed.

(** Every assignment type is counted as often as it occurs. *)
Lemma statistics_types t gs :
  occurrences t (GradeService.assignmentTypes (GradeService.statistics gs))
  = length (filter (λ g, Grade.assignmentType g = t) gs).
Proof.
  unfold GradeService.statistics. destruct gs as [|g0 gs0]; [done|].
  change (length (g0 :: gs0) =? 0) with false. cbv iota.
  cbn [GradeService.assignmentTypes].
  set (a0 := {| GradeService.totalPercentage := 0%Q; GradeService.highest := 0%Q;
                GradeService.lowest := 100%Q; GradeService.types := [] |}).
  assert (∀ gs a,
            Forall (λ kn, 0 < kn.2) (GradeService.types a) →
            occurrences t (GradeService.types (foldl GradeService.visit a gs))
            = occurrences t (GradeService.types a)
              + length (filter (λ g, Grade.assignmentType g = t) gs)) as Hgen.
  { clear. induction gs as [|g gs IH]; intros a Ha; simpl; [lia|].
    rewrite IH by (simpl; by apply countType_positive).
    simpl. rewrite occurrences_countType by done.
    rewrite filter_cons. destruct (decide (Grade.assignmentType g = t)); simpl; lia. }
  rewrite (Hgen (g0 :: gs0) a0) by constructor. done.
Qed.

(** C9, at the inputs where the code departs from it. The only grade of
    classroom 5 is 11 out of 10: its percentage, the minimum, is 110, and
    the lowest score reported is "100.00". The only grade of classroom 6 is
    -1 out of 10: its percentage, the maximum, is -10, and the highest score
    reported is "0.00". Without grades the zeroed structure is returned. *)
Theorem statistics_extremes_off_range :
  GradeService.getClassroomGradeStatistics 5 db_bonus
  = {| GradeService.averageScore := JsString "110.00";
       GradeService.highestScore := JsString "110.00";
       GradeService.lowestScore := JsString "100.00";
       GradeService.assignmentCount := 1;
       GradeService.assignmentTypes := [(Grade.homework, 1)] |}
  ∧ (toFixed2 <$> minimum (map percentage_spec (GradeService.findByClassroom 5 (db_grades db_bonus))))
    = Some "110.00"
  ∧ GradeService.getClassroomGradeStatistics 6 db_bonus
    = {| GradeService.averageScore := JsString "-10.00";
         GradeService.highestScore := JsString "0.00";
         GradeService.lowestScore := JsString "-10.00";
         GradeService.assignmentCount := 1;
         GradeService.assignmentTypes := [(Grade.homework, 1)] |}
  ∧ (toFixed2 <$> maximum (map percentage_spec (GradeService.findByClassroom 6 (db_grades db_bonus))))
    = Some "-10.00"
  ∧ GradeService.getClassroomGradeStatistics 7 db_bonus
    = {| GradeService.averageScore := JsNumber 0%Q;
         GradeService.highestScore := JsNumber 0%Q;
         GradeService.lowestScore := JsNumber 0%Q;
         GradeService.assignmentCount := 0;
         GradeService.assignmentTypes := [] |}.
Proof. repeat split; vm_compute; reflexivity. Qed.

(** * Further properties of the service layer *)

(** ** The enrollment arrays as sets *)

Lemma exec_change op db : whole op → change db (exec op db).
Proof.
  destruct op as [f s c|f s c|f c s|f c s|f c]; simpl; intros Hw.
  - unfold StudentService.enrollInClassroom.
    destruct (db_students db !! s) as [st|] eqn:Hs; [|constructor].
    destruct (db_classrooms db !! c) as [cl|] eqn:Hc; [|constructor].
    destruct (includes s (Classroom.students cl)) eqn:Hin; [constructor|].
    destruct (Classroom.isAtCapacity cl); [constructor|].
    cbn [snd]. rewrite (saveBoth_enroll _ _ _ _ _ _ Hs Hc).
    destruct (f 0), (f 1); try discriminate; [constructor|].
    eapply chg_enroll; [done..|]. by apply includes_false.
  - unfold StudentService.withdrawFromClassroom.
    destruct (db_students db !! s) as [st|] eqn:Hs; [|constructor].
    destruct (db_classrooms db !! c) as [cl|] eqn:Hc; [|constructor].
    destruct (includes s (Classroom.students cl)); cbn [negb]; [|constructor].
    cbn [snd]. rewrite (saveBoth_withdraw _ _ _ _ _ _ Hs Hc).
    destruct (f 0), (f 1); try discriminate; constructor.
  - unfold ClassroomService.addStudentToClassroom. tx_unfold.
    destruct (db_classrooms db !! c) as [cl|] eqn:Hc; simpl; [|constructor].
    destruct (Classroom.isAtCapacity cl); simpl; [constructor|].
    destruct (db_students db !! s) as [st|] eqn:Hs; simpl; [|constructor].
    destruct (includes s (Classroom.students cl)) eqn:Hin; simpl; [constructor|].
    destruct (f 0); simpl; [constructor|].
    destruct (f 1); simpl; [constructor|].
    destruct (f 2); simpl; [constructor|].
    eapply chg_enroll; [done..|]. by apply includes_false.
  - unfold ClassroomService.removeStudentFromClassroom. tx_unfold.
    destruct (db_classrooms db !! c) as [cl|] eqn:Hc; simpl; [|constructor].
    destruct (db_students db !! s) as [st|] eqn:Hs; simpl; [|constructor].
    destruct (f 0); simpl; [constructor|].
    destruct (f 1); simpl; [constructor|].
    destruct (f 2); simpl; [constructor|].
    apply chg_withdraw.
  - unfold ClassroomService.deleteClassroom. tx_unfold.
    destruct (db_classrooms db !! c) as [cl|] eqn:Hc; simpl; [|constructor].
    destruct (f 0); simpl; [constructor|].
    destruct (f 1); simpl; [constructor|].
    destruct (f 2); simpl; [constructor|].
    destruct (f 3); simpl; [constructor|].
    by apply chg_delete.
Qed.

Lemma NoDup_push x l : x ∉ l → NoDup l → NoDup (push x l).
Proof.
  intros Hx Hl. unfold push. apply NoDup_app. split; [done|].
  split; [|apply NoDup_singleton].
  intros y Hy ->%list_elem_of_singleton. done.
Qed.

Lemma NoDup_pull x l : NoDup l → NoDup (pull x l).
Proof. unfold pull. apply NoDup_filter. Qed.

Lemma change_duplicate_free db db' :
  change db db' → consistent db → duplicate_free db → duplicate_free db'.
Proof.
  intros Hchg Hcons [Hcl Hst].
  destruct Hchg as [|s c st cl Hs Hc Hnin|s c|c cl Hc]; [done|..]; split.
  - intros cid cl' Hlk. simpl in Hlk.
    apply lookup_alter_Some in Hlk as [(-> & cl0 & Hc0 & ->)|[_ Hlk]]; [|by eapply Hcl].
    simpl. rewrite Hc in Hc0. injection Hc0 as <-.
    apply NoDup_push; [done|by eapply Hcl].
  - intros sid st' Hlk. simpl in Hlk.
    apply lookup_alter_Some in Hlk as [(-> & st0 & Hs0 & ->)|[_ Hlk]]; [|by eapply Hst].
    simpl. rewrite Hs in Hs0. injection Hs0 as <-.
    apply NoDup_push; [|by eapply Hst].
    intros Hin. apply Hnin. by apply (Hcons sid st c cl).
  - intros cid cl' Hlk. simpl in Hlk.
    apply lookup_alter_Some in Hlk as [(-> & cl0 & Hc0 & ->)|[_ Hlk]]; [|by eapply Hcl].
    simpl. apply NoDup_pull. by eapply Hcl.
  - intros sid st' Hlk. simpl in Hlk.
    apply lookup_alter_Some in Hlk as [(-> & st0 & Hs0 & ->)|[_ Hlk]]; [|by eapply Hst].
    simpl. apply NoDup_pull. by eapply Hst.
  - intros cid cl' Hlk. simpl in Hlk.
    apply lookup_delete_Some in Hlk as [_ Hlk]. by eapply Hcl.
  - intros sid st' Hlk. simpl in Hlk. rewrite map_lookup_imap in Hlk.
    destruct (db_students db !! sid) as [st0|] eqn:Hs; [|done]. simpl in Hlk.
    injection Hlk as <-.
    destruct (includes sid (Classroom.students cl)); simpl;
      [apply NoDup_pull|]; by eapply Hst.
Qed.

Lemma run_duplicate_free ops db :
  Forall whole ops → consistent db → duplicate_free db →
  consistent (run ops db) ∧ duplicate_free (run ops db).
Proof.
  revert db. induction ops as [|op ops IH]; intros db Hw Hc Hd; [done|].
  apply Forall_cons in Hw as [Hop Hw].
  simpl. apply IH; [done|..].
  - by eapply effect_consistent; [apply exec_effect|].
  - by eapply change_duplicate_free; [apply exec_change| |].
Qed.

Lemma pull_push x l : x ∉ l → pull x (push x l) = l.
Proof.
  intros Hx. unfold pull, push. rewrite filter_app. simpl.
  rewrite filter_cons_False by (intros H; by apply H). simpl.
  rewrite app_nil_r. induction l as [|y l IH]; [done|].
  apply not_elem_of_cons in Hx as [Hne Hx].
  rewrite filter_cons_True by done. by rewrite IH.
Qed.

Lemma length_pull_NoDup x l : NoDup l → x ∈ l → S (length (pull x l)) = length l.
Proof.
  induction 1 as [|y l Hy Hl IH]; intros Hin; [by apply elem_of_nil in Hin|].
  unfold pull in *. destruct (decide (y = x)) as [->|Hne].
  - rewrite filter_cons_False by (intros H; by apply H). simpl. f_equal.
    clear IH Hin Hl. induction l as [|z l IH]; [done|].
    apply not_elem_of_cons in Hy as [Hne Hy].
    rewrite filter_cons_True by done. simpl. by rewrite IH.
  - rewrite filter_cons_True by done. simpl. f_equal. apply IH.
    apply elem_of_cons in Hin as [->|Hin]; done.
Qed.

(** X1. In a store whose two sides agree, a successful [enrollInClassroom]
    is undone by [withdrawFromClassroom]: the withdrawal, its saves
    succeeding, returns and leaves exactly the store from before the
    enrollment. The same holds for [addStudentToClassroom] followed by
    [removeStudentFromClassroom], every write succeeding. *)
Theorem enroll_withdraw_round_trip (s c : nat) (db : Store) (H : consistent db) :
  (∀ faults r db',
     StudentService.enrollInClassroom faults s c db = (Ok r, db') →
     ∃ r', StudentService.withdrawFromClassroom no_faults s c db' = (Ok r', db))
  ∧ (∀ r db', ClassroomService.addStudentToClassroom no_faults c s db = (Ok r, db') →
              ∃ r', ClassroomService.removeStudentFromClassroom no_faults c s db' = (Ok r', db)).
Proof.
  assert (∀ st cl,
            db_students db !! s = Some st → db_classrooms db !! c = Some cl →
            s ∉ Classroom.students cl →
            withdraw_effect s c (enroll_effect s c db) = db) as Hundo.
  { intros st cl Hs Hc Hnin.
    assert (c ∉ Student.classrooms st) as Hnin' by (intros Hin; by apply Hnin, (H s st c cl)).
    unfold withdraw_effect, enroll_effect, with_students, with_classrooms.
    destruct db as [us ss ts cs gs ats]. simpl in *. f_equal.
    - apply map_eq. intros j. rewrite lookup_alter.
      destruct (decide (s = j)) as [<-|Hne]; [|by rewrite lookup_alter_ne].
      rewrite lookup_alter_eq, Hs. simpl. destruct st as [u l]. simpl in *.
      unfold Student.set_classrooms. simpl. by rewrite pull_push.
    - apply map_eq. intros j. rewrite lookup_alter.
      destruct (decide (c = j)) as [<-|Hne]; [|by rewrite lookup_alter_ne].
      rewrite lookup_alter_eq, Hc. simpl. destruct cl as [t l m]. simpl in *.
      unfold Classroom.set_students. simpl. by rewrite pull_push. }
  split.
  - intros faults r db'. unfold StudentService.enrollInClassroom.
    destruct (db_students db !! s) as [st|] eqn:Hs; [|done].
    destruct (db_classrooms db !! c) as [cl|] eqn:Hc; [|done].
    destruct (includes s (Classroom.students cl)) eqn:Hin; [done|].
    destruct (Classroom.isAtCapacity cl); [done|].
    rewrite (saveBoth_enroll _ _ _ _ _ _ Hs Hc).
    destruct (faults 0), (faults 1); [done..|]. cbn [orb].
    intros [= <- <-]. apply includes_false in Hin.
    unfold StudentService.withdrawFromClassroom.
    set (db1 := enroll_effect s c db).
    assert (db_students db1 !! s
            = Some (Student.set_classrooms (push c (Student.classrooms st)) st)) as Hs1.
    { unfold db1. simpl. by rewrite lookup_alter_eq, Hs. }
    assert (db_classrooms db1 !! c
            = Some (Classroom.set_students (push s (Classroom.students cl)) cl)) as Hc1.
    { unfold db1. simpl. by rewrite lookup_alter_eq, Hc. }
    rewrite Hs1, Hc1. simpl.
    assert (includes s (push s (Classroom.students cl)) = true) as ->.
    { apply includes_true, elem_of_push. by right. }
    simpl. eexists. f_equal. rewrite saveBoth_whole.
    transitivity (withdraw_effect s c db1); [|by apply (Hundo st cl)].
    apply (withdraw_effect_of_insert s c _ _ db1 Hs1 Hc1).
  - intros r db'. unfold ClassroomService.addStudentToClassroom. tx_unfold.
    destruct (db_classrooms db !! c) as [cl|] eqn:Hc; simpl; [|done].
    destruct (Classroom.isAtCapacity cl); simpl; [done|].
    destruct (db_students db !! s) as [st|] eqn:Hs; simpl; [|done].
    destruct (includes s (Classroom.students cl)) eqn:Hin; simpl; [done|].
    intros [= <- <-]. apply includes_false in Hin.
    unfold ClassroomService.removeStudentFromClassroom. tx_unfold.
    rewrite lookup_alter_eq, Hc. simpl. rewrite lookup_alter_eq, Hs. simpl.
    eexists. f_equal.
    by apply (Hundo st cl).
Qed.

Lemma consistent_db_open : consistent db_open.
Proof.
  intros sid st cid cl Hs Hc. simpl in Hs, Hc.
  apply lookup_singleton_Some in Hc as [<- <-]. simpl.
  apply lookup_insert_Some in Hs as [[<- <-]|[Hne Hs]]; simpl.
  - split; intros Hin; inversion Hin.
  - apply lookup_singleton_Some in Hs as [<- <-]. simpl.
    split; intros Hin; inversion Hin.
Qed.

Lemma enroll_withdraw_round_trip_witness :
  consistent db_open
  ∧ StudentService.enrollInClassroom no_faults 1 1 db_open
    = (Ok (Student.mk 11 [1], Classroom.mk 7 [1] (Some 1%Z)), db_full)
  ∧ ∃ r', StudentService.withdrawFromClassroom no_faults 1 1 db_full = (Ok r', db_open).
Proof.
  split; [exact consistent_db_open|].
  split; [vm_compute; reflexivity|].
  apply (proj1 (enroll_withdraw_round_trip 1 1 db_open consistent_db_open)
           no_faults (Student.mk 11 [1], Classroom.mk 7 [1] (Some 1%Z)) db_full).
  vm_compute. reflexivity.
Defined.

(** X2. In a store whose two sides agree and whose enrollment arrays list
    no id twice, a sequence of enrollments, withdrawals and classroom
    deletions (through either service, refused calls and failing
    transactions included) in which no save of the student service is
    rejected alone makes no array list an id twice: [classroom.students] and
    [student.classrooms] stay sets. The condition is needed: after an
    [enrollInClassroom] whose [classroom.save()] is rejected, the same
    enrollment is accepted and the student lists the classroom twice. *)
Theorem enrollment_arrays_stay_sets (db : Store) (ops : list Op)
    (Hc : consistent db) (Hd : duplicate_free db) (Hw : Forall whole ops) :
  duplicate_free (run ops db)
  ∧ (db_students (run [Enroll classroom_save_fails 1 1; Enroll no_faults 1 1] db_open) !! 1
     = Some (Student.mk 11 [1; 1])
     ∧ ¬ duplicate_free (run [Enroll classroom_save_fails 1 1; Enroll no_faults 1 1] db_open)).
Proof.
  split; [by apply run_duplicate_free|].
  assert (db_students (run [Enroll classroom_save_fails 1 1; Enroll no_faults 1 1] db_open)
            !! 1 = Some (Student.mk 11 [1; 1])) as Hs by (vm_compute; reflexivity).
  split; [exact Hs|].
  intros [_ Hst]. specialize (Hst 1 _ Hs). simpl in Hst.
  apply NoDup_cons in Hst as [Hnin _]. apply Hnin. by apply list_elem_of_singleton.
Qed.

Lemma duplicate_free_db_open : duplicate_free db_open.
Proof.
  split.
  - intros cid cl Hc. simpl in Hc. apply lookup_singleton_Some in Hc as [<- <-].
    simpl. constructor.
  - intros sid st Hs. simpl in Hs.
    apply lookup_insert_Some in Hs as [[<- <-]|[Hne Hs]]; simpl; [constructor|].
    apply lookup_singleton_Some in Hs as [<- <-]. simpl. constructor.
Qed.

Lemma enrollment_arrays_stay_sets_witness :
  consistent db_open ∧ duplicate_free db_open
  ∧ Forall whole
      [Enroll no_faults 1 1; AddStudent third_write_fails 1 2; Enroll no_faults 2 1;
       Withdraw no_faults 1 1; AddStudent no_faults 1 2; Enroll no_faults 1 1]
  ∧ duplicate_free
      (run [Enroll no_faults 1 1; AddStudent third_write_fails 1 2; Enroll no_faults 2 1;
            Withdraw no_faults 1 1; AddStudent no_faults 1 2; Enroll no_faults 1 1] db_open)
  ∧ (Classroom.students
       <$> db_classrooms
             (run [Enroll no_faults 1 1; AddStudent third_write_fails 1 2;
                   Enroll no_faults 2 1; Withdraw no_faults 1 1;
                   AddStudent no_faults 1 2; Enroll no_faults 1 1] db_open) !! 1)
    = Some [2].
Proof.
  assert (Forall whole
            [Enroll no_faults 1 1; AddStudent third_write_fails 1 2; Enroll no_faults 2 1;
             Withdraw no_faults 1 1; AddStudent no_faults 1 2; Enroll no_faults 1 1]) as Hw
    by (repeat constructor).
  split; [exact consistent_db_open|].
  split; [exact duplicate_free_db_open|].
  split; [exact Hw|].
  split; [|vm_compute; reflexivity].
  exact (proj1 (enrollment_arrays_stay_sets db_open _ consistent_db_open
                  duplicate_free_db_open Hw)).
Defined.

(** X3. The virtual [enrollmentCount] follows the enrollments: a
    successful [enrollInClassroom] stores a classroom whose count is one
    more than before, and, when the classroom lists no student twice, a
    successful [withdrawFromClassroom] stores one whose count is one less. *)
Theorem enrollmentCount_steps (s c : nat) (db : Store) (cl : Classroom.t)
    (Hcl : db_classrooms db !! c = Some cl) (Hd : NoDup (Classroom.students cl)) :
  (∀ faults st' cl' db',
     StudentService.enrollInClassroom faults s c db = (Ok (st', cl'), db') →
     db_classrooms db' !! c = Some cl'
     ∧ enrollmentCount cl' = S (enrollmentCount cl))
  ∧ (∀ faults st' cl' db',
       StudentService.withdrawFromClassroom faults s c db = (Ok (st', cl'), db') →
       db_classrooms db' !! c = Some cl'
       ∧ S (enrollmentCount cl') = enrollmentCount cl).
Proof.
  split; intros faults st' cl' db'.
  - unfold StudentService.enrollInClassroom. rewrite Hcl.
    destruct (db_students db !! s) as [st|]; [|done].
    destruct (includes s (Classroom.students cl)); [done|].
    destruct (Classroom.isAtCapacity cl); [done|].
    unfold StudentService.saveBoth.
    destruct (faults 0), (faults 1); [done..|]. cbn [orb].
    intros [= <- <- <-]. simpl. rewrite lookup_insert_eq. split; [done|].
    unfold enrollmentCount. simpl. apply length_push.
  - unfold StudentService.withdrawFromClassroom. rewrite Hcl.
    destruct (db_students db !! s) as [st|]; [|done].
    destruct (includes s (Classroom.students cl)) eqn:Hin; [|done].
    unfold StudentService.saveBoth.
    destruct (faults 0), (faults 1); [done..|]. cbn [orb negb].
    simpl. intros [= <- <- <-]. simpl. rewrite lookup_insert_eq. split; [done|].
    unfold enrollmentCount. simpl. apply length_pull_NoDup; [done|].
    by apply includes_true.
Qed.

Lemma enrollmentCount_steps_witness :
  enrollmentCount (Classroom.mk 7 [1] (Some 1%Z)) = 1
  ∧ (enrollmentCount <$> db_classrooms (run [Withdraw no_faults 1 1] db_full) !! 1) = Some 0
  ∧ ∃ st' cl' db',
      StudentService.withdrawFromClassroom no_faults 1 1 db_full = (Ok (st', cl'), db')
      ∧ db_classrooms db' !! 1 = Some cl'
      ∧ S (enrollmentCount cl') = enrollmentCount (Classroom.mk 7 [1] (Some 1%Z)).
Proof.
  split; [reflexivity|]. split; [vm_compute; reflexivity|].
  exists (Student.mk 11 []), (Classroom.mk 7 [] (Some 1%Z)), db_open.
  split; [vm_compute; reflexivity|].
  apply (proj2 (enrollmentCount_steps 1 1 db_full (Classroom.mk 7 [1] (Some 1%Z))
                  ltac:(vm_compute; reflexivity) ltac:(apply NoDup_singleton))
           no_faults (Student.mk 11 []) (Classroom.mk 7 [] (Some 1%Z)) db_open).
  vm_compute. reflexivity.
Defined.

(** ** Creating classrooms; who owns what *)

Ltac tx_unfold' :=
  unfold ClassroomServiceExt.createClassroom, ClassroomServiceExt.createDoc; tx_unfold.

Lemma createClassroom_cases faults _id classroomData db :
  (∃ e, ClassroomServiceExt.createClassroom faults _id classroomData db = (Err e, db))
  ∨ (db_classrooms db !! _id = None
     ∧ faults 0 = false ∧ faults 1 = false ∧ faults 2 = false
     ∧ ClassroomServiceExt.createClassroom faults _id classroomData db
       = (Ok classroomData, created _id classroomData db)).
Proof.
  tx_unfold'.
  destruct (faults 0); simpl; [left; by eexists|].
  destruct (db_classrooms db !! _id) eqn:Hid; simpl; [left; by eexists|].
  destruct (faults 1); simpl; [left; by eexists|].
  destruct (faults 2); simpl; [left; by eexists|].
  right. done.
Qed.

(** X4. [createClassroom] is all or nothing. If the creation of the
    document, the update of the teacher or the commit fails, or if the
    [_id] is taken, the call throws and the store is as before. Otherwise
    the classroom is stored under its [_id] as given, that [_id] is
    appended to the classroom list of the teacher named in the data if that
    teacher exists (nothing checks that it does), and nothing else
    changes. *)
Theorem createClassroom_all_or_nothing (faults : Faults) (_id : nat)
    (classroomData : Classroom.t) (db : Store) :
  if faults 0 || faults 1 || faults 2 || bool_decide (is_Some (db_classrooms db !! _id))
  then ∃ e, ClassroomServiceExt.createClassroom faults _id classroomData db = (Err e, db)
  else ∃ db',
      ClassroomServiceExt.createClassroom faults _id classroomData db = (Ok classroomData, db')
      ∧ db_classrooms db' = <[_id := classroomData]> (db_classrooms db)
      ∧ (∀ tid, db_teachers db' !! tid
                = (λ t, if decide (tid = Classroom.teacherId classroomData)
                        then Teacher.set_classrooms (Teacher.classrooms t ++ [_id]) t
                        else t) <$> db_teachers db !! tid)
      ∧ db_students db' = db_students db
      ∧ db_users db' = db_users db
      ∧ db_grades db' = db_grades db
      ∧ db_attendances db' = db_attendances db.
Proof.
  destruct (createClassroom_cases faults _id classroomData db)
    as [[e He]|(Hid & H0 & H1 & H2 & Hrun)].
  - destruct (faults 0 || faults 1 || faults 2
              || bool_decide (is_Some (db_classrooms db !! _id))) eqn:Hf; [by exists e|].
    exfalso. apply orb_false_iff in Hf as [Hf Hid]. apply orb_false_iff in Hf as [Hf H2].
    apply orb_false_iff in Hf as [H0 H1]. apply bool_decide_eq_false in Hid.
    revert He. tx_unfold'. rewrite H0. simpl.
    destruct (db_classrooms db !! _id) eqn:Hl; [by destruct Hid|]. simpl.
    rewrite H1. simpl. by rewrite H2.
  - rewrite H0, H1, H2, Hid. simpl. cbn [orb].
    eexists. split; [exact Hrun|]. split; [done|]. split; [|done].
    intros tid. simpl. rewrite lookup_alter.
    destruct (decide (Classroom.teacherId classroomData = tid)) as [<-|Hne].
    + destruct (db_teachers db !! _); simpl; [|done]. by rewrite decide_True.
    + destruct (db_teachers db !! tid); simpl; [|done]. rewrite decide_False; [done|congruence].
Qed.

Lemma pull_fresh x l : x ∉ l → pull x l = l.
Proof.
  intros Hx. unfold pull. induction l as [|y l IH]; [done|].
  apply not_elem_of_cons in Hx as [Hne Hx].
  rewrite filter_cons_True by done. by rewrite IH.
Qed.

(** X5. Creating a classroom and deleting it again, every write
    succeeding, gives back the store from before, provided the [_id] is
    new: not in the collection and not listed by any teacher or student. *)
Theorem createClassroom_deleteClassroom_round_trip (_id : nat)
    (classroomData : Classroom.t) (db : Store)
    (Hnew : db_classrooms db !! _id = None)
    (Hteachers : ∀ tid t, db_teachers db !! tid = Some t → _id ∉ Teacher.classrooms t)
    (Hstudents : ∀ sid st, db_students db !! sid = Some st → _id ∉ Student.classrooms st) :
  ∃ db1,
    ClassroomServiceExt.createClassroom no_faults _id classroomData db
      = (Ok classroomData, db1)
    ∧ db_classrooms db1 !! _id = Some classroomData
    ∧ ClassroomService.deleteClassroom no_faults _id db1 = (Ok true, db).
Proof.
  exists (created _id classroomData db).
  split; [tx_unfold'; by rewrite Hnew|].
  split; [simpl; apply lookup_insert_eq|].
  unfold ClassroomService.deleteClassroom. tx_unfold.
  rewrite lookup_insert_eq. simpl. f_equal.
  destruct db as [us ss ts cs gs ats]. unfold with_classrooms, with_students. simpl in *.
  f_equal.
  - apply map_eq. intros sid. rewrite map_lookup_imap.
    destruct (ss !! sid) as [st|] eqn:Hs; [|done]. simpl.
    destruct (includes sid (Classroom.students classroomData)); [|done].
    rewrite pull_fresh by (by eapply Hstudents). by destruct st.
  - apply map_eq. intros tid. rewrite lookup_alter.
    destruct (decide (Classroom.teacherId classroomData = tid)) as [<-|Hne]; [|by rewrite lookup_alter_ne].
    rewrite lookup_alter_eq.
    destruct (ts !! Classroom.teacherId classroomData) as [t|] eqn:Ht; [|done]. simpl.
    rewrite pull_push by (by eapply Hteachers). by destruct t.
  - rewrite delete_insert_eq. by apply delete_id.
Qed.

Lemma createClassroom_deleteClassroom_round_trip_witness :
  db_classrooms db_full !! 2 = None
  ∧ ∃ db1,
      ClassroomServiceExt.createClassroom no_faults 2 (Classroom.mk 7 [2] None) db_full
        = (Ok (Classroom.mk 7 [2] None), db1)
      ∧ db_classrooms db1 !! 2 = Some (Classroom.mk 7 [2] None)
      ∧ ClassroomService.deleteClassroom no_faults 2 db1 = (Ok true, db_full).
Proof.
  split; [vm_compute; reflexivity|].
  apply createClassroom_deleteClassroom_round_trip.
  - vm_compute. reflexivity.
  - intros tid t Ht. simpl in Ht. apply lookup_singleton_Some in Ht as [<- <-].
    simpl. intros Hin%list_elem_of_singleton. lia.
  - intros sid st Hs. simpl in Hs.
    apply lookup_insert_Some in Hs as [[<- <-]|[_ Hs]]; simpl.
    + intros Hin%list_elem_of_singleton. lia.
    + apply lookup_singleton_Some in Hs as [<- <-]. simpl. intros Hin. inversion Hin.
Defined.

Lemma effect_owned db db' : effect db db' → owned db → owned db'.
Proof.
  intros Heff [H1 H2].
  destruct Heff as [|s c st cl Hs Hc Hcap|s c|c cl Hc]; [done|..]; split.
  - intros tid t cid Ht Hin. simpl in Ht. destruct (H1 tid t cid Ht Hin) as (cl0 & Hcl0 & Hown).
    simpl. rewrite lookup_alter.
    destruct (decide (c = cid)) as [->|Hne]; rewrite Hcl0; simpl; eauto.
  - intros cid cl' t Hcl Ht. simpl in Hcl, Ht.
    apply lookup_alter_Some in Hcl as [(-> & cl0 & Hcl0 & ->)|[_ Hcl]];
      simpl in Ht; by eapply H2.
  - intros tid t cid Ht Hin. simpl in Ht. destruct (H1 tid t cid Ht Hin) as (cl0 & Hcl0 & Hown).
    simpl. rewrite lookup_alter.
    destruct (decide (c = cid)) as [->|Hne]; rewrite Hcl0; simpl; eauto.
  - intros cid cl' t Hcl Ht. simpl in Hcl, Ht.
    apply lookup_alter_Some in Hcl as [(-> & cl0 & Hcl0 & ->)|[_ Hcl]];
      simpl in Ht; by eapply H2.
  - intros tid t cid Ht Hin. rewrite delete_effect_teachers in Ht.
    destruct (db_teachers db !! tid) as [t0|] eqn:Ht0; [|done]. simpl in Ht.
    injection Ht as <-.
    assert (cid ∈ Teacher.classrooms t0 ∧ (tid = Classroom.teacherId cl → cid ≠ c))
      as [Hin0 Hnc].
    { case_decide; simpl in Hin; [apply elem_of_pull in Hin as [? ?]|]; by split. }
    destruct (H1 tid t0 cid Ht0 Hin0) as (cl0 & Hcl0 & Hown).
    exists cl0. split; [|done]. simpl. rewrite lookup_delete_ne; [done|].
    intros <-. rewrite Hc in Hcl0. injection Hcl0 as <-. by apply Hnc.
  - intros cid cl' t Hcl Ht. simpl in Hcl.
    apply lookup_delete_Some in Hcl as [Hne Hcl].
    rewrite delete_effect_teachers in Ht.
    destruct (db_teachers db !! Classroom.teacherId cl') as [t0|] eqn:Ht0; [|done].
    simpl in Ht. injection Ht as <-.
    pose proof (H2 cid cl' t0 Hcl Ht0) as Hin.
    case_decide; simpl; [apply elem_of_pull|]; by split || done.
Qed.

Lemma half_owned db db' : half_effect db db' → owned db → owned db'.
Proof.
  intros Heff [H1 H2].
  destruct Heff as [s c st cl Hs Hc Hcap|s c|s c|s c]; split; try done.
  - intros tid t cid Ht Hin. simpl in Ht. destruct (H1 tid t cid Ht Hin) as (cl0 & Hcl0 & Hown).
    simpl. rewrite lookup_alter.
    destruct (decide (c = cid)) as [->|Hne]; rewrite Hcl0; simpl; eauto.
  - intros cid cl' t Hcl Ht. simpl in Hcl, Ht.
    apply lookup_alter_Some in Hcl as [(-> & cl0 & Hcl0 & ->)|[_ Hcl]];
      simpl in Ht; by eapply H2.
  - intros tid t cid Ht Hin. simpl in Ht. destruct (H1 tid t cid Ht Hin) as (cl0 & Hcl0 & Hown).
    simpl. rewrite lookup_alter.
    destruct (decide (c = cid)) as [->|Hne]; rewrite Hcl0; simpl; eauto.
  - intros cid cl' t Hcl Ht. simpl in Hcl, Ht.
    apply lookup_alter_Some in Hcl as [(-> & cl0 & Hcl0 & ->)|[_ Hcl]];
      simpl in Ht; by eapply H2.
Qed.

Lemma createClassroom_owned faults _id classroomData db :
  owned db → owned (ClassroomServiceExt.createClassroom faults _id classroomData db).2.
Proof.
  intros [H1 H2].
  destruct (createClassroom_cases faults _id classroomData db)
    as [[e ->]|(Hid & _ & _ & _ & ->)]; [done|].
  assert (∀ tid t, db_teachers (created _id classroomData db) !! tid = Some t →
            ∃ t0, db_teachers db !! tid = Some t0
                  ∧ (∀ c, c ∈ Teacher.classrooms t ↔
                          c ∈ Teacher.classrooms t0
                          ∨ (c = _id ∧ tid = Classroom.teacherId classroomData))) as Hts.
  { intros tid t Ht. simpl in Ht.
    apply lookup_alter_Some in Ht as [(<- & t0 & Ht0 & ->)|[Hne Ht]].
    - exists t0. split; [done|]. intros c. simpl. rewrite elem_of_push.
      split; [intros [?|?]; [by left|by right]|].
      intros [?|[? _]]; [by left|by right].
    - exists t. split; [done|]. intros c.
      split; [by left|]. intros [?|[_ ?]]; [done|congruence]. }
  split.
  - intros tid t cid Ht Hin. destruct (Hts tid t Ht) as (t0 & Ht0 & Hiff).
    destruct (proj1 (Hiff cid) Hin) as [Hin0|[Hc Ht']].
    + destruct (H1 tid t0 cid Ht0 Hin0) as (cl & Hcl & Hown). exists cl. split; [|done].
      simpl. rewrite lookup_insert_ne; [done|]. intros <-. congruence.
    + exists classroomData. split; [|done]. simpl. rewrite Hc. apply lookup_insert_eq.
  - intros cid cl t Hcl Ht. destruct (Hts _ t Ht) as (t0 & Ht0 & Hiff).
    apply Hiff. simpl in Hcl.
    apply lookup_insert_Some in Hcl as [[<- <-]|[Hne Hcl]]; [by right|].
    left. by eapply H2.
Qed.

Lemma deleteTeacher_cases tid db :
  (TeacherService.deleteTeacher tid db).2 = db
  ∨ ∃ t db1,
      db_teachers db !! tid = Some t
      ∧ TeacherService.countClassrooms tid (db_classrooms db) = 0
      ∧ db_teachers db1 = db_teachers db ∧ db_classrooms db1 = db_classrooms db
      ∧ db_students db1 = db_students db
      ∧ (TeacherService.deleteTeacher tid db).2 = with_teachers (delete tid) db1.
Proof.
  unfold TeacherService.deleteTeacher.
  destruct (db_teachers db !! tid) as [t|] eqn:Ht; [|by left].
  destruct (TeacherService.countClassrooms tid (db_classrooms db)) eqn:Hcount;
    simpl; [|by left].
  right. eexists t, _. split; [done|]. split; [done|].
  split; [|split; [|split; [|reflexivity]]];
    by destruct (db_users db !! Teacher.userId t).
Qed.

Lemma deleteTeacher_owned tid db : owned db → owned (TeacherService.deleteTeacher tid db).2.
Proof.
  intros [H1 H2].
  destruct (deleteTeacher_cases tid db)
    as [->|(t & db1 & Ht & _ & Hts & Hcs & _ & ->)]; [done|].
  split.
  - intros tid' t' cid Ht' Hin. simpl in *. rewrite Hts in Ht'. rewrite Hcs.
    apply lookup_delete_Some in Ht' as [_ Ht']. by eapply H1.
  - intros cid cl t' Hcl Ht'. simpl in *. rewrite Hts in Ht'. rewrite Hcs in Hcl.
    apply lookup_delete_Some in Ht' as [_ Ht']. by eapply H2.
Qed.

(** X6. Ownership is kept. If every teacher lists only stored classrooms
    that name it as their teacher, and every classroom is listed by its
    teacher when that teacher is stored, then this holds again after any
    sequence of classroom creations, classroom deletions, teacher deletions
    and enrollment calls, returning or throwing. *)
Theorem ownership_invariant (db : Store) (ops : list AdminOp) (H : owned db) :
  owned (admin_run ops db).
Proof.
  revert db H. induction ops as [|op ops IH]; intros db H; [done|].
  simpl. apply IH. destruct op as [o|f i d|t]; simpl.
  - destruct (proj2 (exec_effect_or_half o db)) as [He|He];
      [by eapply effect_owned|by eapply half_owned].
  - by apply createClassroom_owned.
  - by apply deleteTeacher_owned.
Qed.

Lemma owned_db_full : owned db_full.
Proof.
  split.
  - intros tid t cid Ht Hin. simpl in Ht. apply lookup_singleton_Some in Ht as [<- <-].
    simpl in Hin. apply list_elem_of_singleton in Hin as ->.
    eexists. split; [vm_compute; reflexivity|done].
  - intros cid cl t Hcl Ht. simpl in Hcl. apply lookup_singleton_Some in Hcl as [<- <-].
    simpl in Ht. apply lookup_singleton_Some in Ht as [_ <-]. simpl.
    by apply list_elem_of_singleton.
Qed.

Lemma ownership_invariant_witness :
  owned db_full
  ∧ owned (admin_run
             [CreateClassroom no_faults 2 (Classroom.mk 7 [] None);
              Enrollment (Enroll student_save_fails 2 2);
              DeleteTeacher 7;
              Enrollment (DeleteClassroom no_faults 1);
              CreateClassroom third_write_fails 3 (Classroom.mk 7 [] None);
              Enrollment (DeleteClassroom no_faults 2);
              DeleteTeacher 7] db_full)
  ∧ db_teachers
      (admin_run
         [CreateClassroom no_faults 2 (Classroom.mk 7 [] None);
          Enrollment (Enroll student_save_fails 2 2);
          DeleteTeacher 7;
          Enrollment (DeleteClassroom no_faults 1);
          CreateClassroom third_write_fails 3 (Classroom.mk 7 [] None);
          Enrollment (DeleteClassroom no_faults 2);
          DeleteTeacher 7] db_full) = ∅.
Proof.
  split; [exact owned_db_full|].
  split; [|vm_compute; reflexivity].
  exact (ownership_invariant db_full _ owned_db_full).
Defined.

Lemma countClassrooms_zero tid (m : gmap nat Classroom.t) :
  TeacherService.countClassrooms tid m = 0 ↔
  ∀ cid cl, m !! cid = Some cl → Classroom.teacherId cl ≠ tid.
Proof.
  unfold TeacherService.countClassrooms. rewrite map_size_empty_iff, map_empty.
  split.
  - intros Hnone cid cl Hcl Hown. specialize (Hnone cid).
    apply map_lookup_filter_None in Hnone as [Hnone|Hnone]; [congruence|].
    by apply (Hnone cl).
  - intros Hall cid. apply map_lookup_filter_None.
    destruct (m !! cid) as [cl|] eqn:Hcl; [right|by left].
    intros cl' [= <-]. simpl. by apply (Hall cid).
Qed.

(** X7. Under ownership, the guard of [deleteTeacher], which counts the
    classrooms naming the teacher, agrees with the teacher's own list: the
    call is refused with 'Cannot delete teacher with N active classrooms'
    exactly when [teacher.classrooms] is not empty, and otherwise returns
    true and removes the teacher. *)
Theorem deleteTeacher_guard_is_own_list (teacherId : nat) (db : Store) (t : Teacher.t)
    (H : owned db) (Ht : db_teachers db !! teacherId = Some t) :
  ((TeacherService.deleteTeacher teacherId db).1 = Err TeacherHasClassrooms
   ↔ Teacher.classrooms t ≠ [])
  ∧ ((TeacherService.deleteTeacher teacherId db).1 = Ok true
     ↔ Teacher.classrooms t = [])
  ∧ (Teacher.classrooms t = [] →
     db_teachers (TeacherService.deleteTeacher teacherId db).2 !! teacherId = None).
Proof.
  destruct H as [H1 H2].
  assert (TeacherService.countClassrooms teacherId (db_classrooms db) = 0
          ↔ Teacher.classrooms t = []) as Hcount.
  { rewrite countClassrooms_zero. split.
    - intros Hnone. destruct (Teacher.classrooms t) as [|c l] eqn:Hl; [done|].
      destruct (H1 teacherId t c Ht) as (cl & Hcl & Hown); [rewrite Hl; by left|].
      by destruct (Hnone c cl Hcl).
    - intros Hnil cid cl Hcl Hown. subst teacherId.
      pose proof (H2 cid cl t Hcl Ht) as Hin. rewrite Hnil in Hin. inversion Hin. }
  unfold TeacherService.deleteTeacher. rewrite Ht.
  destruct (TeacherService.countClassrooms teacherId (db_classrooms db)) eqn:Hc; simpl.
  - assert (Teacher.classrooms t = []) as Hnil by (by apply Hcount).
    split; [split; [done|by intros ?]|]. split; [done|].
    intros _. apply lookup_delete_eq.
  - assert (Teacher.classrooms t ≠ []) as Hne by (intros Hnil; by apply Hcount in Hnil).
    split; [done|]. split; [split; [done|by intros ?]|]. by intros ?.
Qed.

Lemma deleteTeacher_guard_is_own_list_witness :
  owned db_full
  ∧ ((TeacherService.deleteTeacher 7 db_full).1 = Err TeacherHasClassrooms
     ↔ Teacher.classrooms (Teacher.mk 17 [1]) ≠ [])
  ∧ (TeacherService.deleteTeacher 7 db_full).1 = Err TeacherHasClassrooms.
Proof.
  split; [exact owned_db_full|].
  split; [|vm_compute; reflexivity].
  apply (deleteTeacher_guard_is_own_list 7 db_full (Teacher.mk 17 [1]) owned_db_full).
  vm_compute. reflexivity.
Defined.

(** X8. Under ownership, the classrooms [getTeacherClassrooms] finds by
    their [teacherId] are exactly those the teacher document lists. *)
Theorem getTeacherClassrooms_is_own_list (teacherId : nat) (db : Store) (t : Teacher.t)
    (H : owned db) (Ht : db_teachers db !! teacherId = Some t) :
  ∀ cid, is_Some (ClassroomServiceExt.getTeacherClassrooms teacherId db !! cid)
         ↔ cid ∈ Teacher.classrooms t.
Proof.
  destruct H as [H1 H2]. intros cid.
  unfold ClassroomServiceExt.getTeacherClassrooms. split.
  - intros [cl [Hcl Hown]%map_lookup_filter_Some]. simpl in Hown. subst teacherId.
    by eapply H2.
  - intros Hin. destruct (H1 teacherId t cid Ht Hin) as (cl & Hcl & Hown).
    exists cl. by apply map_lookup_filter_Some.
Qed.

Lemma getTeacherClassrooms_is_own_list_witness :
  owned db_full
  ∧ ClassroomServiceExt.getTeacherClassrooms 7 db_full
    = {[ 1 := Classroom.mk 7 [1] (Some 1%Z) ]}
  ∧ ∀ cid, is_Some (ClassroomServiceExt.getTeacherClassrooms 7 db_full !! cid)
           ↔ cid ∈ Teacher.classrooms (Teacher.mk 17 [1]).
Proof.
  split; [exact owned_db_full|].
  split; [vm_compute; reflexivity|].
  apply (getTeacherClassrooms_is_own_list 7 db_full (Teacher.mk 17 [1]) owned_db_full).
  vm_compute. reflexivity.
Defined.

(** X9. In a store whose two sides agree, the two ways of listing a
    student's classrooms find the same documents: the student service asks
    for the classrooms whose [students] holds the student, the classroom
    service for the classrooms whose [_id] is in [student.classrooms]. *)
Theorem getStudentClassrooms_agree (studentId : nat) (db : Store) (H : consistent db) :
  StudentServiceExt.getStudentClassrooms studentId db
  = ClassroomServiceExt.getStudentClassrooms studentId db.
Proof.
  unfold StudentServiceExt.getStudentClassrooms, ClassroomServiceExt.getStudentClassrooms.
  destruct (db_students db !! studentId) as [st|] eqn:Hs; [|done]. f_equal.
  apply map_eq. intros cid. apply option_eq. intros cl.
  rewrite !map_lookup_filter_Some. simpl.
  split; intros [Hcl Hin]; (split; [done|]); by apply (H studentId st cid cl).
Qed.

Lemma getStudentClassrooms_agree_witness :
  consistent db_full
  ∧ StudentServiceExt.getStudentClassrooms 1 db_full
    = Ok {[ 1 := Classroom.mk 7 [1] (Some 1%Z) ]}
  ∧ StudentServiceExt.getStudentClassrooms 1 db_full
    = ClassroomServiceExt.getStudentClassrooms 1 db_full.
Proof.
  split; [exact consistent_db_full|].
  split; [vm_compute; reflexivity|].
  exact (getStudentClassrooms_agree 1 db_full consistent_db_full).
Defined.

(** ** Users and their profiles *)

Lemma findFirst_None {A} (P : A → Prop) `{∀ a, Decision (P a)} (m : gmap nat A) :
  findFirst P m = None ↔ ∀ k a, m !! k = Some a → ¬ P a.
Proof.
  unfold findFirst. rewrite head_None, map_to_list_empty_iff, map_empty. split.
  - intros Hnone k a Ha HP. specialize (Hnone k).
    apply map_lookup_filter_None in Hnone as [Hnone|Hnone]; [congruence|].
    by apply (Hnone a).
  - intros Hall k. apply map_lookup_filter_None.
    destruct (m !! k) as [a|] eqn:Ha; [right|by left].
    intros a' [= <-]. by apply (Hall k).
Qed.

Lemma findFirst_Some {A} (P : A → Prop) `{∀ a, Decision (P a)} (m : gmap nat A) k a :
  findFirst P m = Some (k, a) → m !! k = Some a ∧ P a.
Proof.
  unfold findFirst. intros Hh. apply head_Some_elem_of in Hh.
  apply elem_of_map_to_list in Hh. by apply map_lookup_filter_Some in Hh.
Qed.

Lemma deleteFirst_lookup {A} (P : A → Prop) `{∀ a, Decision (P a)} (m : gmap nat A) k a :
  deleteFirst P m !! k = Some a → m !! k = Some a.
Proof.
  unfold deleteFirst. destruct (findFirst P m) as [[k0 a0]|]; [|done].
  simpl. by intros [_ ?]%lookup_delete_Some.
Qed.

Lemma unique_profiles_shrink db db' :
  (∀ k a, db_students db' !! k = Some a → db_students db !! k = Some a) →
  (∀ k a, db_teachers db' !! k = Some a → db_teachers db !! k = Some a) →
  unique_profiles db → unique_profiles db'.
Proof.
  intros Hs Ht [H1 H2]. split.
  - intros i j s1 s2 Hi Hj. apply (H1 i j s1 s2); by apply Hs.
  - intros i j t1 t2 Hi Hj. apply (H2 i j t1 t2); by apply Ht.
Qed.

Lemma createStudent_cases faults _id studentData db :
  (db_students (StudentServiceExt.createStudent faults _id studentData db).2 = db_students db
   ∧ db_teachers (StudentServiceExt.createStudent faults _id studentData db).2 = db_teachers db)
  ∨ (db_students db !! _id = None
     ∧ (∀ k a, db_students db !! k = Some a →
               Student.userId a ≠ Student.userId studentData)
     ∧ db_students (StudentServiceExt.createStudent faults _id studentData db).2
       = <[_id := studentData]> (db_students db)
     ∧ db_teachers (StudentServiceExt.createStudent faults _id studentData db).2
       = db_teachers db).
Proof.
  unfold StudentServiceExt.createStudent.
  destruct (db_users db !! Student.userId studentData) as [u|]; [|by left].
  destruct (findFirst _ (db_students db)) as [kv|] eqn:Hfind; [by left|].
  pose proof (proj1 (findFirst_None _ _) Hfind) as Hnone.
  destruct (decide (User.role u = User.student)); simpl.
  - destruct (faults 1); [by left|].
    destruct (db_students db !! _id) eqn:Hid; [by left|]. right. simpl. eauto.
  - destruct (faults 0); [by left|]. destruct (faults 1); [by left|]. simpl.
    destruct (db_students db !! _id) eqn:Hid; [by left|]. right. simpl. eauto.
Qed.

Lemma createTeacher_cases faults _id teacherData db :
  (db_students (TeacherServiceExt.createTeacher faults _id teacherData db).2 = db_students db
   ∧ db_teachers (TeacherServiceExt.createTeacher faults _id teacherData db).2 = db_teachers db)
  ∨ (db_teachers db !! _id = None
     ∧ (∀ k a, db_teachers db !! k = Some a →
               Teacher.userId a ≠ Teacher.userId teacherData)
     ∧ db_teachers (TeacherServiceExt.createTeacher faults _id teacherData db).2
       = <[_id := teacherData]> (db_teachers db)
     ∧ db_students (TeacherServiceExt.createTeacher faults _id teacherData db).2
       = db_students db).
Proof.
  unfold TeacherServiceExt.createTeacher.
  destruct (db_users db !! Teacher.userId teacherData) as [u|]; [|by left].
  destruct (findFirst _ (db_teachers db)) as [kv|] eqn:Hfind; [by left|].
  pose proof (proj1 (findFirst_None _ _) Hfind) as Hnone.
  destruct (decide (User.role u = User.teacher)); simpl.
  - destruct (faults 1); [by left|].
    destruct (db_teachers db !! _id) eqn:Hid; [by left|]. right. simpl. eauto.
  - destruct (faults 0); [by left|]. destruct (faults 1); [by left|]. simpl.
    destruct (db_teachers db !! _id) eqn:Hid; [by left|]. right. simpl. eauto.
Qed.

Lemma profile_exec_unique op db : unique_profiles db → unique_profiles (profile_exec op db).
Proof.
  intros Hu. destruct op as [f i d|f i d|s|t|u|f u r]; simpl.
  - destruct (createStudent_cases f i d db) as [[Hs Ht]|(Hid & Hnone & Hs & Ht)].
    + apply (unique_profiles_shrink db); [by rewrite Hs|by rewrite Ht|done].
    + destruct Hu as [H1 H2]. split.
      * intros a b s1 s2. rewrite Hs.
        intros [[<- <-]|[Ha Hs1]]%lookup_insert_Some [[<- <-]|[Hb Hs2]]%lookup_insert_Some Heq;
          [done| | |by eapply H1].
        -- by destruct (Hnone _ _ Hs2).
        -- by destruct (Hnone _ _ Hs1).
      * intros a b t1 t2. rewrite Ht. apply H2.
  - destruct (createTeacher_cases f i d db) as [[Hs Ht]|(Hid & Hnone & Ht & Hs)].
    + apply (unique_profiles_shrink db); [by rewrite Hs|by rewrite Ht|done].
    + destruct Hu as [H1 H2]. split.
      * intros a b s1 s2. rewrite Hs. apply H1.
      * intros a b t1 t2. rewrite Ht.
        intros [[<- <-]|[Ha Ht1]]%lookup_insert_Some [[<- <-]|[Hb Ht2]]%lookup_insert_Some Heq;
          [done| | |by eapply H2].
        -- by destruct (Hnone _ _ Ht2).
        -- by destruct (Hnone _ _ Ht1).
  - apply (unique_profiles_shrink db); [| |done].
    + intros k a. unfold StudentService.deleteStudent.
      destruct (db_students db !! s) as [st|]; [|done].
      destruct (0 <? length (Student.classrooms st)); [done|]. simpl.
      by intros [_ ?]%lookup_delete_Some.
    + intros k a. unfold StudentService.deleteStudent.
      destruct (db_students db !! s) as [st|]; [|done].
      by destruct (0 <? length (Student.classrooms st)).
  - destruct (deleteTeacher_cases t db) as [->|(t0 & db1 & _ & _ & Hts & _ & Hss & ->)]; [done|].
    apply (unique_profiles_shrink db); [| |done]; simpl.
    + by rewrite Hss.
    + rewrite Hts. intros k a. by intros [_ ?]%lookup_delete_Some.
  - apply (unique_profiles_shrink db); [| |done]; intros k a;
      unfold UserService.deleteUser;
      destruct (db_users db !! u) as [usr|]; try done;
      destruct (User.role usr); simpl; try done; apply deleteFirst_lookup.
  - apply (unique_profiles_shrink db); [| |done]; intros k a;
      unfold UserService.updateUserRole, UserService.findByIdAndUpdate;
      destruct (UserService.roleOfString r); try done;
      destruct (f 0); try done; by destruct (db_users db !! u).
Qed.

(** X10. At most one student profile and one teacher profile per user: if
    that holds, it holds again after any sequence of [createStudent],
    [createTeacher], [deleteStudent], [deleteTeacher], [deleteUser] and
    [updateUserRole] calls, with any arguments, returning or throwing. *)
Theorem unique_profiles_invariant (db : Store) (ops : list ProfileOp)
    (H : unique_profiles db) :
  unique_profiles (profile_run ops db).
Proof.
  revert db H. induction ops as [|op ops IH]; intros db H; [done|].
  simpl. apply IH. by apply profile_exec_unique.
Qed.

Lemma unique_profiles_db_admin : unique_profiles db_admin.
Proof.
  split.
  - intros i j s1 s2 Hi. simpl in Hi. by rewrite lookup_empty in Hi.
  - intros i j t1 t2 Hi Hj. simpl in Hi, Hj.
    apply lookup_singleton_Some in Hi as [<- _].
    by apply lookup_singleton_Some in Hj as [<- _].
Qed.

Lemma unique_profiles_invariant_witness :
  unique_profiles db_admin
  ∧ unique_profiles
      (profile_run
         [CreateStudent no_faults 1 (Student.mk 18 []);
          CreateStudent no_faults 2 (Student.mk 18 []);
          CreateTeacher no_faults 8 (Teacher.mk 17 []);
          CreateTeacher no_faults 8 (Teacher.mk 18 []);
          ChangeRole no_faults 18 "admin";
          DropUser 18;
          DropTeacher 7] db_admin)
  ∧ db_students
      (profile_run
         [CreateStudent no_faults 1 (Student.mk 18 []);
          CreateStudent no_faults 2 (Student.mk 18 []);
          CreateTeacher no_faults 8 (Teacher.mk 17 []);
          CreateTeacher no_faults 8 (Teacher.mk 18 [])] db_admin)
    = {[ 1 := Student.mk 18 [] ]}.
Proof.
  split; [exact unique_profiles_db_admin|].
  split; [|vm_compute; reflexivity].
  exact (unique_profiles_invariant db_admin _ unique_profiles_db_admin).
Defined.

(** X11. [createStudent] first gives the user the role 'student' and then
    creates the profile, outside any transaction. For a user of another
    role with no student profile and a new [_id]: if the profile is created
    the call returns it, the user is a student and the profile is stored;
    if creating the profile fails the call throws, no profile is stored,
    and the user keeps the role 'student' it was just given. *)
Theorem createStudent_role_then_profile (faults : Faults) (_id : nat)
    (studentData : Student.t) (db : Store) (u : User.t)
    (Hu : db_users db !! Student.userId studentData = Some u)
    (Hrole : User.role u ≠ User.student)
    (Hfree : ∀ k a, db_students db !! k = Some a →
                    Student.userId a ≠ Student.userId studentData)
    (Hid : db_students db !! _id = None)
    (Hsave : faults 0 = false) :
  let switched :=
    with_users (insert (Student.userId studentData) (User.set_role User.student u)) db in
  StudentServiceExt.createStudent faults _id studentData db
  = if faults 1
    then (Threw (Known WriteFailed), switched)
    else (Returned studentData, with_students (insert _id studentData) switched).
Proof.
  unfold StudentServiceExt.createStudent. rewrite Hu.
  rewrite (proj2 (findFirst_None _ _)) by exact Hfree.
  rewrite decide_False by done. rewrite Hsave. simpl.
  destruct (faults 1); [done|]. by rewrite Hid.
Qed.

Lemma createStudent_role_then_profile_witness :
  (User.role <$> db_users db_admin !! 17) = Some User.admin
  ∧ StudentServiceExt.createStudent (λ n, bool_decide (n = 1)) 1 (Student.mk 17 []) db_admin
    = (Threw (Known WriteFailed),
       with_users (insert 17 (User.set_role User.student (User.mk 170 171 172 User.admin true)))
         db_admin)
  ∧ StudentServiceExt.createStudent no_faults 1 (Student.mk 17 []) db_admin
    = (Returned (Student.mk 17 []),
       with_students (insert 1 (Student.mk 17 []))
         (with_users
            (insert 17 (User.set_role User.student (User.mk 170 171 172 User.admin true)))
            db_admin)).
Proof.
  split; [vm_compute; reflexivity|].
  assert (db_users db_admin !! Student.userId (Student.mk 17 [])
          = Some (User.mk 170 171 172 User.admin true)) as Hu by (vm_compute; reflexivity).
  assert (∀ k a, db_students db_admin !! k = Some a →
                 Student.userId a ≠ Student.userId (Student.mk 17 [])) as Hfree.
  { intros k a Hk. simpl in Hk. by rewrite lookup_empty in Hk. }
  assert (db_students db_admin !! 1 = None) as Hid by (vm_compute; reflexivity).
  split.
  - rewrite (createStudent_role_then_profile (λ n, bool_decide (n = 1)) 1 (Student.mk 17 [])
               db_admin (User.mk 170 171 172 User.admin true) Hu
               ltac:(done) Hfree Hid eq_refl).
    reflexivity.
  - rewrite (createStudent_role_then_profile no_faults 1 (Student.mk 17 [])
               db_admin (User.mk 170 171 172 User.admin true) Hu
               ltac:(done) Hfree Hid eq_refl).
    reflexivity.
Defined.

(** X12. Creating a teacher profile and deleting it again does not give
    back the user's role. For a user of any role without a teacher profile,
    a new [_id] that no classroom names as its teacher, and writes that
    succeed: [createTeacher] returns, and [deleteTeacher] then returns true
    and leaves the store from before the creation, except that the user's
    role is 'student'. *)
Theorem createTeacher_deleteTeacher_role (_id : nat) (teacherData : Teacher.t)
    (db : Store) (u : User.t)
    (Hu : db_users db !! Teacher.userId teacherData = Some u)
    (Hfree : ∀ k a, db_teachers db !! k = Some a →
                    Teacher.userId a ≠ Teacher.userId teacherData)
    (Hid : db_teachers db !! _id = None)
    (Hnone : ∀ cid cl, db_classrooms db !! cid = Some cl → Classroom.teacherId cl ≠ _id) :
  ∃ db1,
    TeacherServiceExt.createTeacher no_faults _id teacherData db = (Returned teacherData, db1)
    ∧ (User.role <$> db_users db1 !! Teacher.userId teacherData) = Some User.teacher
    ∧ db_teachers db1 !! _id = Some teacherData
    ∧ TeacherService.deleteTeacher _id db1
      = (Ok true,
         with_users (insert (Teacher.userId teacherData) (User.set_role User.student u)) db).
Proof.
  unfold TeacherServiceExt.createTeacher. rewrite Hu.
  rewrite (proj2 (findFirst_None _ _)) by exact Hfree.
  assert (∀ db1,
            db_users db1 !! Teacher.userId teacherData = Some (User.set_role User.teacher u) →
            db_teachers db1 = db_teachers db → db_classrooms db1 = db_classrooms db →
            db_students db1 = db_students db → db_grades db1 = db_grades db →
            db_attendances db1 = db_attendances db →
            <[Teacher.userId teacherData := User.set_role User.student u]> (db_users db1)
            = <[Teacher.userId teacherData := User.set_role User.student u]> (db_users db) →
            (User.role <$> db_users (with_teachers (insert _id teacherData) db1)
                             !! Teacher.userId teacherData) = Some User.teacher
            ∧ db_teachers (with_teachers (insert _id teacherData) db1) !! _id = Some teacherData
            ∧ TeacherService.deleteTeacher _id (with_teachers (insert _id teacherData) db1)
              = (Ok true,
                 with_users (insert (Teacher.userId teacherData)
                               (User.set_role User.student u)) db)) as Hgen.
  { intros db1 Hu1 Hts Hcs Hss Hgs Has Hus. simpl. rewrite Hu1. simpl.
    split; [done|]. split; [apply lookup_insert_eq|].
    unfold TeacherService.deleteTeacher. simpl. rewrite lookup_insert_eq.
    rewrite Hcs, (proj2 (countClassrooms_zero _ _)) by exact Hnone. simpl.
    rewrite Hu1. f_equal.
    destruct db as [us ss ts cs gs ats], db1 as [us1 ss1 ts1 cs1 gs1 ats1].
    unfold with_users, with_teachers. simpl in *. subst. f_equal.
    - done.
    - rewrite delete_insert_eq. by apply delete_id. }
  destruct (decide (User.role u = User.teacher)) as [Hr|Hr]; simpl; rewrite Hid.
  - eexists. split; [reflexivity|]. apply Hgen; try done.
    rewrite Hu. f_equal. destruct u. simpl in *. by subst.
  - eexists. split; [reflexivity|]. apply Hgen; try done; simpl.
    + apply lookup_insert_eq.
    + apply insert_insert_eq.
Qed.

(** The theorem at an administrator: after the teacher profile is created
    and deleted again, the administrator is a student. *)
Lemma createTeacher_deleteTeacher_role_witness :
  (User.role <$> db_users db_staff !! 19) = Some User.admin
  ∧ ∃ db1,
      TeacherServiceExt.createTeacher no_faults 9 (Teacher.mk 19 []) db_staff
        = (Returned (Teacher.mk 19 []), db1)
      ∧ (User.role <$> db_users db1 !! 19) = Some User.teacher
      ∧ db_teachers db1 !! 9 = Some (Teacher.mk 19 [])
      ∧ TeacherService.deleteTeacher 9 db1
        = (Ok true,
           with_users (λ _, {[ 19 := User.mk 190 191 192 User.student true ]}) db_staff)
      ∧ (User.role <$> db_users (TeacherService.deleteTeacher 9 db1).2 !! 19)
        = Some User.student.
Proof.
  split; [vm_compute; reflexivity|].
  destruct (createTeacher_deleteTeacher_role 9 (Teacher.mk 19 []) db_staff
              (User.mk 190 191 192 User.admin true))
    as (db1 & Hcreate & Hrole & Hprofile & Hdelete).
  - vm_compute. reflexivity.
  - intros k a Hk. simpl in Hk. by rewrite lookup_empty in Hk.
  - vm_compute. reflexivity.
  - intros cid cl Hc. simpl in Hc. by rewrite lookup_empty in Hc.
  - exists db1. split; [exact Hcreate|]. split; [exact Hrole|]. split; [exact Hprofile|].
    rewrite Hdelete. split; vm_compute; reflexivity.
Defined.

(** X13. [updateUser] takes [password] and [role] out of the top level of
    the request body only. After the call, returning or throwing, no user
    has appeared or gone, no user but the one named has changed and the
    other collections are as before; a request for a user that does not
    exist throws 'User not found'. A body of plain fields, without an
    update operator, leaves the role and the password of the user as they
    were, whatever fields it holds, and a call that returns has stored the
    username, email and active flag it gave. But a role or a password given
    under the operator [$set] is stored: the call then returns a user with
    that role. *)
Theorem updateUser_strips_top_level_only (faults : Faults) (userId : nat)
    (updateData : UserService.UpdateData) (db : Store) :
  let r := UserService.updateUser faults userId updateData db in
  (∀ id, is_Some (db_users r.2 !! id) ↔ is_Some (db_users db !! id))
  ∧ (∀ id, id ≠ userId → db_users r.2 !! id = db_users db !! id)
  ∧ db_students r.2 = db_students db ∧ db_teachers r.2 = db_teachers db
  ∧ db_classrooms r.2 = db_classrooms db ∧ db_grades r.2 = db_grades db
  ∧ db_attendances r.2 = db_attendances db
  ∧ (faults 0 = false → db_users db !! userId = None → r = (Threw NoUserFound, db))
  ∧ (UserService.dollar_set updateData = None →
     (∀ id, (User.role <$> db_users r.2 !! id) = (User.role <$> db_users db !! id)
            ∧ (User.password <$> db_users r.2 !! id)
              = (User.password <$> db_users db !! id))
     ∧ (∀ p, r.1 = Returned p →
             ∃ u u', db_users db !! userId = Some u ∧ db_users r.2 !! userId = Some u'
                     ∧ p = UserService.withoutPassword u'
                     ∧ User.username u'
                       = default (User.username u)
                           (UserService.new_username (UserService.top updateData))
                     ∧ User.email u'
                       = default (User.email u)
                           (UserService.new_email (UserService.top updateData))
                     ∧ User.isActive u'
                       = default (User.isActive u)
                           (UserService.new_isActive (UserService.top updateData))))
  ∧ (∀ s p, UserService.dollar_set updateData = Some s → r.1 = Returned p →
            ∃ u u', db_users db !! userId = Some u ∧ db_users r.2 !! userId = Some u'
                    ∧ p = UserService.withoutPassword u'
                    ∧ User.role u' = default (User.role u) (UserService.new_role s)
                    ∧ User.password u'
                      = default (User.password u) (UserService.new_password s)).
Proof.
  unfold UserService.updateUser, UserService.findByIdAndUpdate. simpl.
  destruct (faults 0); simpl.
  { repeat split; try done. }
  destruct (db_users db !! userId) as [u|] eqn:Hu; simpl.
  2:{ repeat split; try done. }
  split.
  { intros id. rewrite lookup_insert.
    destruct (decide (userId = id)) as [<-|Hne]; [|done]. rewrite Hu. by split. }
  split.
  { intros id Hne. by rewrite lookup_insert_ne. }
  repeat (split; [done|]).
  split.
  - intros Hset. split.
    + intros id. rewrite !lookup_insert.
      destruct (decide (userId = id)) as [<-|Hne]; [|done]. rewrite Hu. simpl.
      unfold UserService.applyUpdate, UserService.assignments, UserService.safeUpdateData.
      simpl. by rewrite Hset.
    + intros p [= <-]. exists u. eexists. split; [done|]. rewrite lookup_insert_eq.
      split; [done|]. split; [done|].
      unfold UserService.applyUpdate, UserService.assignments, UserService.safeUpdateData.
      simpl. by rewrite Hset.
  - intros s p Hset [= <-]. exists u. eexists. split; [done|]. rewrite lookup_insert_eq.
    split; [done|]. split; [done|].
    unfold UserService.applyUpdate, UserService.assignments, UserService.safeUpdateData.
    simpl. rewrite Hset. simpl. by destruct (UserService.new_role s), (UserService.new_password s).
Qed.

(** A request that carries a role and a password at its top level changes
    neither; the same two under [$set] make student 18 an administrator
    with a password of the request's choosing. *)
Example updateUser_strips_role_and_password :
  UserService.updateUser no_faults 18
    {| UserService.top :=
         {| UserService.new_username := Some 5; UserService.new_email := None;
            UserService.new_password := Some 6; UserService.new_role := Some User.admin;
            UserService.new_isActive := Some false |};
       UserService.dollar_set := None |} db_admin
  = (Returned (UserService.mkPublicUser 5 181 User.student false),
     with_users (insert 18 (User.mk 5 181 182 User.student false)) db_admin)
  ∧ UserService.updateUser no_faults 18
      {| UserService.top := UserService.noFields;
         UserService.dollar_set :=
           Some {| UserService.new_username := None; UserService.new_email := None;
                   UserService.new_password := Some 6;
                   UserService.new_role := Some User.admin;
                   UserService.new_isActive := None |} |} db_admin
    = (Returned (UserService.mkPublicUser 180 181 User.admin true),
       with_users (insert 18 (User.mk 180 181 6 User.admin true)) db_admin).
Proof. split; vm_compute; reflexivity. Qed.

(** X14. [deleteUser] removes a student's user and profile without looking
    at enrollments and without the cascade of [deleteStudent]: for a user
    of role 'student' with a profile (profiles being unique per user), the
    call returns true, user and profile are gone, and classrooms, grades and
    attendance documents, also those that reference the profile, are
    exactly as before. *)
Theorem deleteUser_skips_cascade (userId studentId : nat) (db : Store)
    (u : User.t) (st : Student.t)
    (Hu : db_users db !! userId = Some u)
    (Hrole : User.role u = User.student)
    (Hs : db_students db !! studentId = Some st)
    (Hof : Student.userId st = userId)
    (Huniq : unique_profiles db) :
  ∃ db',
    UserService.deleteUser userId db = (Returned true, db')
    ∧ db_users db' = delete userId (db_users db)
    ∧ db_students db' = delete studentId (db_students db)
    ∧ db_classrooms db' = db_classrooms db
    ∧ db_grades db' = db_grades db
    ∧ db_attendances db' = db_attendances db
    ∧ db_teachers db' = db_teachers db.
Proof.
  unfold UserService.deleteUser. rewrite Hu, Hrole. eexists. split; [reflexivity|].
  simpl. split; [done|]. split; [|done].
  unfold deleteFirst.
  destruct (findFirst (λ s, Student.userId s = userId) (db_students db)) as [[k a]|] eqn:Hf.
  - apply findFirst_Some in Hf as [Hk Ha]. simpl.
    destruct Huniq as [H1 _]. by rewrite (H1 k studentId a st Hk Hs) by congruence.
  - exfalso. by apply (proj1 (findFirst_None _ _) Hf studentId st).
Qed.

Lemma deleteUser_skips_cascade_witness :
  (Classroom.students <$> db_classrooms db_users_full !! 1) = Some [1]
  ∧ StudentService.deleteStudent 1 db_users_full = (Err StudentStillEnrolled, db_users_full)
  ∧ ∃ db',
      UserService.deleteUser 11 db_users_full = (Returned true, db')
      ∧ db_users db' = delete 11 (db_users db_users_full)
      ∧ db_students db' = delete 1 (db_students db_users_full)
      ∧ db_classrooms db' = db_classrooms db_users_full
      ∧ db_grades db' = db_grades db_users_full
      ∧ db_attendances db' = db_attendances db_users_full
      ∧ db_teachers db' = db_teachers db_users_full.
Proof.
  split; [vm_compute; reflexivity|]. split; [vm_compute; reflexivity|].
  apply (deleteUser_skips_cascade 11 1 db_users_full
           (User.mk 110 111 112 User.student true) (Student.mk 11 [1]));
    [vm_compute; reflexivity|reflexivity|vm_compute; reflexivity|reflexivity|].
  split.
  - intros i j s1 s2 Hi Hj. simpl in Hi, Hj.
    apply lookup_insert_Some in Hi as [[<- <-]|[_ Hi]];
      apply lookup_insert_Some in Hj as [[<- <-]|[_ Hj]];
      try apply lookup_singleton_Some in Hi as [<- <-];
      try apply lookup_singleton_Some in Hj as [<- <-]; simpl; done || lia.
  - intros i j t1 t2 Hi Hj. simpl in Hi, Hj.
    apply lookup_singleton_Some in Hi as [<- _].
    by apply lookup_singleton_Some in Hj as [<- _].
Defined.

(** ** The records of an attendance document *)

Lemma hasStudent_false sid rs :
  AttendanceServiceExt.hasStudent sid rs = false ↔
  ∀ r, r ∈ rs → Attendance.studentId r ≠ sid.
Proof.
  unfold AttendanceServiceExt.hasStudent. induction rs as [|r rs IH]; simpl.
  - split; [|done]. intros _ r Hr. inversion Hr.
  - rewrite orb_false_iff, IH, bool_decide_eq_false. split.
    + intros [Hr Hrs] r' [->|Hin]%elem_of_cons; [done|by apply Hrs].
    + intros Hall. split; [apply Hall; by left|].
      intros r' Hin. apply Hall. by right.
Qed.

Lemma findIndex_cons sid r rs :
  AttendanceServiceExt.findIndex sid (r :: rs)
  = if bool_decide (Attendance.studentId r = sid) then Some 0
    else S <$> AttendanceServiceExt.findIndex sid rs.
Proof. reflexivity. Qed.

Lemma findIndex_None sid rs :
  AttendanceServiceExt.findIndex sid rs = None ↔
  ∀ r, r ∈ rs → Attendance.studentId r ≠ sid.
Proof.
  induction rs as [|r rs IH].
  - split; [|done]. intros _ r Hr. inversion Hr.
  - rewrite findIndex_cons. case_bool_decide as Hr.
    + split; [done|]. intros Hall. exfalso. apply (Hall r); [by left|done].
    + rewrite fmap_None. split.
      * intros Hrs r' [->|Hin]%elem_of_cons; [done|]. by apply (proj1 IH Hrs).
      * intros Hall. apply (proj2 IH). intros r' Hin. apply Hall. by right.
Qed.

Lemma findIndex_Some sid rs i :
  AttendanceServiceExt.findIndex sid rs = Some i →
  ∃ r, rs !! i = Some r ∧ Attendance.studentId r = sid
       ∧ ∀ j r', j < i → rs !! j = Some r' → Attendance.studentId r' ≠ sid.
Proof.
  revert i. induction rs as [|r rs IH]; intros i; [done|].
  rewrite findIndex_cons. case_bool_decide as Hr.
  - intros [= <-]. exists r. split; [done|]. split; [done|]. intros j r' Hj. lia.
  - intros [i' [Hi' ->]]%fmap_Some. destruct (IH i' Hi') as (r0 & Hr0 & Hsid & Hbefore).
    exists r0. split; [done|]. split; [done|].
    intros [|j] r' Hj Hlk; simpl in Hlk; [by injection Hlk as <-|].
    apply (Hbefore j); [lia|done].
Qed.

Lemma NoDup_fmap_filter {A B} (f : A → B) (P : A → Prop) `{∀ a, Decision (P a)} (l : list A) :
  NoDup (f <$> l) → NoDup (f <$> filter P l).
Proof.
  induction l as [|a l IH]; simpl; [done|].
  intros [Ha Hl]%NoDup_cons. destruct (decide (P a)).
  - rewrite filter_cons_True by done. simpl. apply NoDup_cons. split; [|by apply IH].
    intros (a' & Heq & Hin)%list_elem_of_fmap. apply Ha.
    apply list_elem_of_fmap. exists a'. split; [done|].
    by apply list_elem_of_filter in Hin as [_ ?].
  - rewrite filter_cons_False by done. by apply IH.
Qed.

Lemma filter_all {A} (P : A → Prop) `{∀ a, Decision (P a)} (l : list A) :
  (∀ x, x ∈ l → P x) → filter P l = l.
Proof.
  induction l as [|a l IH]; intros Hall; [done|].
  rewrite filter_cons_True by (apply Hall; by left).
  f_equal. apply IH. intros x Hx. apply Hall. by right.
Qed.

Lemma updateRecord_studentId d r :
  Attendance.studentId (AttendanceServiceExt.updateRecord d r) = Attendance.studentId r.
Proof. done. Qed.

Lemma fmap_studentId_alter d (i : nat) (rs : list Attendance.AttendanceRecord) :
  Attendance.studentId <$> alter (AttendanceServiceExt.updateRecord d) i rs
  = Attendance.studentId <$> rs.
Proof.
  revert i. induction rs as [|r rs IH]; intros [|i]; simpl; [done..|].
  f_equal. apply IH.
Qed.

Lemma record_exec_one_each op db : one_record_each db → one_record_each (record_exec op db).
Proof.
  intros Hone. destruct op as [i s d|i s d|i s|i|s]; simpl.
  - unfold AttendanceServiceExt.addStudentToAttendance.
    destruct (db_attendances db !! i) as [a|] eqn:Ha; [|done].
    destruct (AttendanceServiceExt.hasStudent s (Attendance.records a)) eqn:Hhas; [done|].
    intros id a'. simpl. intros [[<- <-]|[_ Hlk]]%lookup_insert_Some; [|by eapply Hone].
    simpl. rewrite fmap_app. apply NoDup_app. split; [by eapply Hone|].
    split; [|apply NoDup_singleton]. simpl.
    intros x (r & -> & Hin)%list_elem_of_fmap Hx%list_elem_of_singleton.
    by apply (proj1 (hasStudent_false _ _) Hhas r).
  - unfold AttendanceServiceExt.updateStudentAttendance.
    destruct (db_attendances db !! i) as [a|] eqn:Ha; [|done].
    destruct (AttendanceServiceExt.findIndex s (Attendance.records a)); [|done].
    intros id a'. simpl. intros [[<- <-]|[_ Hlk]]%lookup_insert_Some; [|by eapply Hone].
    simpl. rewrite fmap_studentId_alter. by eapply Hone.
  - unfold AttendanceServiceExt.removeStudentFromAttendance.
    destruct (db_attendances db !! i) as [a|] eqn:Ha; [|done].
    intros id a'. simpl. intros [[<- <-]|[_ Hlk]]%lookup_insert_Some; [|by eapply Hone].
    simpl. apply NoDup_fmap_filter. by eapply Hone.
  - unfold AttendanceServiceExt.deleteAttendance.
    destruct (db_attendances db !! i) as [a|] eqn:Ha; [|done].
    intros id a'. simpl. intros [_ Hlk]%lookup_delete_Some. by eapply Hone.
  - unfold StudentService.deleteStudent.
    destruct (db_students db !! s) as [st|]; [|done].
    destruct (0 <? length (Student.classrooms st)); [done|].
    intros id a'. simpl. rewrite cleanAttendances_lookup.
    destruct (db_attendances db !! id) as [a|] eqn:Ha; [|done].
    case_decide; [|intros [= <-]; by eapply Hone].
    unfold cleaned. case_decide; [done|]. intros [= <-]. simpl.
    apply NoDup_fmap_filter. by eapply Hone.
Qed.

(** X15. One record per student and day: if no stored attendance document
    holds two records of the same student, none does after any sequence of
    [addStudentToAttendance], [updateStudentAttendance],
    [removeStudentFromAttendance], [deleteAttendance] and [deleteStudent]
    calls, with any arguments, returning or throwing. *)
Theorem one_record_each_invariant (db : Store) (ops : list RecordOp)
    (H : one_record_each db) :
  one_record_each (record_run ops db).
Proof.
  revert db H. induction ops as [|op ops IH]; intros db H; [done|].
  simpl. apply IH. by apply record_exec_one_each.
Qed.

Lemma one_record_each_db_cascade : one_record_each db_cascade.
Proof.
  intros id a Ha. simpl in Ha.
  apply lookup_insert_Some in Ha as [[_ <-]|[_ Ha]]; simpl; [apply NoDup_singleton|].
  apply lookup_insert_Some in Ha as [[_ <-]|[_ Ha]]; simpl.
  - apply NoDup_cons. split; [|apply NoDup_singleton].
    intros Hin%list_elem_of_singleton. lia.
  - apply lookup_singleton_Some in Ha as [_ <-]. simpl. apply NoDup_singleton.
Qed.

Lemma one_record_each_invariant_witness :
  one_record_each db_cascade
  ∧ one_record_each
      (record_run
         [AddRecord 1 2 (AttendanceServiceExt.mkStudentData None None);
          AddRecord 1 2 (AttendanceServiceExt.mkStudentData (Some Attendance.late) (Some 5%Z));
          UpdateRecord 2 1 (AttendanceServiceExt.mkStudentData (Some Attendance.excused) None);
          RemoveRecord 3 2;
          CascadeStudent 1;
          RemoveAttendance 3] db_cascade)
  ∧ (Attendance.records
       <$> db_attendances
             (record_run
                [AddRecord 1 2 (AttendanceServiceExt.mkStudentData None None);
                 AddRecord 1 2
                   (AttendanceServiceExt.mkStudentData (Some Attendance.late) (Some 5%Z))]
                db_cascade) !! 1)
    = Some [Attendance.mkRecord 1 Attendance.present 0;
            Attendance.mkRecord 2 Attendance.present 0].
Proof.
  split; [exact one_record_each_db_cascade|].
  split; [|vm_compute; reflexivity].
  exact (one_record_each_invariant db_cascade _ one_record_each_db_cascade).
Defined.

(** X16. Adding a student to an attendance document and removing it again
    gives back the store from before: after a successful
    [addStudentToAttendance], [removeStudentFromAttendance] returns the
    document as it was and leaves the original store. Adding the same
    student twice throws 'Student already exists in this attendance record'
    and changes nothing. *)
Theorem addStudent_removeStudent_round_trip (id studentId : nat)
    (studentData studentData' : AttendanceServiceExt.StudentData)
    (db db1 : Store) (a1 : Attendance.t)
    (Hadd : AttendanceServiceExt.addStudentToAttendance id studentId studentData db
            = (Returned a1, db1)) :
  (∃ a, db_attendances db !! id = Some a
        ∧ AttendanceServiceExt.removeStudentFromAttendance id studentId db1
          = (Returned a, db))
  ∧ AttendanceServiceExt.addStudentToAttendance id studentId studentData' db1
    = (Threw StudentRecordExists, db1).
Proof.
  revert Hadd. unfold AttendanceServiceExt.addStudentToAttendance at 1.
  destruct (db_attendances db !! id) as [a|] eqn:Ha; [|done].
  destruct (AttendanceServiceExt.hasStudent studentId (Attendance.records a)) eqn:Hhas; [done|].
  intros [= <- <-]. split.
  - exists a. split; [done|].
    unfold AttendanceServiceExt.removeStudentFromAttendance. simpl.
    rewrite lookup_insert_eq. simpl. rewrite filter_app. simpl.
    rewrite filter_cons_False by (simpl; intros Hne; by apply Hne). rewrite app_nil_r.
    assert (filter (λ r, Attendance.studentId r ≠ studentId) (Attendance.records a)
            = Attendance.records a) as ->.
    { apply filter_all. by apply hasStudent_false. }
    destruct a as [c d rs]. unfold Attendance.set_records. simpl. f_equal.
    destruct db as [us ss ts cs gs ats]. unfold with_attendances. simpl in *. f_equal.
    rewrite insert_insert_eq. by apply insert_id.
  - unfold AttendanceServiceExt.addStudentToAttendance. simpl. rewrite lookup_insert_eq.
    simpl.
    assert (AttendanceServiceExt.hasStudent studentId
              (Attendance.records a ++
               [{| Attendance.studentId := studentId;
                   Attendance.status :=
                     default Attendance.present
                       (AttendanceServiceExt.given_status studentData);
                   Attendance.minutesLate :=
                     match AttendanceServiceExt.given_minutesLate studentData with
                     | Some n => if (n =? 0)%Z then 0%Z else n
                     | None => 0%Z
                     end |}]) = true) as ->; [|done].
    unfold AttendanceServiceExt.hasStudent. rewrite existsb_app. simpl.
    rewrite bool_decide_eq_true_2 by done. by rewrite orb_true_r.
Qed.

Lemma addStudent_removeStudent_round_trip_witness :
  ∃ a1 db1,
    AttendanceServiceExt.addStudentToAttendance 3 1
      (AttendanceServiceExt.mkStudentData (Some Attendance.late) (Some 7%Z)) db_cascade
    = (Returned a1, db1)
    ∧ Attendance.records a1
      = [Attendance.mkRecord 2 Attendance.absent 0; Attendance.mkRecord 1 Attendance.late 7]
    ∧ (∃ a, db_attendances db_cascade !! 3 = Some a
            ∧ AttendanceServiceExt.removeStudentFromAttendance 3 1 db1 = (Returned a, db_cascade))
    ∧ AttendanceServiceExt.addStudentToAttendance 3 1
        (AttendanceServiceExt.mkStudentData None None) db1
      = (Threw StudentRecordExists, db1).
Proof.
  eexists _, _. split; [vm_compute; reflexivity|]. split; [reflexivity|].
  eapply (addStudent_removeStudent_round_trip 3 1
            (AttendanceServiceExt.mkStudentData (Some Attendance.late) (Some 7%Z))
            (AttendanceServiceExt.mkStudentData None None) db_cascade).
  vm_compute. reflexivity.
Defined.

(** X17. [updateStudentAttendance] changes the first record of the student
    and nothing else: when it returns, the stored record list is the former
    one with the record at the first index holding the student replaced;
    it keeps the student, takes the status the request gives, if any, and
    the minutes late the request gives, if any (also 0). It throws
    'Attendance record not found' without the document, 'Student record not
    found in this attendance' when no record is the student's, and then
    changes nothing. *)
Theorem updateStudentAttendance_spec (id studentId : nat)
    (updateData : AttendanceServiceExt.StudentData) (db : Store) :
  match db_attendances db !! id with
  | None =>
      AttendanceServiceExt.updateStudentAttendance id studentId updateData db
      = (Threw NoAttendanceFound, db)
  | Some a =>
      if AttendanceServiceExt.hasStudent studentId (Attendance.records a)
      then ∃ i r a' db',
          AttendanceServiceExt.updateStudentAttendance id studentId updateData db
          = (Returned a', db')
          ∧ db_attendances db' = <[id := a']> (db_attendances db)
          ∧ Attendance.records a !! i = Some r
          ∧ Attendance.studentId r = studentId
          ∧ (∀ j r', j < i → Attendance.records a !! j = Some r' →
                     Attendance.studentId r' ≠ studentId)
          ∧ Attendance.records a'
            = <[i := {| Attendance.studentId := studentId;
                        Attendance.status :=
                          default (Attendance.status r)
                            (AttendanceServiceExt.given_status updateData);
                        Attendance.minutesLate :=
                          default (Attendance.minutesLate r)
                            (AttendanceServiceExt.given_minutesLate updateData) |}]>
                (Attendance.records a)
          ∧ Attendance.classroomId a' = Attendance.classroomId a
          ∧ Attendance.date a' = Attendance.date a
      else AttendanceServiceExt.updateStudentAttendance id studentId updateData db
           = (Threw NoStudentRecord, db)
  end.
Proof.
  unfold AttendanceServiceExt.updateStudentAttendance.
  destruct (db_attendances db !! id) as [a|] eqn:Ha; [|done].
  destruct (AttendanceServiceExt.findIndex studentId (Attendance.records a)) as [i|] eqn:Hi.
  - assert (AttendanceServiceExt.hasStudent studentId (Attendance.records a) = true) as ->.
    { destruct (AttendanceServiceExt.hasStudent _ _) eqn:Hhas; [done|].
      pose proof (proj2 (findIndex_None _ _) (proj1 (hasStudent_false _ _) Hhas)).
      congruence. }
    destruct (findIndex_Some _ _ _ Hi) as (r & Hr & Hsid & Hbefore).
    exists i, r. eexists _, _. split; [reflexivity|]. simpl.
    split; [done|]. split; [done|]. split; [done|]. split; [done|]. split; [|done].
    apply list_eq. intros j. rewrite list_lookup_alter, list_lookup_insert.
    destruct (decide (i = j)) as [<-|Hne].
    + rewrite Hr. simpl. rewrite decide_True by (split; [done|by eapply lookup_lt_Some]).
      unfold AttendanceServiceExt.updateRecord. by rewrite Hsid.
    + rewrite decide_False; [done|]. by intros [? _].
  - by rewrite (proj2 (hasStudent_false _ _) (proj1 (findIndex_None _ _) Hi)).
Qed.

(** The theorem at the late arrival of student 1 on the second day: a
    request that gives 0 minutes and no status leaves the record 'late',
    sets its minutes to 0 and keeps the record of student 2. *)
Lemma updateStudentAttendance_spec_witness :
  db_attendances db_cascade !! 2
  = Some (Attendance.mk 4 86400000
            [Attendance.mkRecord 1 Attendance.late 5;
             Attendance.mkRecord 2 Attendance.present 0])
  ∧ ∃ a' db',
      AttendanceServiceExt.updateStudentAttendance 2 1
        (AttendanceServiceExt.mkStudentData None (Some 0%Z)) db_cascade = (Returned a', db')
      ∧ Attendance.records a'
        = [Attendance.mkRecord 1 Attendance.late 0; Attendance.mkRecord 2 Attendance.present 0]
      ∧ db_attendances db' !! 2 = Some a'.
Proof.
  assert (db_attendances db_cascade !! 2
          = Some (Attendance.mk 4 86400000
                    [Attendance.mkRecord 1 Attendance.late 5;
                     Attendance.mkRecord 2 Attendance.present 0])) as Hl
    by (vm_compute; reflexivity).
  split; [exact Hl|].
  pose proof (updateStudentAttendance_spec 2 1
                (AttendanceServiceExt.mkStudentData None (Some 0%Z)) db_cascade) as H.
  rewrite Hl in H. cbn in H.
  destruct H as (i & r & a' & db' & Hrun & Hdb & Hr & Hsid & _ & Hrecords & _).
  exists a', db'. split; [exact Hrun|]. split.
  - rewrite Hrecords. destruct i as [|[|i]]; simpl in Hr.
    + injection Hr as <-. reflexivity.
    + injection Hr as <-. simpl in Hsid. discriminate.
    + discriminate.
  - rewrite Hdb. apply lookup_insert_eq.
Defined.

(** ** Attendance statistics *)

Lemma statusCount_absent s g : s ∉ g.*1 → statusCount s g = 0.
Proof.
  induction g as [|[k n] g IH]; simpl; [done|].
  intros [Hne Hs]%not_elem_of_cons. rewrite decide_False by done. by apply IH.
Qed.

Lemma countStatus_keys s' g x :
  x ∈ (AttendanceServiceExt.countStatus s' g).*1 ↔ x ∈ g.*1 ∨ x = s'.
Proof.
  induction g as [|[k n] g IH]; simpl.
  - rewrite list_elem_of_singleton. split; [by right|]. intros [Hin|?]; [inversion Hin|done].
  - destruct (decide (k = s')) as [->|Hne]; simpl.
    + rewrite !elem_of_cons. split; [by left|]. intros [?| ->]; [done|by left].
    + rewrite !elem_of_cons, IH. tauto.
Qed.

Lemma countStatus_NoDup s' g : NoDup g.*1 → NoDup (AttendanceServiceExt.countStatus s' g).*1.
Proof.
  induction g as [|[k n] g IH]; simpl; [intros _; apply NoDup_singleton|].
  intros [Hk Hg]%NoDup_cons. destruct (decide (k = s')) as [->|Hne]; simpl.
  - by apply NoDup_cons.
  - apply NoDup_cons. split; [|by apply IH].
    rewrite countStatus_keys. intros [?|?]; done.
Qed.

Lemma countStatus_count s s' g :
  statusCount s (AttendanceServiceExt.countStatus s' g)
  = statusCount s g + (if decide (s' = s) then 1 else 0).
Proof.
  induction g as [|[k n] g IH]; simpl.
  - destruct (decide (s' = s)); done.
  - destruct (decide (k = s')) as [->|Hne]; simpl.
    + destruct (decide (s' = s)); lia.
    + destruct (decide (k = s)) as [->|Hks]; [|exact IH].
      rewrite decide_False by done. lia.
Qed.

Lemma countStatus_sum s' g :
  sum_list (AttendanceServiceExt.countStatus s' g).*2 = S (sum_list g.*2).
Proof.
  induction g as [|[k n] g IH]; [done|].
  cbn [AttendanceServiceExt.countStatus].
  destruct (decide (k = s')); [done|].
  rewrite !fmap_cons. cbn [snd sum_list sum_list_with]. rewrite IH. lia.
Qed.

Lemma foldl_countStatus rs g :
  NoDup g.*1 →
  let g' := foldl (λ groups r, AttendanceServiceExt.countStatus (Attendance.status r) groups)
              g rs in
  NoDup g'.*1
  ∧ (∀ s, statusCount s g' = statusCount s g + length (withStatus s rs))
  ∧ sum_list g'.*2 = sum_list g.*2 + length rs.
Proof.
  revert g. induction rs as [|r rs IH]; intros g Hg; simpl.
  - split; [done|]. split; [intros s; unfold withStatus; simpl; lia|lia].
  - destruct (IH _ (countStatus_NoDup (Attendance.status r) g Hg)) as (H1 & H2 & H3).
    split; [done|]. split.
    + intros s. rewrite H2, countStatus_count. unfold withStatus.
      rewrite filter_cons. destruct (decide (Attendance.status r = s)); simpl; lia.
    + rewrite H3, countStatus_sum. lia.
Qed.

Lemma addStat_field s f k n :
  statField s (AttendanceServiceExt.addStat f (k, n))
  = if decide (k = s) then n else statField s f.
Proof. destruct s, k; reflexivity. Qed.

Lemma foldl_addStat g f :
  NoDup g.*1 →
  AttendanceServiceExt.total (foldl AttendanceServiceExt.addStat f g)
  = AttendanceServiceExt.total f + sum_list g.*2
  ∧ (∀ s, statField s (foldl AttendanceServiceExt.addStat f g)
          = if decide (s ∈ g.*1) then statusCount s g else statField s f)
  ∧ AttendanceServiceExt.percentages (foldl AttendanceServiceExt.addStat f g)
    = AttendanceServiceExt.percentages f.
Proof.
  revert f. induction g as [|[k n] g IH]; intros f Hg.
  - cbn [foldl]. split; [symmetry; apply Nat.add_0_r|]. split; [|done]. intros s.
    destruct (decide (s ∈ ([] : list (Attendance.Status * nat)).*1)) as [Hin|_]; [|done].
    inversion Hin.
  - cbn [foldl]. rewrite fmap_cons in Hg. apply NoDup_cons in Hg as [Hk Hg].
    destruct (IH (AttendanceServiceExt.addStat f (k, n)) Hg) as (H1 & H2 & H3).
    split; [rewrite H1; rewrite fmap_cons; cbn [snd sum_list sum_list_with];
            unfold AttendanceServiceExt.addStat, id; cbn [AttendanceServiceExt.total]; lia|].
    split; [|by rewrite H3].
    intros s. rewrite H2, addStat_field. rewrite !fmap_cons. cbn [fst statusCount].
    destruct (decide (k = s)) as [->|Hne].
    + destruct (decide (s ∈ g.*1)) as [?|_]; [done|].
      destruct (decide (s ∈ s :: g.*1)) as [_|Hn]; [done|]. destruct Hn. by left.
    + destruct (decide (s ∈ g.*1)) as [Hin|Hnin].
      * destruct (decide (s ∈ k :: g.*1)) as [_|Hn]; [done|]. destruct Hn. by right.
      * destruct (decide (s ∈ k :: g.*1)) as [[?|?]%elem_of_cons|_]; done.
Qed.

Lemma length_by_status rs :
  length rs
  = length (withStatus Attendance.present rs) + length (withStatus Attendance.absent rs)
    + length (withStatus Attendance.late rs) + length (withStatus Attendance.excused rs).
Proof.
  unfold withStatus. induction rs as [|r rs IH]; [done|].
  rewrite !filter_cons. simpl. rewrite IH.
  destruct (Attendance.status r);
    repeat (destruct (decide _) as [?|?]; try discriminate; try done); simpl; lia.
Qed.

Lemma format_group rs :
  let f := AttendanceServiceExt.format (AttendanceServiceExt.group rs) in
  AttendanceServiceExt.total f = length rs
  ∧ (∀ s, statField s f = length (withStatus s rs))
  ∧ (AttendanceServiceExt.percentages f = None ↔ rs = [])
  ∧ (∀ p, AttendanceServiceExt.percentages f = Some p →
          AttendanceServiceExt.presentPercentage p
          = AttendanceServiceExt.percent (length (withStatus Attendance.present rs)) (length rs)).
Proof.
  unfold AttendanceServiceExt.format, AttendanceServiceExt.group.
  destruct (foldl_countStatus rs [] (NoDup_nil_2)) as (Hnd & Hcount & Hsum).
  set (g := foldl _ [] rs) in *.
  destruct (foldl_addStat g
              {| AttendanceServiceExt.total := 0; AttendanceServiceExt.present := 0;
                 AttendanceServiceExt.absent := 0; AttendanceServiceExt.late := 0;
                 AttendanceServiceExt.excused := 0;
                 AttendanceServiceExt.percentages := None |} Hnd) as (Ht & Hf & Hp).
  set (f0 := foldl AttendanceServiceExt.addStat _ g) in *.
  simpl in Ht, Hsum, Hp.
  assert (AttendanceServiceExt.total f0 = length rs) as Htotal by lia.
  assert (∀ s, statField s f0 = length (withStatus s rs)) as Hfield.
  { intros s. rewrite Hf. pose proof (Hcount s) as Hc. simpl in Hc.
    destruct (decide (s ∈ g.*1)); [lia|]. rewrite statusCount_absent in Hc by done.
    rewrite <- Hc. by destruct s. }
  destruct (0 <? AttendanceServiceExt.total f0) eqn:Hpos; simpl.
  - apply Nat.ltb_lt in Hpos. split; [done|]. split.
    { intros s. rewrite <- Hfield. by destruct s. }
    split.
    + split; [done|]. intros Hnil. rewrite Hnil in Htotal. cbn [length] in Htotal. lia.
    + intros p [= <-]. cbn [AttendanceServiceExt.presentPercentage].
      pose proof (Hfield Attendance.present) as H1. cbn [statField] in H1.
      by rewrite H1, Htotal.
  - apply Nat.ltb_ge in Hpos. split; [done|]. split; [done|]. split.
    + rewrite Hp. split; [|done]. intros _. apply length_zero_iff_nil. lia.
    + rewrite Hp. by intros p.
Qed.

Lemma elem_of_unwind (docs : list Attendance.t) r :
  r ∈ AttendanceServiceExt.unwind docs ↔ ∃ a, a ∈ docs ∧ r ∈ Attendance.records a.
Proof.
  unfold AttendanceServiceExt.unwind. rewrite list_elem_of_bind.
  split; intros (a & H1 & H2); exists a; done.
Qed.

(** X18. [getClassroomAttendanceStatistics] counts right. With [rs] the
    records of all attendance documents of the classroom: [total] is the
    number of records, each of [present], [absent], [late] and [excused]
    is the number of records with that status, the four add up to [total],
    and the percentage fields are there exactly when there is a record
    (so a classroom without attendance gets all zeros and no percentage). *)
Theorem classroom_attendance_statistics (classroomId : nat) (db : Store) :
  let rs :=
    AttendanceServiceExt.unwind
      (map_to_list
         (filter (λ kv : nat * Attendance.t, Attendance.classroomId kv.2 = classroomId)
            (db_attendances db))).*2 in
  let f := AttendanceServiceExt.getClassroomAttendanceStatistics classroomId db in
  (∀ r, r ∈ rs ↔ ∃ id a, db_attendances db !! id = Some a
                         ∧ Attendance.classroomId a = classroomId
                         ∧ r ∈ Attendance.records a)
  ∧ AttendanceServiceExt.total f = length rs
  ∧ AttendanceServiceExt.present f = length (withStatus Attendance.present rs)
  ∧ AttendanceServiceExt.absent f = length (withStatus Attendance.absent rs)
  ∧ AttendanceServiceExt.late f = length (withStatus Attendance.late rs)
  ∧ AttendanceServiceExt.excused f = length (withStatus Attendance.excused rs)
  ∧ AttendanceServiceExt.total f
    = AttendanceServiceExt.present f + AttendanceServiceExt.absent f
      + AttendanceServiceExt.late f + AttendanceServiceExt.excused f
  ∧ (AttendanceServiceExt.percentages f = None ↔ rs = []).
Proof.
  intros rs f.
  destruct (format_group rs) as (Ht & Hf & Hp & _).
  change (AttendanceServiceExt.format (AttendanceServiceExt.group rs)) with f in *.
  split.
  { intros r. unfold rs. rewrite elem_of_unwind. split.
    - intros (a & Ha & Hr). apply list_elem_of_fmap in Ha as ([id a'] & -> & Hin).
      apply elem_of_map_to_list in Hin. apply map_lookup_filter_Some in Hin as [Hlk Hc].
      by exists id, a'.
    - intros (id & a & Hlk & Hc & Hr). exists a. split; [|done].
      apply list_elem_of_fmap. exists (id, a). split; [done|].
      apply elem_of_map_to_list. by apply map_lookup_filter_Some. }
  split; [done|].
  pose proof (Hf Attendance.present) as H1. pose proof (Hf Attendance.absent) as H2.
  pose proof (Hf Attendance.late) as H3. pose proof (Hf Attendance.excused) as H4.
  simpl in H1, H2, H3, H4.
  repeat (split; [done|]). split; [|done].
  rewrite Ht, H1, H2, H3, H4. apply length_by_status.
Qed.

(** The statistics of classroom 4 in the example store: four records. *)
Example classroom_attendance_statistics_example :
  AttendanceServiceExt.getClassroomAttendanceStatistics 4 db_cascade
  = {| AttendanceServiceExt.total := 4; AttendanceServiceExt.present := 2;
       AttendanceServiceExt.absent := 1; AttendanceServiceExt.late := 1;
       AttendanceServiceExt.excused := 0;
       AttendanceServiceExt.percentages :=
         Some {| AttendanceServiceExt.presentPercentage := "50.00";
                 AttendanceServiceExt.absentPercentage := "25.00";
                 AttendanceServiceExt.latePercentage := "25.00";
                 AttendanceServiceExt.excusedPercentage := "0.00" |} |}
  ∧ AttendanceServiceExt.getClassroomAttendanceStatistics 5 db_cascade
    = {| AttendanceServiceExt.total := 0; AttendanceServiceExt.present := 0;
         AttendanceServiceExt.absent := 0; AttendanceServiceExt.late := 0;
         AttendanceServiceExt.excused := 0; AttendanceServiceExt.percentages := None |}.
Proof. split; vm_compute; reflexivity. Qed.

(** X19. [getStudentAttendanceStatistics] counts the records of the student
    and no other: with [rs] the records it groups, a record is in [rs]
    exactly when it is the student's and belongs to a stored attendance
    document (of the classroom, if one is given); [total] is their number,
    each status field the number of them with that status, the four add up
    to [total], and the percentages are there exactly when the student has
    a record. *)
Theorem student_attendance_statistics (studentId : nat) (classroomId : option nat)
    (db : Store) :
  let rs :=
    filter (λ r, Attendance.studentId r = studentId)
      (AttendanceServiceExt.unwind
         (map_to_list
            (filter (λ kv : nat * Attendance.t,
                       StudentService.hasRecordOf studentId kv.2
                       ∧ AttendanceServiceExt.ofClassroom classroomId kv.2 = true)
               (db_attendances db))).*2) in
  let f := AttendanceServiceExt.getStudentAttendanceStatistics studentId classroomId db in
  (∀ r, r ∈ rs ↔ Attendance.studentId r = studentId
                 ∧ ∃ id a, db_attendances db !! id = Some a
                           ∧ (∀ c, classroomId = Some c → Attendance.classroomId a = c)
                           ∧ r ∈ Attendance.records a)
  ∧ AttendanceServiceExt.total f = length rs
  ∧ AttendanceServiceExt.present f = length (withStatus Attendance.present rs)
  ∧ AttendanceServiceExt.absent f = length (withStatus Attendance.absent rs)
  ∧ AttendanceServiceExt.late f = length (withStatus Attendance.late rs)
  ∧ AttendanceServiceExt.excused f = length (withStatus Attendance.excused rs)
  ∧ AttendanceServiceExt.total f
    = AttendanceServiceExt.present f + AttendanceServiceExt.absent f
      + AttendanceServiceExt.late f + AttendanceServiceExt.excused f
  ∧ (AttendanceServiceExt.percentages f = None ↔ rs = []).
Proof.
  intros rs f.
  destruct (format_group rs) as (Ht & Hf & Hp & _).
  change (AttendanceServiceExt.format (AttendanceServiceExt.group rs)) with f in *.
  assert (∀ a, AttendanceServiceExt.ofClassroom classroomId a = true
               ↔ ∀ c, classroomId = Some c → Attendance.classroomId a = c) as Hof.
  { intros a. unfold AttendanceServiceExt.ofClassroom. destruct classroomId as [c|].
    - rewrite bool_decide_eq_true. split; [by intros <- c' [= <-]|]. intros Hc. by apply Hc.
    - split; [by intros _ c|done]. }
  split.
  { intros r. unfold rs. rewrite list_elem_of_filter, elem_of_unwind. split.
    - intros (Hsid & a & Ha & Hr). split; [done|].
      apply list_elem_of_fmap in Ha as ([id a'] & -> & Hin).
      apply elem_of_map_to_list in Hin. apply map_lookup_filter_Some in Hin as [Hlk [_ Hc]].
      exists id, a'. split; [done|]. split; [by apply Hof|done].
    - intros (Hsid & id & a & Hlk & Hc & Hr). split; [done|]. exists a. split; [|done].
      apply list_elem_of_fmap. exists (id, a). split; [done|].
      apply elem_of_map_to_list. apply map_lookup_filter_Some. split; [done|]. simpl.
      split; [|by apply Hof]. apply Exists_exists. by exists r. }
  split; [done|].
  pose proof (Hf Attendance.present) as H1. pose proof (Hf Attendance.absent) as H2.
  pose proof (Hf Attendance.late) as H3. pose proof (Hf Attendance.excused) as H4.
  simpl in H1, H2, H3, H4.
  repeat (split; [done|]). split; [|done].
  rewrite Ht, H1, H2, H3, H4. apply length_by_status.
Qed.

(** ** Pagination *)

Lemma ceilDiv_bounds (total : nat) (limit : Z) :
  (1 ≤ limit)%Z →
  (0 ≤ Paging.ceilDiv total limit)%Z
  ∧ (Z.of_nat total ≤ Paging.ceilDiv total limit * limit)%Z
  ∧ (Paging.ceilDiv total limit * limit < Z.of_nat total + limit)%Z.
Proof.
  intros Hl. unfold Paging.ceilDiv.
  pose proof (Z.div_mod (- Z.of_nat total) limit ltac:(lia)) as Hdm.
  pose proof (Z.mod_pos_bound (- Z.of_nat total) limit ltac:(lia)) as Hr.
  nia.
Qed.

Lemma skipLimit_page {A} (p l : nat) (found : list A) :
  1 ≤ p → 1 ≤ l →
  Paging.skipLimit ((Z.of_nat p - 1) * Z.of_nat l) (Z.of_nat l) found
  = Some (take l (drop ((p - 1) * l) found)).
Proof.
  intros Hp Hl. unfold Paging.skipLimit.
  assert ((0 <=? (Z.of_nat p - 1) * Z.of_nat l)%Z = true) as -> by (apply Z.leb_le; nia).
  assert ((0 <? Z.of_nat l)%Z = true) as -> by (apply Z.ltb_lt; lia).
  simpl. f_equal. rewrite Nat2Z.id. f_equal. f_equal. nia.
Qed.

Lemma pages_concat {A} (l n : nat) (found : list A) :
  concat (map (λ p, take l (drop ((p - 1) * l) found)) (seq 1 n)) = take (n * l) found.
Proof.
  induction n as [|n IH]; [done|].
  rewrite seq_S, map_app, concat_app, IH. simpl. rewrite app_nil_r.
  replace (n - 0) with n by lia. rewrite take_take_drop. f_equal. lia.
Qed.

(** X20. The pages of [getAllStudents] and [getAllTeachers] partition the
    matches. With a limit of at least 1 (the default 10 stands in for a
    limit of 0 or one that cannot be read): [pages] is the least number of
    pages of that size that hold all matches; the pages 1 to [pages], one
    after the other, are exactly the matches in order; every later page is
    empty; and a page number of 0 or one that cannot be read gives page 1. *)
Theorem paging_partitions {A : Type} (queryLimit : option Z) (found : list A)
    (Hlimit : (1 ≤ Paging.orDefault queryLimit 10)%Z) :
  let limit := Paging.orDefault queryLimit 10 in
  let pages := Paging.pages (Paging.getAll None queryLimit found).2 in
  (0 ≤ pages)%Z
  ∧ (Z.of_nat (length found) ≤ pages * limit)%Z
  ∧ ((pages - 1) * limit < Z.of_nat (length found) ∨ found = [])%Z
  ∧ concat (map (λ p, default [] (Paging.getAll (Some (Z.of_nat p)) queryLimit found).1)
              (seq 1 (Z.to_nat pages)))
    = found
  ∧ (∀ p, (pages < p)%Z → (Paging.getAll (Some p) queryLimit found).1 = Some [])
  ∧ Paging.getAll (Some 0%Z) queryLimit found = Paging.getAll (Some 1%Z) queryLimit found
  ∧ Paging.getAll None queryLimit found = Paging.getAll (Some 1%Z) queryLimit found.
Proof.
  intros limit pages. unfold pages, Paging.getAll. cbn [snd fst Paging.pages]. fold limit.
  destruct (ceilDiv_bounds (length found) limit Hlimit) as (H0 & H1 & H2).
  set (n := Paging.ceilDiv (length found) limit) in *.
  split; [done|]. split; [done|]. split.
  { destruct found as [|x found]; [by right|left]. simpl length in *. lia. }
  assert (limit = Z.of_nat (Z.to_nat limit)) as Hl by lia.
  split.
  { erewrite map_ext_in.
    - rewrite (pages_concat (Z.to_nat limit) (Z.to_nat n) found).
      apply take_ge. nia.
    - intros p Hp%in_seq.
      assert (Paging.orDefault (Some (Z.of_nat p)) 1 = Z.of_nat p) as ->.
      { unfold Paging.orDefault. destruct (Z.eqb_spec (Z.of_nat p) 0); [lia|done]. }
      rewrite Hl, skipLimit_page by lia. by rewrite !Nat2Z.id. }
  split.
  { intros p Hp.
    assert (Paging.orDefault (Some p) 1 = p) as ->.
    { unfold Paging.orDefault. destruct (Z.eqb_spec p 0); [lia|done]. }
    unfold Paging.skipLimit.
    assert ((0 <=? (p - 1) * limit)%Z = true) as -> by (apply Z.leb_le; nia).
    assert ((0 <? limit)%Z = true) as -> by (apply Z.ltb_lt; lia).
    simpl. f_equal. rewrite drop_ge; [by destruct (Z.to_nat limit)|]. nia. }
  done.
Qed.

Lemma paging_partitions_witness :
  (1 ≤ Paging.orDefault (Some 2%Z) 10)%Z
  ∧ Paging.getAll (Some 3%Z) (Some 2%Z) [10; 20; 30; 40; 50]
    = (Some [50], Paging.mkPagination 3 2 5 3)
  ∧ concat (map (λ p, default [] (Paging.getAll (Some (Z.of_nat p)) (Some 2%Z)
                                    [10; 20; 30; 40; 50]).1)
              (seq 1 3))
    = [10; 20; 30; 40; 50].
Proof.
  split; [vm_compute; discriminate|]. split; [vm_compute; reflexivity|].
  exact (proj1 (proj2 (proj2 (proj2
           (paging_partitions (Some 2%Z) [10; 20; 30; 40; 50] ltac:(vm_compute; discriminate)))))).
Defined.

(** ** The grade point average of [getStudentGrades] *)

Lemma falsy_div x y : falsy x → falsy (Float64.div x y).
Proof. unfold falsy. by destruct x, y. Qed.

Lemma falsy_mul x y : falsy x → falsy (Float64.mul x y).
Proof. unfold falsy. by destruct x, y. Qed.

Lemma falsy_add x y : falsy x → falsy y → falsy (Float64.add x y).
Proof. unfold falsy. by destruct x as [[]|[]| |[]], y as [[]|[]| |[]]. Qed.

Lemma falsy_ofQ q : Qnum q = 0%Z → Float64.ofQ q = Float64.zero.
Proof. unfold Float64.ofQ. by intros ->. Qed.

Lemma falsy_sum (f : Grade.t → Float64.t) gs a :
  falsy a → (∀ g, g ∈ gs → falsy (f g)) →
  falsy (foldl (λ sum grade, Float64.add sum (f grade)) a gs).
Proof.
  revert a. induction gs as [|g gs IH]; intros a Ha Hf; [done|].
  cbn [foldl]. apply IH.
  - apply falsy_add; [done|]. apply Hf, list_elem_of_here.
  - intros g' Hg'. apply Hf. by apply list_elem_of_further.
Qed.

(** A sum of positive zeros is a positive zero. *)
Lemma zero_sum (f : Grade.t → Float64.t) gs :
  (∀ g, g ∈ gs → ∃ s, f g = S754_zero s) →
  foldl (λ sum grade, Float64.add sum (f grade)) Float64.zero gs = Float64.zero.
Proof.
  induction gs as [|g gs IH]; intros Hf; [done|].
  cbn [foldl]. destruct (Hf g (list_elem_of_here _ _)) as [s ->].
  assert (Float64.add Float64.zero (S754_zero s) = Float64.zero) as -> by (by destruct s).
  apply IH. intros g' Hg'. apply Hf. by apply list_elem_of_further.
Qed.

(** X21. The [gpa] of [getStudentGrades] is [null] without a classroom and
    without grades; otherwise it is [null] when the double
    Σ(score_i / maxScore_i × weightage_i) / Σ(weightage_i) × 4 is 0 or NaN,
    and else what [toFixed(2)] returns of it (the sums are running sums of
    doubles in the order of the grades). So a student all of whose scores
    are 0 has the [gpa] [null], whatever the other numbers, where
    [getStudentAverage] prints "0.00" (for grades of non-zero [maxScore]
    and a positive sum of weights). For a score of 23 out of 160 the [gpa]
    is "0.57", the doubles giving less than the exact 0.575. *)
Theorem getStudentGrades_gpa_spec :
  (∀ grades, StudentServiceExt.gpa false grades = None)
  ∧ (∀ classroomGiven, StudentServiceExt.gpa classroomGiven [] = None)
  ∧ (∀ grades,
       grades ≠ [] →
       StudentServiceExt.gpa true grades
       = let quotient :=
           Float64.div
             (sum64 (map (λ g, Float64.mul
                                 (Float64.div (Float64.ofQ (Grade.score g))
                                    (Float64.ofQ (Grade.maxScore g)))
                                 (Float64.ofQ (Grade.weightage g))) grades))
             (sum64 (map (λ g, Float64.ofQ (Grade.weightage g)) grades)) in
         if Float64.truthy (Float64.mul quotient (Float64.ofZ 4))
         then Some (Float64.toFixed2 (Float64.mul quotient (Float64.ofZ 4)))
         else None)
  ∧ (∀ grades,
       (∀ g, g ∈ grades → Qnum (Grade.score g) = 0%Z) →
       StudentServiceExt.gpa true grades = None)
  ∧ (∀ grades,
       grades ≠ [] →
       (∀ g, g ∈ grades → Qnum (Grade.score g) = 0%Z) →
       (∀ g, g ∈ grades →
             (∃ s m e, Float64.ofQ (Grade.maxScore g) = S754_finite s m e)
             ∧ is_Some (Float64.toQ (Float64.ofQ (Grade.weightage g)))) →
       Float64.ltb Float64.zero (sum64 (map (λ g, Float64.ofQ (Grade.weightage g)) grades))
       = true →
       GradeService.average grades = GradeService.Text (Float64.Digits "0.00"))
  ∧ StudentServiceExt.gpa true [Grade.mk 1 4 Grade.quiz 23 160 1]
    = Some (Float64.Digits "0.57")
  ∧ toFixed2 (23 / 160 / 1 * 4) = "0.58".
Proof.
  split; [done|]. split; [by intros []|].
  assert (∀ (f : Grade.t → Float64.t) gs a,
            foldl (λ sum grade, Float64.add sum (f grade)) a gs
            = foldl Float64.add a (map f gs)) as Hfold.
  { intros f gs. induction gs as [|g gs IH]; intros a; [done|]. simpl. apply IH. }
  split.
  { intros grades Hne. unfold StudentServiceExt.gpa.
    destruct grades as [|g grades]; [done|].
    change (true && (0 <? length (g :: grades))) with true. cbv iota zeta.
    unfold sum64. by rewrite <- !Hfold. }
  split.
  { intros grades Hzero. unfold StudentServiceExt.gpa.
    destruct (true && (0 <? length grades)); [|done]. cbv zeta.
    assert (falsy (Float64.mul
                     (Float64.div
                        (foldl (λ sum grade,
                                  Float64.add sum
                                    (Float64.mul
                                       (Float64.div (Float64.ofQ (Grade.score grade))
                                          (Float64.ofQ (Grade.maxScore grade)))
                                       (Float64.ofQ (Grade.weightage grade))))
                           Float64.zero grades)
                        (foldl (λ sum grade,
                                  Float64.add sum (Float64.ofQ (Grade.weightage grade)))
                           Float64.zero grades))
                     (Float64.ofZ 4))) as Hf.
    { apply falsy_mul, falsy_div.
      apply (falsy_sum (λ grade, Float64.mul
                                   (Float64.div (Float64.ofQ (Grade.score grade))
                                      (Float64.ofQ (Grade.maxScore grade)))
                                   (Float64.ofQ (Grade.weightage grade)))); [done|].
      intros g Hg. apply falsy_mul, falsy_div. by rewrite (falsy_ofQ _ (Hzero g Hg)). }
    unfold falsy in Hf. by rewrite Hf. }
  split; [|split; vm_compute; reflexivity].
  intros grades Hne Hzero Hgood Hpos. rewrite average_weighted by done.
  rewrite Hpos.
  assert (sum64 (map (λ g, Float64.mul (percentage64_spec g)
                             (Float64.ofQ (Grade.weightage g))) grades)
          = Float64.zero) as Htws.
  { unfold sum64. rewrite <- Hfold. apply zero_sum. intros g Hg.
    destruct (Hgood g Hg) as [(s & m & e & Hm) [w Hw]].
    unfold percentage64_spec. rewrite (falsy_ofQ _ (Hzero g Hg)), Hm.
    let hundred := eval vm_compute in (Float64.ofZ 100) in
    change (Float64.ofZ 100) with hundred.
    destruct (Float64.ofQ (Grade.weightage g)) as [sw|sw| |sw mw ew]; try done;
      eexists; reflexivity. }
  unfold weightedAverage64_spec. rewrite Htws.
  destruct (sum64 (map (λ g, Float64.ofQ (Grade.weightage g)) grades))
    as [s|[]| |[] m e] eqn:Htw; try done.
Qed.

(** ** The subjects of a teacher *)

Lemma addSubject_cases t s docs :
  (TeacherServiceExt.addSubject t s docs).2 = docs
  ∨ ∃ teacher, docs !! t = Some teacher
      ∧ (s ∉ TeacherServiceExt.subjects teacher)
      ∧ (TeacherServiceExt.addSubject t s docs).2
        = <[t := TeacherServiceExt.mkDoc (TeacherServiceExt.profile teacher)
                   (TeacherServiceExt.subjects teacher ++ [s])]> docs.
Proof.
  unfold TeacherServiceExt.addSubject.
  destruct (docs !! t) as [teacher|] eqn:Ht; [|by left].
  case_bool_decide as Hin; [by left|]. right. by exists teacher.
Qed.

Lemma removeSubject_cases t s docs :
  (TeacherServiceExt.removeSubject t s docs).2 = docs
  ∨ ∃ teacher, docs !! t = Some teacher
      ∧ s ∈ TeacherServiceExt.subjects teacher
      ∧ (TeacherServiceExt.removeSubject t s docs).2
        = <[t := TeacherServiceExt.mkDoc (TeacherServiceExt.profile teacher)
                   (filter (λ x, x ≠ s) (TeacherServiceExt.subjects teacher))]> docs.
Proof.
  unfold TeacherServiceExt.removeSubject.
  destruct (docs !! t) as [teacher|] eqn:Ht; [|by left].
  case_bool_decide as Hin; [|by left]. right. by exists teacher.
Qed.

Lemma subject_exec_unique op docs :
  subjects_unique docs → subjects_unique (subject_exec op docs).
Proof.
  intros Hu. destruct op as [t s|t s]; simpl.
  - destruct (addSubject_cases t s docs) as [-> | (teacher & Ht & Hnin & ->)]; [done|].
    intros id d [[<- <-] | [_ Hd]]%lookup_insert_Some; [|by eapply Hu].
    simpl. apply NoDup_app. split; [by eapply Hu|]. split; [|apply NoDup_singleton].
    intros x Hx ->%list_elem_of_singleton. done.
  - destruct (removeSubject_cases t s docs) as [-> | (teacher & Ht & Hin & ->)]; [done|].
    intros id d [[<- <-] | [_ Hd]]%lookup_insert_Some; [|by eapply Hu].
    simpl. apply NoDup_filter. by eapply Hu.
Qed.

(** X22. No sequence of [addSubject] and [removeSubject] calls, refused or
    not, makes a teacher list a subject twice: [addSubject] refuses a
    subject that is listed, so lists without duplicates stay so. *)
Theorem subjects_unique_invariant (ops : list SubjectOp)
    (docs : gmap nat TeacherServiceExt.Doc) (Hunique : subjects_unique docs) :
  subjects_unique (subject_run ops docs).
Proof.
  revert docs Hunique. induction ops as [|op ops IH]; intros docs Hu; [done|].
  simpl. apply IH. by apply subject_exec_unique.
Qed.

Lemma subjects_unique_docs_subjects : subjects_unique docs_subjects.
Proof.
  intros id d Hd. unfold docs_subjects in Hd.
  apply lookup_singleton_Some in Hd as [<- <-]. simpl.
  apply (bool_decide_unpack _). by vm_compute.
Qed.

Lemma subjects_unique_invariant_witness :
  subjects_unique docs_subjects
  ∧ subject_run [AddSubject 7 "logic"; AddSubject 7 "optics"; RemoveSubject 7 "algebra"]
      docs_subjects
    = {[ 7 := TeacherServiceExt.mkDoc (Teacher.mk 17 [1]) ["logic"; "optics"] ]}
  ∧ NoDup ["logic"; "optics"].
Proof.
  split; [exact subjects_unique_docs_subjects|].
  split; [vm_compute; reflexivity|].
  apply (subjects_unique_invariant
           [AddSubject 7 "logic"; AddSubject 7 "optics"; RemoveSubject 7 "algebra"]
           docs_subjects subjects_unique_docs_subjects 7
           (TeacherServiceExt.mkDoc (Teacher.mk 17 [1]) ["logic"; "optics"])).
  vm_compute. reflexivity.
Defined.

Lemma filter_ne_absent (s : string) (l : list string) :
  s ∉ l → filter (λ x, x ≠ s) l = l.
Proof.
  induction l as [|x l IH]; [done|]. intros Hnin.
  apply not_elem_of_cons in Hnin as [Hne Hnin].
  rewrite filter_cons_True by done. by rewrite IH.
Qed.

(** X23. A subject that [addSubject] accepts is one that [removeSubject]
    takes away again: after a successful [addSubject], a second one is
    refused ('Teacher already has subject'), and [removeSubject] returns the
    teacher document as it was and leaves the collection as it was before
    the two calls; a [removeSubject] after that is refused ('Teacher does
    not have subject'). *)
Theorem addSubject_removeSubject_round_trip (teacherId : nat) (subject : string)
    (docs docs1 : gmap nat TeacherServiceExt.Doc) (teacher1 : TeacherServiceExt.Doc)
    (Hadd : TeacherServiceExt.addSubject teacherId subject docs = (Returned teacher1, docs1)) :
  ∃ teacher,
    docs !! teacherId = Some teacher
    ∧ (subject ∉ TeacherServiceExt.subjects teacher)
    ∧ TeacherServiceExt.subjects teacher1 = TeacherServiceExt.subjects teacher ++ [subject]
    ∧ TeacherServiceExt.addSubject teacherId subject docs1 = (Threw SubjectExists, docs1)
    ∧ TeacherServiceExt.removeSubject teacherId subject docs1 = (Returned teacher, docs)
    ∧ TeacherServiceExt.removeSubject teacherId subject docs = (Threw SubjectMissing, docs).
Proof.
  unfold TeacherServiceExt.addSubject in Hadd.
  destruct (docs !! teacherId) as [teacher|] eqn:Ht; [|done].
  case_bool_decide as Hnin; [done|]. injection Hadd as <- <-.
  exists teacher. split; [done|]. split; [done|]. split; [done|].
  assert (subject ∈ TeacherServiceExt.subjects teacher ++ [subject]) as Hin.
  { apply elem_of_app. right. by apply list_elem_of_singleton. }
  split; [|split].
  - unfold TeacherServiceExt.addSubject. rewrite lookup_insert_eq. simpl.
    by rewrite bool_decide_eq_true_2.
  - unfold TeacherServiceExt.removeSubject. rewrite lookup_insert_eq. simpl.
    rewrite bool_decide_eq_true_2 by done. simpl.
    rewrite filter_app, filter_ne_absent by done.
    rewrite filter_cons_False, filter_nil, app_nil_r by (by intros H; apply H).
    rewrite insert_insert_eq. destruct teacher as [p l]. simpl.
    by rewrite insert_id.
  - unfold TeacherServiceExt.removeSubject. rewrite Ht.
    by rewrite bool_decide_eq_false_2.
Qed.

Lemma addSubject_removeSubject_round_trip_witness :
  TeacherServiceExt.addSubject 7 "optics" docs_subjects
  = (Returned (TeacherServiceExt.mkDoc (Teacher.mk 17 [1]) ["algebra"; "logic"; "optics"]),
     {[ 7 := TeacherServiceExt.mkDoc (Teacher.mk 17 [1]) ["algebra"; "logic"; "optics"] ]})
  ∧ ∃ teacher,
      docs_subjects !! 7 = Some teacher
      ∧ TeacherServiceExt.removeSubject 7 "optics"
          {[ 7 := TeacherServiceExt.mkDoc (Teacher.mk 17 [1]) ["algebra"; "logic"; "optics"] ]}
        = (Returned teacher, docs_subjects).
Proof.
  assert (TeacherServiceExt.addSubject 7 "optics" docs_subjects
          = (Returned (TeacherServiceExt.mkDoc (Teacher.mk 17 [1])
                         ["algebra"; "logic"; "optics"]),
             {[ 7 := TeacherServiceExt.mkDoc (Teacher.mk 17 [1])
                       ["algebra"; "logic"; "optics"] ]})) as Hadd
    by (vm_compute; reflexivity).
  split; [exact Hadd|].
  destruct (addSubject_removeSubject_round_trip 7 "optics" _ _ _ Hadd)
    as (teacher & Ht & _ & _ & _ & Hrm & _).
  by exists teacher.
Defined.
